(** * tempo-planned-time-cli: the [get] command

    A shallow embedding of class [Get] of [lib/command-base.js] together with
    the parts of its two date libraries, [moment] and [moment-range], that the
    command calls.  The class validates the stored configuration, resolves
    the query dates from the command line, and projects the plans returned by
    the Tempo API onto the calendar days of the query range.

    Conventions of the embedding.
    - A [moment] value is either invalid (its time value is [NaN]) or a local
      calendar date with a time of day in milliseconds.  The local zone is
      taken to have a constant UTC offset, so a day is always 86400000 ms.
      Where a change of offset shows in what the command does, the zone is
      a parameter: a date parsed on a day whose midnight the clocks skip
      starts after midnight ([parseIn]), and the results on the 14-day
      limit are stated for any two moments, whatever their times of day.
    - Months are numbered from 0 as in [moment] ([_a[MONTH]]); [format] prints
      them from 1.
    - A thrown JavaScript exception is a value of [Exn]; a function that may
      throw returns [Result].
    - A plain JavaScript object used as a dictionary is an association list in
      insertion order, which is the order [for ... in] visits keys that are
      not array indices. *)

From Stdlib Require Import ZArith Lia List Bool Ascii String.
From Stdlib Require Import DecimalString DecimalN DecimalPos DecimalFacts.
From stdpp Require Import base gmap strings.

Import ListNotations.
Local Open Scope string_scope.
Local Open Scope Z_scope.

(* ===================================================================== *)
(** ** Calendar arithmetic (the proleptic Gregorian calendar of [Date]) *)
(* ===================================================================== *)

Module Calendar.

(** [moment]'s [isLeapYear]:
    [(year % 4 === 0 && year % 100 !== 0) || year % 400 === 0]. *)
Definition isLeapYear (year : Z) : bool :=
  ((Z.rem year 4 =? 0) && negb (Z.rem year 100 =? 0)) || (Z.rem year 400 =? 0).

(** [moment]'s [daysInMonth(year, month)] for a month in [0..11]:
    [modMonth === 1 ? (isLeapYear(year) ? 29 : 28)
                    : 31 - ((modMonth % 7) % 2)]. *)
Definition daysInMonth (year month : Z) : Z :=
  if month =? 1 then (if isLeapYear year then 29 else 28)
  else 31 - Z.rem (Z.rem month 7) 2.

Definition daysInYear (year : Z) : Z :=
  if isLeapYear year then 366 else 365.

(** Days from 0000-01-01 to the first day of [year] (for [0 <= year]). *)
Definition daysBeforeYear (year : Z) : Z :=
  365 * year + (year + 3) / 4 - (year + 99) / 100 + (year + 399) / 400.

(** Days from the first day of the year to the first day of [month]. *)
Definition daysBeforeMonth (year month : Z) : Z :=
  fold_right Z.add 0
    (map (fun k => daysInMonth year (Z.of_nat k)) (seq 0 (Z.to_nat month))).

(** Days from 0000-01-01 to 1970-01-01, the origin of [Date]'s time value. *)
Definition epochOffset : Z := 719528.

(** The day number of a calendar date, counted from 1970-01-01
    ([MakeDay] of ECMAScript). *)
Definition dayNumber (year month date : Z) : Z :=
  daysBeforeYear year + daysBeforeMonth year month + (date - 1) - epochOffset.

Definition msPerDay : Z := 86400000.

End Calendar.

(* ===================================================================== *)
(** ** Thrown exceptions *)
(* ===================================================================== *)

(** [throw new Error(message)], and the [TypeError] the runtime raises when a
    property of [null] or [undefined] is read. *)
Inductive Exn : Type :=
| Error (message : string)
| TypeError.

Inductive Result (A : Type) : Type :=
| Ok (value : A)
| Throw (exn : Exn).

Arguments Ok {A} value.
Arguments Throw {A} exn.

#[global] Instance Result_ret : MRet Result := fun A a => Ok a.

#[global] Instance Result_bind : MBind Result := fun A B k r =>
  match r with
  | Ok a => k a
  | Throw e => Throw e
  end.

(** [xs.forEach(f)] for an [f] that updates an accumulator and may throw. *)
Fixpoint forEachM {A S : Type} (f : S -> A -> Result S) (xs : list A) (s : S)
  : Result S :=
  match xs with
  | [] => Ok s
  | x :: rest => s' ← f s x; forEachM f rest s'
  end.

(* ===================================================================== *)
(** ** The [moment] library, as far as the command uses it *)
(* ===================================================================== *)

Module MomentJs.
Import Calendar.

(** A [moment]: invalid, or a local date ([month] from 0) and the
    milliseconds elapsed since local midnight. *)
Inductive Moment : Type :=
| Invalid
| Local (year month date ms : Z).

Definition isValid (m : Moment) : bool :=
  match m with
  | Invalid => false
  | Local _ _ _ _ => true
  end.

(** [m.valueOf()]: the time value; [None] stands for [NaN]. *)
Definition valueOf (m : Moment) : option Z :=
  match m with
  | Invalid => None
  | Local y mo d ms => Some (dayNumber y mo d * msPerDay + ms)
  end.

(** JavaScript's [<], [<=] and [==] on numbers: all false on [NaN]. *)
Definition num_lt (a b : option Z) : bool :=
  match a, b with
  | Some x, Some y => x <? y
  | _, _ => false
  end.

Definition num_le (a b : option Z) : bool :=
  match a, b with
  | Some x, Some y => x <=? y
  | _, _ => false
  end.

Definition num_eq (a b : option Z) : bool :=
  match a, b with
  | Some x, Some y => x =? y
  | _, _ => false
  end.

(** [a.isAfter(b)]: [a.valueOf() > b.valueOf()], false when either is
    invalid. *)
Definition isAfter (a b : Moment) : bool := num_lt (valueOf b) (valueOf a).

(** [a.isBefore(b)]. *)
Definition isBefore (a b : Moment) : bool := num_lt (valueOf a) (valueOf b).

(** [a.diff(b, 'days')]: [absFloor((a - b) / 864e5)], that is the quotient
    truncated toward zero; [NaN] when either is invalid.  For this unit
    [moment] subtracts the difference of the two UTC offsets from [a - b],
    so the quotient is taken on the difference of the two local times. *)
Definition diffDays (a b : Moment) : option Z :=
  match valueOf a, valueOf b with
  | Some x, Some y => Some (Z.quot (x - y) msPerDay)
  | _, _ => None
  end.

(** The calendar carry of [Date.prototype.setDate(getDate() + 1)]. *)
Definition nextDay (m : Moment) : Moment :=
  match m with
  | Invalid => Invalid
  | Local y mo d ms =>
      if d <? daysInMonth y mo then Local y mo (d + 1) ms
      else if mo <? 11 then Local y (mo + 1) 1 ms
      else Local (y + 1) 0 1 ms
  end.

(** [m.add(n, 'days')] for a count [n >= 0]. *)
Definition addDays (n : nat) (m : Moment) : Moment := Nat.iter n nextDay m.

(** [m.startOf('day')] and [m.endOf('day')]. *)
Definition startOfDay (m : Moment) : Moment :=
  match m with
  | Invalid => Invalid
  | Local y mo d _ => Local y mo d 0
  end.

Definition endOfDay (m : Moment) : Moment :=
  match m with
  | Invalid => Invalid
  | Local y mo d _ => Local y mo d (msPerDay - 1)
  end.

(** *** Formatting *)

(** ['' + Math.abs(number)] for an integer. *)
Definition decimal (n : Z) : string :=
  NilEmpty.string_of_uint (N.to_uint (Z.abs_N n)).

Fixpoint zeros (n : nat) : string :=
  match n with
  | O => ""
  | S k => String "0" (zeros k)
  end.

(** [zeroFill(number, targetLength)] (no forced sign). *)
Definition zeroFill (number : Z) (targetLength : nat) : string :=
  let absNumber := decimal number in
  (if 0 <=? number then "" else "-")
    +:+ zeros (targetLength - String.length absNumber)
    +:+ absNumber.

(** [m.format('YYYY-MM-DD')]. *)
Definition format (m : Moment) : string :=
  match m with
  | Invalid => "Invalid date"
  | Local y mo d _ =>
      zeroFill y 4 +:+ "-" +:+ zeroFill (mo + 1) 2 +:+ "-" +:+ zeroFill d 2
  end.

(** *** Parsing with a format, in the default (forgiving) mode

    [moment(input, 'YYYY-MM-DD')] is [configFromStringAndFormat] followed by
    [configFromArray] and [checkOverflow].  The format expands to the
    tokens [YYYY], [-], [MM], [-], [DD].  For each token in turn the
    remaining input is searched with the token's regular expression,
    which is not anchored: whatever precedes the match is skipped, and a
    token without a match leaves the input as it is. *)

Inductive Token : Type :=
| YYYY
| MM
| DD
| Lit (c : ascii).

Definition formatTokens : list Token := [YYYY; Lit "-"; MM; Lit "-"; DD].

Definition isDigit (c : ascii) : bool :=
  let n := nat_of_ascii c in ((48 <=? n) && (n <=? 57))%nat.

(** The longest prefix of at most [k] digits, and what follows it. *)
Fixpoint takeDigits (k : nat) (s : string) : string * string :=
  match k, s with
  | S k', String c rest =>
      if isDigit c
      then let '(ds, r) := takeDigits k' rest in (String c ds, r)
      else ("", s)
  | _, _ => ("", s)
  end.

(** [string.match(/\d{1,k}/)]: the leftmost match and the input after it. *)
Fixpoint matchDigits (k : nat) (s : string) : option (string * string) :=
  match s with
  | "" => None
  | String c rest =>
      if isDigit c then Some (takeDigits k s) else matchDigits k rest
  end.

(** [string.match(/c/)] for a literal character: the input after the first
    occurrence. *)
Fixpoint matchLit (c : ascii) (s : string) : option string :=
  match s with
  | "" => None
  | String c' rest => if Ascii.eqb c c' then Some rest else matchLit c rest
  end.

(** [toInt] on a string of digits. *)
Definition toInt (s : string) : Z :=
  fold_left (fun acc c => 10 * acc + (Z.of_nat (nat_of_ascii c) - 48))
            (list_ascii_of_string s) 0.

(** [hooks.parseTwoDigitYear]. *)
Definition parseTwoDigitYear (input : string) : Z :=
  toInt input + (if 68 <? toInt input then 1900 else 2000).

(** The parsing state: the unconsumed input and the array [_a], whose
    entries are absent until a token fills them. *)
Record Config : Type := mkConfig {
  input : string;
  aYear : option Z;
  aMonth : option Z;
  aDate : option Z
}.

(** One turn of the token loop of [configFromStringAndFormat]. *)
Definition parseToken (cfg : Config) (token : Token) : Config :=
  match token with
  | YYYY =>
      match matchDigits 4 (input cfg) with
      | Some (parsedInput, rest) =>
          let y := if (String.length parsedInput =? 2)%nat
                   then parseTwoDigitYear parsedInput
                   else toInt parsedInput in
          mkConfig rest (Some y) (aMonth cfg) (aDate cfg)
      | None => cfg
      end
  | MM =>
      match matchDigits 2 (input cfg) with
      | Some (parsedInput, rest) =>
          mkConfig rest (aYear cfg) (Some (toInt parsedInput - 1)) (aDate cfg)
      | None => cfg
      end
  | DD =>
      match matchDigits 2 (input cfg) with
      | Some (parsedInput, rest) =>
          mkConfig rest (aYear cfg) (aMonth cfg) (Some (toInt parsedInput))
      | None => cfg
      end
  | Lit c =>
      match matchLit c (input cfg) with
      | Some rest => mkConfig rest (aYear cfg) (aMonth cfg) (aDate cfg)
      | None => cfg
      end
  end.

(** [moment(input, 'YYYY-MM-DD')].

    The parsing flag [empty] stays set exactly when no date token matched.
    [YYYY] comes first and matches any digit, so that is when the year is
    absent.  With a year present [configFromArray] fills an absent month
    with 0 and an absent date with 1; [checkOverflow] then rejects a month
    outside [0..11] and a date outside [1..daysInMonth].

    The moment is built with [new Date(y, m, d)], the first instant of that
    local day.  [parse] is the function in a zone where every day starts at
    midnight; [parseIn] below is the general case. *)
Definition parse (s : string) : Moment :=
  let cfg := fold_left parseToken formatTokens (mkConfig s None None None) in
  match aYear cfg with
  | None => Invalid
  | Some y =>
      let mo := default 0 (aMonth cfg) in
      let d := default 1 (aDate cfg) in
      if (mo <? 0) || (11 <? mo) then Invalid
      else if (d <? 1) || (daysInMonth y mo <? d) then Invalid
      else Local y mo d 0
  end.

(** The local zone, as far as parsing depends on it: the time of day, in
    milliseconds, of the first instant of a local day.  It is 0 except on a
    day whose midnight a change of the clocks skips; there it is the time
    the clocks jump to, which is what [new Date(y, m, d)] denotes. *)
Definition Zone : Type := Z -> Z -> Z -> Z.

(** [moment(input, 'YYYY-MM-DD')] in a given zone. *)
Definition parseIn (zone : Zone) (s : string) : Moment :=
  let cfg := fold_left parseToken formatTokens (mkConfig s None None None) in
  match aYear cfg with
  | None => Invalid
  | Some y =>
      let mo := default 0 (aMonth cfg) in
      let d := default 1 (aDate cfg) in
      if (mo <? 0) || (11 <? mo) then Invalid
      else if (d <? 1) || (daysInMonth y mo <? d) then Invalid
      else Local y mo d (zone y mo d)
  end.

(** *** Durations *)

(** [Math.round(p / q)] for integers [p >= 0] and [q > 0], computed
    exactly. *)
Definition roundDiv (p q : Z) : Z := (2 * p + q) / (2 * q).

(** [moment.duration(seconds, 'seconds').humanize()] in the English locale
    with the default thresholds [ss: 44, s: 45, m: 45, h: 22, d: 26,
    M: 11].  The duration holds [seconds * 1000] milliseconds; each unit is
    the rounded quotient of its absolute value.  A month is 146097 / 4800
    days. *)
Definition humanize (secondsIn : Z) : string :=
  let milliseconds := Z.abs secondsIn * 1000 in
  let seconds := roundDiv milliseconds 1000 in
  let minutes := roundDiv milliseconds 60000 in
  let hours := roundDiv milliseconds 3600000 in
  let days := roundDiv milliseconds msPerDay in
  let months := roundDiv (milliseconds * 4800) (msPerDay * 146097) in
  let years := roundDiv (milliseconds * 4800) (msPerDay * 146097 * 12) in
  if seconds <=? 44 then "a few seconds"
  else if seconds <? 45 then decimal seconds +:+ " seconds"
  else if minutes <=? 1 then "a minute"
  else if minutes <? 45 then decimal minutes +:+ " minutes"
  else if hours <=? 1 then "an hour"
  else if hours <? 22 then decimal hours +:+ " hours"
  else if days <=? 1 then "a day"
  else if days <? 26 then decimal days +:+ " days"
  else if months <=? 1 then "a month"
  else if months <? 11 then decimal months +:+ " months"
  else if years <=? 1 then "a year"
  else decimal years +:+ " years".

End MomentJs.

(* ===================================================================== *)
(** ** The [moment-range] library *)
(* ===================================================================== *)

Module MomentRange.
Import Calendar MomentJs.

Record DateRange : Type := mkRange {
  rangeStart : Moment;
  rangeEnd : Moment
}.

(** [moment.range(start, end)]: the two ends are kept as given. *)
Definition range (s e : Moment) : DateRange := mkRange s e.

(** [this.intersect(other)]; [None] is the [null] it returns when the
    ranges share no stretch of time.  The ranges it builds from time
    values are built here from the moments that have those values. *)
Definition intersect (this other : DateRange) : option DateRange :=
  let start := valueOf (rangeStart this) in
  let end_ := valueOf (rangeEnd this) in
  let otherStart := valueOf (rangeStart other) in
  let otherEnd := valueOf (rangeEnd other) in
  let isZeroLength := num_eq start end_ in
  let isOtherZeroLength := num_eq otherStart otherEnd in
  let nonZeroLength :=
    if num_le start otherStart && num_lt otherStart end_
       && num_lt end_ otherEnd
    then Some (mkRange (rangeStart other) (rangeEnd this))
    else if num_lt otherStart start && num_lt start otherEnd
            && num_le otherEnd end_
    then Some (mkRange (rangeStart this) (rangeEnd other))
    else if num_lt otherStart start && num_le start end_
            && num_lt end_ otherEnd
    then Some this
    else if num_le start otherStart && num_le otherStart otherEnd
            && num_le otherEnd end_
    then Some other
    else None in
  if isZeroLength then
    if num_eq start otherStart || num_eq start otherEnd then None
    else if num_lt otherStart start && num_lt start otherEnd then Some this
    else nonZeroLength
  else if isOtherZeroLength then
    if num_eq otherStart start || num_eq otherStart end_ then None
    else if num_lt start otherStart && num_lt otherStart end_
    then Some (mkRange (rangeStart other) (rangeStart other))
    else nonZeroLength
  else nonZeroLength.

(** [Array.from(r.by('days'))]: the iterator yields
    [r.start.clone().add(i, 'days')] for [i = 0, 1, ...] while
    [i <= Math.abs(r.start.diff(r.end, 'days'))]; with an invalid end the
    bound is [NaN] and nothing is yielded. *)
Definition byDays (r : DateRange) : list Moment :=
  match diffDays (rangeStart r) (rangeEnd r) with
  | None => []
  | Some diff =>
      map (fun i => addDays i (rangeStart r))
          (seq 0 (S (Z.to_nat (Z.abs diff))))
  end.

End MomentRange.

(* ===================================================================== *)
(** ** JavaScript values and plain objects *)
(* ===================================================================== *)

Module Js.

(** The values a JSON configuration file can hold, and [undefined]. *)
Inductive Value : Type :=
| Undefined
| Null
| Bool (b : bool)
| Number (n : Z)
| Str (s : string).

(** [ToBoolean]: what [!v] negates. *)
Definition truthy (v : Value) : bool :=
  match v with
  | Undefined | Null => false
  | Bool b => b
  | Number n => negb (n =? 0)
  | Str s => negb (String.eqb s "")
  end.

(** A plain object as a dictionary, keys in insertion order. *)
Definition Object (V : Type) : Type := list (string * V).

(** [obj[key]]; [None] is [undefined]. *)
Fixpoint get {V : Type} (obj : Object V) (key : string) : option V :=
  match obj with
  | [] => None
  | (k, v) :: rest => if String.eqb k key then Some v else get rest key
  end.

(** [obj[key] = value]: an existing key keeps its place. *)
Fixpoint set {V : Type} (obj : Object V) (key : string) (value : V)
  : Object V :=
  match obj with
  | [] => [(key, value)]
  | (k, v) :: rest =>
      if String.eqb k key then (k, value) :: rest
      else (k, v) :: set rest key value
  end.

(** The keys in the order [for (const key in obj)] visits them. *)
Definition keys {V : Type} (obj : Object V) : list string := map fst obj.

(** [s.lastIndexOf(c)] for a single character, [-1] when absent. *)
Fixpoint lastIndexOfFrom (c : ascii) (s : string) (i found : Z) : Z :=
  match s with
  | "" => found
  | String c' rest =>
      lastIndexOfFrom c rest (i + 1) (if Ascii.eqb c c' then i else found)
  end.

Definition lastIndexOf (s : string) (c : ascii) : Z :=
  lastIndexOfFrom c s 0 (-1).

Fixpoint dropChars (n : nat) (s : string) : string :=
  match n, s with
  | S k, String _ rest => dropChars k rest
  | _, _ => s
  end.

(** [s.substring(start)]: a negative [start] counts as 0. *)
Definition substring (s : string) (start : Z) : string :=
  dropChars (Z.to_nat start) s.

End Js.

(* ===================================================================== *)
(** ** Data the command receives *)
(* ===================================================================== *)

(** The options of the [get] command as [yargs] delivers them:
    [fromDate] and [toDate] are of type string, [tomorrow] and [week] of type
    boolean. *)
Record Argv : Type := mkArgv {
  fromDate : string;
  toDate : string;
  tomorrow : bool;
  week : bool
}.

(** One entry of [plan.dates.values]; an absent [timePlannedSeconds] is
    [None]. *)
Record PlanDateValues : Type := mkPlanDateValues {
  from : string;
  to : string;
  timePlannedSeconds : option Z
}.

(** A plan of the Tempo API: [planItem.self], [description],
    [secondsPerDay] and [dates.values]. *)
Record Plan : Type := mkPlan {
  planItemSelf : string;
  description : string;
  secondsPerDay : Z;
  datesValues : list PlanDateValues
}.

(** The object [mapPlans] stores for a plan on each of its days. *)
Record PlanData : Type := mkPlanData {
  task : string;
  taskKey : string;
  pdDescription : string;
  pdSecondsPerDay : Z;
  plannedTime : string
}.

(** The pair of moments [getQueryFromAndToDates] returns. *)
Record Dates : Type := mkDates {
  datesFrom : MomentJs.Moment;
  datesTo : MomentJs.Moment
}.

(* ===================================================================== *)
(** ** Class [Get] *)
(* ===================================================================== *)

Module Get.
Import Calendar MomentJs MomentRange.

(** The errors the class throws, under the names the specification gives
    them. *)
Definition MissingConfig : Exn :=
  Error "New install, who dis? It looks like you haven't run the config command yet to specify your account id and token.".

Definition ConflictingOptions : Exn :=
  Error "Do you want tomorrow of the next week? Make up your mind!".

Definition InvalidDate : Exn :=
  Error "Invalid dates provided. Dates must be formatted as YYYY-MM-DD.".

Definition RangeOrderError : Exn :=
  Error "Provided fromDate occurs after toDate.".

Definition RangeTooLarge : Exn :=
  Error "A maximum of 14 days of planned time can be requested at once. Please update the provided fromDate and/or toDate options.".

(** [this.config.get(key)] on the configuration store. *)
Definition configGet (config : gmap string Js.Value) (key : string)
  : Js.Value :=
  default Js.Undefined (config !! key).

(** [this.config.get(key, defaultValue)]. *)
Definition configGetOr (config : gmap string Js.Value) (key : string)
    (defaultValue : Js.Value) : Js.Value :=
  match configGet config key with
  | Js.Undefined => defaultValue
  | v => v
  end.

Definition validateConfig (config : gmap string Js.Value) : Result bool :=
  let accountId := configGet config "accountId" in
  let token := configGet config "token" in
  if negb (Js.truthy accountId) || negb (Js.truthy token)
  then Throw MissingConfig
  else Ok true.

(** [dates.to.diff(dates.from, 'days') > 13], false on [NaN]. *)
Definition moreThan13 (diff : option Z) : bool :=
  match diff with
  | Some n => 13 <? n
  | None => false
  end.

Definition validateArgs (argv : Argv) (dates : Dates) : Result bool :=
  if tomorrow argv && week argv then Throw ConflictingOptions
  else if negb (isValid (datesFrom dates)) || negb (isValid (datesTo dates))
  then Throw InvalidDate
  else if isAfter (datesFrom dates) (datesTo dates)
  then Throw RangeOrderError
  else if moreThan13 (diffDays (datesTo dates) (datesFrom dates))
  then Throw RangeTooLarge
  else Ok true.

(** [now] is the value of [this.moment()] at the time of the call. *)
Definition getQueryFromAndToDates (argv : Argv) (now : Moment) : Dates :=
  if tomorrow argv then
    let from := addDays 1 now in
    mkDates from from
  else if week argv then
    let from := now in
    mkDates from (addDays 6 from)
  else
    mkDates (parse (fromDate argv)) (parse (toDate argv)).

(** [!planDateValues.timePlannedSeconds] is true for 0 and for an absent
    value. *)
Definition noPlannedSeconds (v : PlanDateValues) : bool :=
  match timePlannedSeconds v with
  | Some n => n =? 0
  | None => true
  end.

Definition planDateRange (v : PlanDateValues) : DateRange :=
  let start := parse (from v) in
  let end_ := parse (to v) in
  let '(start, end_) :=
    if isBefore end_ start then (end_, start) else (start, end_) in
  range (startOfDay start) (endOfDay end_).

Definition getPlanDateRanges (plan : Plan) : list DateRange :=
  fold_left
    (fun ranges planDateValues =>
       if noPlannedSeconds planDateValues then ranges
       else (ranges ++ [planDateRange planDateValues])%list)
    (datesValues plan) [].

Definition planDataOf (plan : Plan) : PlanData :=
  {| task := planItemSelf plan;
     taskKey :=
       Js.substring (planItemSelf plan)
                    (Js.lastIndexOf (planItemSelf plan) "/" + 1);
     pdDescription := description plan;
     pdSecondsPerDay := secondsPerDay plan;
     plannedTime := humanize (secondsPerDay plan) |}.

(** [mappedPlans[planItemDate.format('YYYY-MM-DD')].push(planData)]: a
    [TypeError] when the key is missing. *)
Definition pushOnDay (planData : PlanData)
    (mappedPlans : Js.Object (list PlanData)) (planItemDate : Moment)
  : Result (Js.Object (list PlanData)) :=
  let key := format planItemDate in
  match Js.get mappedPlans key with
  | None => Throw TypeError
  | Some items => Ok (Js.set mappedPlans key (items ++ [planData])%list)
  end.

(** The body of [planRanges.forEach]: [applicableRange.by('days')] is a
    [TypeError] when [intersect] returned [null]. *)
Definition mapPlanRange (queryRange : DateRange) (plan : Plan)
    (mappedPlans : Js.Object (list PlanData)) (planRange : DateRange)
  : Result (Js.Object (list PlanData)) :=
  let applicableRange := intersect queryRange planRange in
  let planData := planDataOf plan in
  match applicableRange with
  | None => Throw TypeError
  | Some r => forEachM (pushOnDay planData) (byDays r) mappedPlans
  end.

(** The object with one empty array per day of the query range. *)
Definition initialPlans (queryRange : DateRange)
  : Js.Object (list PlanData) :=
  fold_left (fun acc day => Js.set acc (format day) [])
            (byDays queryRange) [].

Definition mapPlans (from to : Moment) (plans : list Plan)
  : Result (Js.Object (list PlanData)) :=
  let queryRange := range (startOfDay from) (endOfDay to) in
  let mappedPlans := initialPlans queryRange in
  forEachM
    (fun mappedPlans plan =>
       forEachM (mapPlanRange queryRange plan)
                (getPlanDateRanges plan) mappedPlans)
    plans mappedPlans.

(** What [execute] does before it yields to the network: it either prints
    an error, or issues the one GET request. *)
Inductive Step : Type :=
| OutputError (message : string)
| AxiosGet (url authorization : string) (from to : Moment).

(** [`${v}`] for a stored value. *)
Definition toString (v : Js.Value) : string :=
  match v with
  | Js.Undefined => "undefined"
  | Js.Null => "null"
  | Js.Bool true => "true"
  | Js.Bool false => "false"
  | Js.Number n => (if n <? 0 then "-" else "") +:+ decimal n
  | Js.Str s => s
  end.

Definition errorMessage (e : Exn) : string :=
  match e with
  | Error message => message
  | TypeError => "TypeError"
  end.

Definition execute (config : gmap string Js.Value) (argv : Argv)
    (now : Moment) : Step :=
  let accountId := configGet config "accountId" in
  let token := configGet config "token" in
  let checked :=
    _ ← validateConfig config;
    let dates := getQueryFromAndToDates argv now in
    _ ← validateArgs argv dates;
    Ok dates in
  match checked with
  | Throw error => OutputError (errorMessage error)
  | Ok dates =>
      let from := datesFrom dates in
      let to := datesTo dates in
      AxiosGet
        ("https://api.tempo.io/core/3/plans/user/" +:+ toString accountId
           +:+ "?from=" +:+ format from +:+ "&to=" +:+ format to)
        ("bearer " +:+ toString token)
        from to
  end.

(** The [then] callback of the request, up to the table it prints:
    [res.data.results] goes through [mapPlans]; an exception there reaches
    the [catch] callback, which prints it. *)
Definition onResponse (from to : Moment) (results : list Plan)
  : Result (Js.Object (list PlanData)) :=
  mapPlans from to results.

End Get.

(* ===================================================================== *)
(** ** Vocabulary of the statements *)
(* ===================================================================== *)

Module Props.
Import Calendar MomentJs MomentRange.

(** A moment that denotes a real local time: a year from 0 on, a month in
    [0..11], a date the month has, a time of day within the day. *)
Definition wfMoment (m : Moment) : bool :=
  match m with
  | Invalid => false
  | Local y mo d ms =>
      (0 <=? y) && (0 <=? mo) && (mo <=? 11)
      && (1 <=? d) && (d <=? daysInMonth y mo)
      && (0 <=? ms) && (ms <? msPerDay)
  end.

(** The calendar day of a moment, as a day number. *)
Definition dayOf (m : Moment) : Z :=
  match m with
  | Invalid => 0
  | Local y mo d _ => dayNumber y mo d
  end.

(** The time of day of a moment, in milliseconds. *)
Definition msOf (m : Moment) : Z :=
  match m with
  | Invalid => 0
  | Local _ _ _ ms => ms
  end.

(** The local time that passes from [a] to [b], in milliseconds. *)
Definition elapsed (a b : Moment) : Z :=
  (dayOf b - dayOf a) * msPerDay + (msOf b - msOf a).

(** The number a string of decimal digits denotes, leading zeros
    allowed. *)
Definition readDecimal (s : string) : option N :=
  option_map N.of_uint (NilEmpty.uint_of_string s).

(** The day [key] of the object holds the item [pd]. *)
Definition hasItem (mappedPlans : Js.Object (list PlanData)) (key : string)
    (pd : PlanData) : Prop :=
  exists items, Js.get mappedPlans key = Some items /\ In pd items.

(** A range of whole days: from the first millisecond of a day to the last
    millisecond of that day or of a later one. *)
Definition wholeDays (r : DateRange) : bool :=
  wfMoment (rangeStart r) && wfMoment (rangeEnd r)
  && (msOf (rangeStart r) =? 0) && (msOf (rangeEnd r) =? msPerDay - 1)
  && (dayOf (rangeStart r) <=? dayOf (rangeEnd r)).

End Props.

(* ===================================================================== *)
(** ** Concrete inputs used in the statements *)
(* ===================================================================== *)

Module Examples.
Import MomentJs.

(** 2020-01-10, 09:30 local time. *)
Definition now : Moment := Local 2020 0 10 34200000.


(** A plan for the issue ABC-123 with the given [secondsPerDay] and
    sub-ranges. *)
Definition fixBug (perDay : Z) (values : list PlanDateValues) : Plan :=
  {| planItemSelf := "https://api.tempo.io/core/3/issue/ABC-123";
     description := "Fix bug";
     secondsPerDay := perDay;
     datesValues := values |}.

(** The item [mapPlans] stores for [fixBug] with 7200 seconds per day. *)
Definition twoHours : PlanData :=
  {| task := "https://api.tempo.io/core/3/issue/ABC-123";
     taskKey := "ABC-123";
     pdDescription := "Fix bug";
     pdSecondsPerDay := 7200;
     plannedTime := "2 hours" |}.

(** The item [mapPlans] stores for [fixBug] with 3600 seconds per day. *)
Definition anHour : PlanData :=
  {| task := "https://api.tempo.io/core/3/issue/ABC-123";
     taskKey := "ABC-123";
     pdDescription := "Fix bug";
     pdSecondsPerDay := 3600;
     plannedTime := "an hour" |}.

(** A configuration store with both required values. *)
Definition configured : gmap string Js.Value :=
  {[ "accountId" := Js.Str "5b10ac8d82e05b22cc7d4ef5";
     "token" := Js.Str "secret" ]}.

End Examples.

(* ===================================================================== *)
(** ** Class [Get], continued: option defaults, results table, callbacks *)
(* ===================================================================== *)

Module GetTable.
Import MomentJs MomentRange Get.


(** A string styled by [chalk]: [chalk.bold(s)], [chalk.italic(s)],
    [chalk.hex(color).bold(s)]. *)
Inductive Chalk : Type :=
| Bold (text : string)
| Italic (text : string)
| HexBold (color text : string).

(** A cell of a [cli-table3] row: a string, a styled string, or an object
    [{colSpan, hAlign, content}]. *)
Inductive Cell : Type :=
| Text (content : string)
| Styled (content : Chalk)
| Spanning (colSpan : Z) (hAlign : string) (content : Chalk).

(** The rows [buildResultsTable] pushes for one key of [mappedPlans].
    [formatDate plannedDate] stands for
    [this.moment(plannedDate).format('ddd, MMM Do YYYY')]. *)
Definition dayRows (formatDate : string -> string) (queryContainsPlans : bool)
    (jiraBaseUrl : string) (plannedDate : string) (items : list PlanData)
  : list (list Cell) :=
  let formattedDate := formatDate plannedDate in
  [Spanning (if queryContainsPlans then 4 else 1) "center"
            (Bold ("Planned time for " +:+ formattedDate))]
  :: (if (List.length items =? 0)%nat
      then [[Spanning (if queryContainsPlans then 4 else 1) "center"
                      (Italic "No planned time for this day!")]]
      else [Styled (HexBold "#00aeef" "Task");
            Styled (HexBold "#00aeef" "Planned Time");
            Styled (HexBold "#00aeef" "Description");
            Styled (HexBold "#00aeef" "Task Link")]
           :: map (fun plannedItem =>
                     [Text (taskKey plannedItem);
                      Text (plannedTime plannedItem);
                      Text (pdDescription plannedItem);
                      Text (jiraBaseUrl +:+ "browse/" +:+ taskKey plannedItem)])
                  items).

(** [buildResultsTable(mappedPlans, jiraBaseUrl)]: the rows pushed onto the
    table, for the keys of [mappedPlans] in the order [for ... in] visits
    them.  [queryContainsPlans] is the field of that name. *)
Definition buildResultsTable (formatDate : string -> string)
    (queryContainsPlans : bool) (mappedPlans : Js.Object (list PlanData))
    (jiraBaseUrl : string) : list (list Cell) :=
  flat_map (fun entry => dayRows formatDate queryContainsPlans jiraBaseUrl
                                 (fst entry) (snd entry))
           mappedPlans.

(** What the two callbacks of the request print: the table, or the
    exception the [then] callback threw. *)
Inductive Printed : Type :=
| OutputDefault (table : list (list Cell))
| OutputThrown (err : Exn).

(** The [then] callback followed by the [catch] callback, on the
    [res.data.results] of a successful response. *)
Definition thenCatch (formatDate : string -> string)
    (config : gmap string Js.Value) (from to : Moment) (results : list Plan)
  : Printed :=
  let jiraBaseUrl :=
    toString (configGetOr config "jiraBaseUrl"
                          (Js.Str "https://sitecrafting.atlassian.net/")) in
  let queryContainsPlans := (0 <? List.length results)%nat in
  match mapPlans from to results with
  | Ok mappedPlans =>
      OutputDefault
        (buildResultsTable formatDate queryContainsPlans mappedPlans
                           jiraBaseUrl)
  | Throw err => OutputThrown err
  end.

End GetTable.

(* ===================================================================== *)
(** ** The first version of the command, [bin/commands/get.js] *)
(* ===================================================================== *)

Module Legacy.
Import MomentJs MomentRange Get.

(** A plan as the first version reads it: one date range,
    [startDate] to [endDate]. *)
Record OldPlan : Type := mkOldPlan {
  oldSelf : string;
  oldDescription : string;
  startDate : string;
  endDate : string;
  oldSecondsPerDay : Z
}.

Record OldPlanData : Type := mkOldPlanData {
  odTask : string;
  odTaskKey : string;
  odDescription : string;
  odStartDate : string;
  odEndDate : string;
  odSecondsPerDay : Z;
  odPlannedTime : string
}.

Definition planDataOf (plan : OldPlan) : OldPlanData :=
  {| odTask := oldSelf plan;
     odTaskKey :=
       Js.substring (oldSelf plan) (Js.lastIndexOf (oldSelf plan) "/" + 1);
     odDescription := oldDescription plan;
     odStartDate := startDate plan;
     odEndDate := endDate plan;
     odSecondsPerDay := oldSecondsPerDay plan;
     odPlannedTime := humanize (oldSecondsPerDay plan) |}.

Definition pushOnDay (planData : OldPlanData)
    (mappedPlans : Js.Object (list OldPlanData)) (planItemDate : Moment)
  : Result (Js.Object (list OldPlanData)) :=
  let key := format planItemDate in
  match Js.get mappedPlans key with
  | None => Throw TypeError
  | Some items => Ok (Js.set mappedPlans key (items ++ [planData])%list)
  end.

(** The body of [plans.forEach] in [mapPlans]: the dates are taken in the
    order given. *)
Definition mapPlan (queryRange : DateRange)
    (mappedPlans : Js.Object (list OldPlanData)) (plan : OldPlan)
  : Result (Js.Object (list OldPlanData)) :=
  let start := parse (startDate plan) in
  let end_ := parse (endDate plan) in
  let planRange := range (startOfDay start) (endOfDay end_) in
  let applicableRange := intersect queryRange planRange in
  let planData := planDataOf plan in
  match applicableRange with
  | None => Throw TypeError
  | Some r => forEachM (pushOnDay planData) (byDays r) mappedPlans
  end.

Definition initialPlans (queryRange : DateRange)
  : Js.Object (list OldPlanData) :=
  fold_left (fun acc day => Js.set acc (format day) [])
            (byDays queryRange) [].

Definition mapPlans (from to : Moment) (plans : list OldPlan)
  : Result (Js.Object (list OldPlanData)) :=
  let queryRange := range (startOfDay from) (endOfDay to) in
  let mappedPlans := initialPlans queryRange in
  forEachM (mapPlan queryRange) plans mappedPlans.

(** [exports.handler] up to the request: the options are [fromDate] and
    [toDate] only. *)
Definition handler (config : gmap string Js.Value) (argv : Argv) : Step :=
  let accountId := configGet config "accountId" in
  let token := configGet config "token" in
  let from := parse (fromDate argv) in
  let to := parse (toDate argv) in
  if negb (Js.truthy accountId) || negb (Js.truthy token) then
    OutputError "New install, who dis? It looks like you haven't run the config command yet to specify your account id and token."
  else if negb (isValid from) || negb (isValid to) then
    OutputError "Invalid dates provided. Dates must be formatted as YYYY-MM-DD."
  else if isAfter from to then
    OutputError "Provided fromDate occurs after toDate."
  else if moreThan13 (diffDays to from) then
    OutputError "A maximum of 14 days of planned time can be requested at once. Please update the provided fromDate and/or toDate options."
  else
    AxiosGet
      ("https://api.tempo.io/core/3/plans/user/" +:+ toString accountId
         +:+ "?from=" +:+ format from +:+ "&to=" +:+ format to)
      ("bearer " +:+ toString token)
      from to.

End Legacy.

(* ===================================================================== *)
(** ** Vocabulary of the further statements *)
(* ===================================================================== *)

Module Views.
Import Calendar MomentJs MomentRange Get Props.

(** The items one extracted range contributes to the day [key]. *)
Definition rangeItems (queryRange : DateRange) (key : string) (plan : Plan)
    (planRange : DateRange) : list PlanData :=
  match intersect queryRange planRange with
  | Some a =>
      if existsb (fun day => String.eqb (format day) key) (byDays a)
      then [planDataOf plan] else []
  | None => []
  end.

(** The items the plans contribute to the day [key]: plan after plan, and
    within a plan range after range. *)
Definition dayItems (queryRange : DateRange) (key : string)
    (plans : list Plan) : list PlanData :=
  flat_map (fun plan => flat_map (rangeItems queryRange key plan)
                                 (getPlanDateRanges plan))
           plans.

(** The sub-range has planned seconds, both its dates parse, and [day] lies
    between them, whichever comes first. *)
Definition plansOn (day : Z) (v : PlanDateValues) : bool :=
  negb (noPlannedSeconds v)
  && isValid (parse (from v)) && isValid (parse (to v))
  && (Z.min (dayOf (parse (from v))) (dayOf (parse (to v))) <=? day)
  && (day <=? Z.max (dayOf (parse (from v))) (dayOf (parse (to v)))).

(** How many sub-ranges of the plans plan time on [day]. *)
Definition countPlansOn (day : Z) (plans : list Plan) : nat :=
  list_sum (map (fun plan =>
                   List.length (List.filter (plansOn day) (datesValues plan)))
                plans).

(** The characters of a string. *)
Definition chars (s : string) : list ascii := list_ascii_of_string s.



(** The first-version plan as a plan with one sub-range, from its start
    date to its end date and with planned seconds (so that the extractor
    keeps it), and the item of the first version without its two dates. *)
Definition upgrade (plan : Legacy.OldPlan) : Plan :=
  {| planItemSelf := Legacy.oldSelf plan;
     description := Legacy.oldDescription plan;
     secondsPerDay := Legacy.oldSecondsPerDay plan;
     datesValues :=
       [mkPlanDateValues (Legacy.startDate plan) (Legacy.endDate plan)
                         (Some 1)] |}.

Definition forget (pd : Legacy.OldPlanData) : PlanData :=
  {| task := Legacy.odTask pd;
     taskKey := Legacy.odTaskKey pd;
     pdDescription := Legacy.odDescription pd;
     pdSecondsPerDay := Legacy.odSecondsPerDay pd;
     plannedTime := Legacy.odPlannedTime pd |}.

Definition forgetAll (mappedPlans : Js.Object (list Legacy.OldPlanData))
  : Js.Object (list PlanData) :=
  map (fun entry => (fst entry, map forget (snd entry))) mappedPlans.

(** The header rows of a table: the rows of one spanning cell in bold. *)
Definition isHeader (row : list GetTable.Cell) : bool :=
  match row with
  | [GetTable.Spanning _ _ (GetTable.Bold _)] => true
  | _ => false
  end.

(** The rows with the four plain cells of an item. *)
Definition isItemRow (row : list GetTable.Cell) : bool :=
  match row with
  | [GetTable.Text _; GetTable.Text _; GetTable.Text _; GetTable.Text _] => true
  | _ => false
  end.

End Views.

(* ===================================================================== *)
(** ** Facts about the calendar *)
(* ===================================================================== *)

Section CalendarFacts.
Import Calendar MomentJs Props.

Lemma isLeapYear_cases (y : Z) :
  0 <= y ->
  isLeapYear y = true /\ ((y mod 4 = 0 /\ y mod 100 <> 0) \/ y mod 400 = 0)
  \/ isLeapYear y = false /\ ~ ((y mod 4 = 0 /\ y mod 100 <> 0) \/ y mod 400 = 0).
Proof.
  intros Hy. unfold isLeapYear.
  rewrite !Z.rem_mod_nonneg by lia.
  destruct (Z.eqb_spec (y mod 4) 0), (Z.eqb_spec (y mod 100) 0),
    (Z.eqb_spec (y mod 400) 0); simpl; lia.
Qed.

Lemma daysInYear_pos (y : Z) : 365 <= daysInYear y <= 366.
Proof. unfold daysInYear. destruct (isLeapYear y); lia. Qed.

Lemma daysBeforeYear_succ (y : Z) :
  0 <= y -> daysBeforeYear (y + 1) = daysBeforeYear y + daysInYear y.
Proof.
  intros Hy. unfold daysBeforeYear, daysInYear.
  destruct (isLeapYear_cases y Hy) as [[-> H] | [-> H]];
    Z.to_euclidean_division_equations; lia.
Qed.

Lemma daysBeforeYear_mono (a b : Z) :
  0 <= a <= b -> daysBeforeYear a <= daysBeforeYear b.
Proof.
  intros H. unfold daysBeforeYear.
  Z.to_euclidean_division_equations; lia.
Qed.

Lemma daysInMonth_bounds (y mo : Z) : 0 <= mo -> 28 <= daysInMonth y mo <= 31.
Proof.
  intros Hmo. unfold daysInMonth.
  destruct (mo =? 1); [destruct (isLeapYear y); lia|].
  Z.to_euclidean_division_equations; lia.
Qed.

Lemma daysBeforeMonth_succ (y mo : Z) :
  0 <= mo -> daysBeforeMonth y (mo + 1) = daysBeforeMonth y mo + daysInMonth y mo.
Proof.
  intros Hmo. unfold daysBeforeMonth.
  replace (Z.to_nat (mo + 1)) with (S (Z.to_nat mo)) by lia.
  rewrite seq_S, map_app, fold_right_app. simpl.
  rewrite Z2Nat.id by lia.
  generalize (seq 0 (Z.to_nat mo)) as l. intros l.
  induction l as [|k l IH]; simpl; lia.
Qed.

Lemma daysBeforeMonth_12 (y : Z) : daysBeforeMonth y 12 = daysInYear y.
Proof.
  unfold daysBeforeMonth, daysInYear, daysInMonth. simpl.
  destruct (isLeapYear y); reflexivity.
Qed.

Lemma daysBeforeMonth_mono (y a b : Z) :
  0 <= a <= b -> daysBeforeMonth y a <= daysBeforeMonth y b.
Proof.
  intros [Ha Hab].
  replace b with (a + Z.of_nat (Z.to_nat (b - a))) by lia.
  induction (Z.to_nat (b - a)) as [|n IH].
  - rewrite Z.add_0_r. lia.
  - replace (a + Z.of_nat (S n)) with (a + Z.of_nat n + 1) by lia.
    rewrite daysBeforeMonth_succ by lia.
    pose proof (daysInMonth_bounds y (a + Z.of_nat n)). lia.
Qed.

Lemma wfMoment_Local (y mo d ms : Z) :
  wfMoment (Local y mo d ms) = true <->
  0 <= y /\ 0 <= mo <= 11 /\ 1 <= d <= daysInMonth y mo /\ 0 <= ms < msPerDay.
Proof. unfold wfMoment. rewrite !andb_true_iff. lia. Qed.

Lemma wfMoment_inv (m : Moment) :
  wfMoment m = true ->
  exists y mo d ms, m = Local y mo d ms /\
    0 <= y /\ 0 <= mo <= 11 /\ 1 <= d <= daysInMonth y mo /\ 0 <= ms < msPerDay.
Proof.
  destruct m as [|y mo d ms]; [discriminate|].
  intros H. apply wfMoment_Local in H. eauto 10.
Qed.

Lemma dayNumber_next_in_month (y mo d : Z) :
  dayNumber y mo (d + 1) = dayNumber y mo d + 1.
Proof. unfold dayNumber. lia. Qed.

Lemma dayNumber_next_month (y mo : Z) :
  0 <= mo -> dayNumber y (mo + 1) 1 = dayNumber y mo (daysInMonth y mo) + 1.
Proof. intros H. unfold dayNumber. rewrite daysBeforeMonth_succ by lia. lia. Qed.

Lemma dayNumber_next_year (y : Z) :
  0 <= y -> dayNumber (y + 1) 0 1 = dayNumber y 11 (daysInMonth y 11) + 1.
Proof.
  intros H. unfold dayNumber.
  rewrite daysBeforeYear_succ by lia.
  rewrite <- daysBeforeMonth_12.
  change 12 with (11 + 1). rewrite daysBeforeMonth_succ by lia.
  change (daysBeforeMonth (y + 1) 0) with 0. lia.
Qed.

Lemma wfMoment_nextDay (m : Moment) :
  wfMoment m = true -> wfMoment (nextDay m) = true.
Proof.
  intros H. destruct (wfMoment_inv m H) as (y & mo & d & ms & -> & Hy & Hmo & Hd & Hms).
  unfold nextDay.
  destruct (Z.ltb_spec d (daysInMonth y mo)); [|destruct (Z.ltb_spec mo 11)];
    apply wfMoment_Local.
  - lia.
  - pose proof (daysInMonth_bounds y (mo + 1)). lia.
  - pose proof (daysInMonth_bounds (y + 1) 0). lia.
Qed.

Lemma dayOf_nextDay (m : Moment) :
  wfMoment m = true -> dayOf (nextDay m) = dayOf m + 1.
Proof.
  intros H. destruct (wfMoment_inv m H) as (y & mo & d & ms & -> & Hy & Hmo & Hd & Hms).
  unfold nextDay.
  destruct (Z.ltb_spec d (daysInMonth y mo)); [|destruct (Z.ltb_spec mo 11)]; simpl.
  - apply dayNumber_next_in_month.
  - rewrite dayNumber_next_month by lia. replace d with (daysInMonth y mo) by lia. reflexivity.
  - assert (mo = 11) as -> by lia. rewrite dayNumber_next_year by lia.
    replace d with (daysInMonth y 11) by lia. reflexivity.
Qed.

Lemma dayNumber_lt_year (y1 mo1 d1 y2 mo2 d2 : Z) :
  0 <= y1 -> 0 <= mo1 <= 11 -> 1 <= d1 <= daysInMonth y1 mo1 ->
  0 <= mo2 -> 1 <= d2 ->
  y1 < y2 -> dayNumber y1 mo1 d1 < dayNumber y2 mo2 d2.
Proof.
  intros Hy1 Hmo1 Hd1 Hmo2 Hd2 Hlt. unfold dayNumber.
  pose proof (daysBeforeYear_mono (y1 + 1) y2 ltac:(lia)).
  rewrite daysBeforeYear_succ in H by lia.
  pose proof (daysBeforeMonth_mono y1 (mo1 + 1) 12 ltac:(lia)).
  rewrite daysBeforeMonth_succ, daysBeforeMonth_12 in H0 by lia.
  pose proof (daysBeforeMonth_mono y2 0 mo2 ltac:(lia)).
  change (daysBeforeMonth y2 0) with 0 in H1. lia.
Qed.

Lemma dayNumber_lt_month (y mo1 d1 mo2 d2 : Z) :
  0 <= mo1 -> 1 <= d1 <= daysInMonth y mo1 -> 1 <= d2 ->
  mo1 < mo2 -> dayNumber y mo1 d1 < dayNumber y mo2 d2.
Proof.
  intros Hmo1 Hd1 Hd2 Hlt. unfold dayNumber.
  pose proof (daysBeforeMonth_mono y (mo1 + 1) mo2 ltac:(lia)).
  rewrite daysBeforeMonth_succ in H by lia. lia.
Qed.

Lemma dayNumber_inj (y1 mo1 d1 y2 mo2 d2 : Z) :
  0 <= y1 -> 0 <= mo1 <= 11 -> 1 <= d1 <= daysInMonth y1 mo1 ->
  0 <= y2 -> 0 <= mo2 <= 11 -> 1 <= d2 <= daysInMonth y2 mo2 ->
  dayNumber y1 mo1 d1 = dayNumber y2 mo2 d2 ->
  y1 = y2 /\ mo1 = mo2 /\ d1 = d2.
Proof.
  intros Hy1 Hmo1 Hd1 Hy2 Hmo2 Hd2 Heq.
  destruct (Z.lt_trichotomy y1 y2) as [Hlt | [-> | Hlt]].
  - pose proof (dayNumber_lt_year y1 mo1 d1 y2 mo2 d2). lia.
  - destruct (Z.lt_trichotomy mo1 mo2) as [Hlt | [-> | Hlt]].
    + pose proof (dayNumber_lt_month y2 mo1 d1 mo2 d2). lia.
    + unfold dayNumber in Heq. lia.
    + pose proof (dayNumber_lt_month y2 mo2 d2 mo1 d1). lia.
  - pose proof (dayNumber_lt_year y2 mo2 d2 y1 mo1 d1). lia.
Qed.

End CalendarFacts.

(* ===================================================================== *)
(** ** Facts about moments *)
(* ===================================================================== *)

Section MomentFacts.
Import Calendar MomentJs Props.

Lemma valueOf_wf (m : Moment) :
  wfMoment m = true -> valueOf m = Some (dayOf m * msPerDay + msOf m).
Proof. destruct m; [discriminate | reflexivity]. Qed.

Lemma msOf_bounds (m : Moment) :
  wfMoment m = true -> 0 <= msOf m < msPerDay.
Proof.
  intros H. destruct (wfMoment_inv m H) as (y & mo & d & ms & -> & ?). simpl. lia.
Qed.

Lemma msOf_nextDay (m : Moment) : msOf (nextDay m) = msOf m.
Proof.
  destruct m as [|y mo d ms]; [reflexivity|]. unfold nextDay.
  destruct (d <? daysInMonth y mo); [|destruct (mo <? 11)]; reflexivity.
Qed.

Lemma addDays_S (n : nat) (m : Moment) :
  addDays (S n) m = nextDay (addDays n m).
Proof. reflexivity. Qed.

Lemma wfMoment_addDays (n : nat) (m : Moment) :
  wfMoment m = true -> wfMoment (addDays n m) = true.
Proof.
  intros H. induction n as [|n IH]; [exact H|].
  rewrite addDays_S. now apply wfMoment_nextDay.
Qed.

Lemma dayOf_addDays (n : nat) (m : Moment) :
  wfMoment m = true -> dayOf (addDays n m) = dayOf m + Z.of_nat n.
Proof.
  intros H. induction n as [|n IH]; [simpl; lia|].
  rewrite addDays_S, dayOf_nextDay, IH by now apply wfMoment_addDays. lia.
Qed.

Lemma msOf_addDays (n : nat) (m : Moment) : msOf (addDays n m) = msOf m.
Proof.
  induction n as [|n IH]; [reflexivity|].
  now rewrite addDays_S, msOf_nextDay.
Qed.

(** A well-formed moment is determined by its day and its time of day. *)
Lemma wfMoment_eq (a b : Moment) :
  wfMoment a = true -> wfMoment b = true ->
  dayOf a = dayOf b -> msOf a = msOf b -> a = b.
Proof.
  intros Ha Hb.
  destruct (wfMoment_inv a Ha) as (y1 & mo1 & d1 & ms1 & -> & ? & ? & ? & ?).
  destruct (wfMoment_inv b Hb) as (y2 & mo2 & d2 & ms2 & -> & ? & ? & ? & ?).
  simpl. intros Hday ->.
  destruct (dayNumber_inj y1 mo1 d1 y2 mo2 d2) as (-> & -> & ->); auto.
Qed.

Lemma wfMoment_startOfDay (m : Moment) :
  wfMoment m = true -> wfMoment (startOfDay m) = true.
Proof.
  intros H. destruct (wfMoment_inv m H) as (y & mo & d & ms & -> & ?).
  apply wfMoment_Local. unfold msPerDay. lia.
Qed.

Lemma wfMoment_endOfDay (m : Moment) :
  wfMoment m = true -> wfMoment (endOfDay m) = true.
Proof.
  intros H. destruct (wfMoment_inv m H) as (y & mo & d & ms & -> & ?).
  apply wfMoment_Local. unfold msPerDay. lia.
Qed.

Lemma dayOf_startOfDay (m : Moment) : dayOf (startOfDay m) = dayOf m.
Proof. now destruct m. Qed.

Lemma dayOf_endOfDay (m : Moment) : dayOf (endOfDay m) = dayOf m.
Proof. now destruct m. Qed.

Lemma msOf_startOfDay (m : Moment) : msOf (startOfDay m) = 0.
Proof. now destruct m. Qed.

Lemma msOf_endOfDay (m : Moment) :
  wfMoment m = true -> msOf (endOfDay m) = msPerDay - 1.
Proof. now destruct m. Qed.

Lemma wfMoment_isValid (m : Moment) : wfMoment m = true -> isValid m = true.
Proof. now destruct m. Qed.

(** A moment that is a whole number of days after another is reached from it
    by [addDays]. *)
Lemma addDays_reaches (a b : Moment) :
  wfMoment a = true -> wfMoment b = true ->
  dayOf a <= dayOf b -> msOf a = msOf b ->
  b = addDays (Z.to_nat (dayOf b - dayOf a)) a.
Proof.
  intros Ha Hb Hle Hms.
  apply wfMoment_eq; auto using wfMoment_addDays.
  - rewrite dayOf_addDays by assumption. lia.
  - now rewrite msOf_addDays.
Qed.

End MomentFacts.

(* ===================================================================== *)
(** ** Facts about strings and about [format] *)
(* ===================================================================== *)

Section FormatFacts.
Import Calendar MomentJs Props.

Lemma string_length_app (s t : string) :
  String.length (s +:+ t) = (String.length s + String.length t)%nat.
Proof. induction s as [|c s IH]; simpl; [reflexivity | now rewrite IH]. Qed.

Lemma string_app_char (c : ascii) (t : string) :
  String c "" +:+ t = String c t.
Proof. reflexivity. Qed.

(** Two concatenations whose right parts have the same length agree part by
    part. *)
Lemma string_app_inj_tail (s1 s2 t1 t2 : string) :
  String.length t1 = String.length t2 ->
  s1 +:+ t1 = s2 +:+ t2 -> s1 = s2 /\ t1 = t2.
Proof.
  intros Hlen. revert s2.
  induction s1 as [|c s1 IH]; intros [|c2 s2] Heq.
  - now split.
  - exfalso. apply (f_equal String.length) in Heq.
    rewrite !string_length_app in Heq. simpl in Heq. lia.
  - exfalso. apply (f_equal String.length) in Heq.
    rewrite !string_length_app in Heq. simpl in Heq. lia.
  - injection Heq as -> Heq. destruct (IH s2 Heq) as [-> ->]. now split.
Qed.

Lemma uint_of_string_zeros (k : nat) (s : string) (d : Decimal.uint) :
  NilEmpty.uint_of_string s = Some d ->
  NilEmpty.uint_of_string (zeros k +:+ s) = Some (Nat.iter k Decimal.D0 d).
Proof.
  intros H. induction k as [|k IH]; simpl; [exact H|].
  now rewrite IH.
Qed.

Lemma of_uint_leading_zeros (k : nat) (d : Decimal.uint) :
  N.of_uint (Nat.iter k Decimal.D0 d) = N.of_uint d.
Proof. induction k as [|k IH]; simpl; [reflexivity | exact IH]. Qed.

Lemma zeroFill_nonneg (n : Z) (k : nat) :
  0 <= n ->
  zeroFill n k = zeros (k - String.length (decimal n)) +:+ decimal n.
Proof.
  intros H. unfold zeroFill.
  destruct (Z.leb_spec 0 n); [reflexivity | lia].
Qed.

Lemma readDecimal_zeroFill (n : Z) (k : nat) :
  0 <= n -> readDecimal (zeroFill n k) = Some (Z.to_N n).
Proof.
  intros H. rewrite zeroFill_nonneg by assumption.
  unfold readDecimal, decimal.
  rewrite (uint_of_string_zeros _ _ _ (NilEmpty.usu _)). simpl.
  rewrite of_uint_leading_zeros, DecimalN.Unsigned.of_to.
  f_equal. lia.
Qed.

Lemma zeroFill_inj (a b : Z) (k : nat) :
  0 <= a -> 0 <= b -> zeroFill a k = zeroFill b k -> a = b.
Proof.
  intros Ha Hb Heq. apply (f_equal readDecimal) in Heq.
  rewrite !readDecimal_zeroFill in Heq by assumption.
  injection Heq as Heq. lia.
Qed.

Lemma zeroFill2_length_table :
  forallb (fun k => (String.length (zeroFill (Z.of_nat k) 2) =? 2)%nat)
          (seq 0 100) = true.
Proof. vm_compute. reflexivity. Qed.

Lemma zeroFill2_length (n : Z) :
  0 <= n < 100 -> String.length (zeroFill n 2) = 2%nat.
Proof.
  intros H. pose proof zeroFill2_length_table as T.
  rewrite forallb_forall in T.
  specialize (T (Z.to_nat n)). rewrite Z2Nat.id in T by lia.
  apply Nat.eqb_eq, T, in_seq. lia.
Qed.

Lemma in_string_app_r (c : ascii) (s t : string) :
  In c (list_ascii_of_string t) -> In c (list_ascii_of_string (s +:+ t)).
Proof. intros H. induction s as [|c' s IH]; simpl; auto. Qed.

(** A formatted moment is never an array index: it has a character that is
    not a digit.  The keys of the mapping are therefore visited in the order
    of their insertion. *)
Lemma format_not_array_index (m : Moment) :
  exists c, In c (list_ascii_of_string (format m)) /\ isDigit c = false.
Proof.
  destruct m as [|y mo d ms].
  - exists "I"%char. split; [simpl; auto | reflexivity].
  - exists "-"%char. split; [|reflexivity].
    unfold format. apply in_string_app_r. simpl. auto.
Qed.

(** [format] tells the calendar days of well-formed moments apart. *)
Lemma format_inj (a b : Moment) :
  wfMoment a = true -> wfMoment b = true ->
  format a = format b -> dayOf a = dayOf b.
Proof.
  intros Ha Hb.
  destruct (wfMoment_inv a Ha) as (y1 & mo1 & d1 & ms1 & -> & ? & ? & ? & ?).
  destruct (wfMoment_inv b Hb) as (y2 & mo2 & d2 & ms2 & -> & ? & ? & ? & ?).
  pose proof (daysInMonth_bounds y1 mo1). pose proof (daysInMonth_bounds y2 mo2).
  simpl. intros Heq.
  apply string_app_inj_tail in Heq as [Hy Heq].
  2:{ rewrite !string_length_app, !zeroFill2_length by lia. reflexivity. }
  rewrite !string_app_char in Heq. injection Heq as Heq.
  apply string_app_inj_tail in Heq as [Hmo Heq].
  2:{ cbn [String.length]. rewrite !zeroFill2_length by lia. reflexivity. }
  injection Heq as Hd.
  apply zeroFill_inj in Hy, Hmo, Hd; try lia.
  assert (mo1 = mo2) by lia. now subst.
Qed.

End FormatFacts.

(* ===================================================================== *)
(** ** Facts about objects and loops *)
(* ===================================================================== *)

Section ObjectFacts.
Context {V : Type}.
Implicit Types (obj : Js.Object V) (key : string) (value : V).

Lemma get_set_eq obj key value : Js.get (Js.set obj key value) key = Some value.
Proof.
  induction obj as [|[k v] rest IH]; simpl.
  - now rewrite String.eqb_refl.
  - destruct (String.eqb k key) eqn:E; simpl; rewrite E; [reflexivity | exact IH].
Qed.

Lemma get_set_ne obj key key' value :
  key <> key' -> Js.get (Js.set obj key value) key' = Js.get obj key'.
Proof.
  intros Hne. induction obj as [|[k v] rest IH]; simpl.
  - destruct (String.eqb_spec key key'); [contradiction | reflexivity].
  - destruct (String.eqb_spec k key) as [-> | Hk]; simpl.
    + destruct (String.eqb_spec key key'); [contradiction | reflexivity].
    + now rewrite IH.
Qed.

Lemma get_in_keys obj key :
  In key (Js.keys obj) <-> Js.get obj key <> None.
Proof.
  induction obj as [|[k v] rest IH]; simpl.
  - tauto.
  - destruct (String.eqb_spec k key) as [-> | Hk].
    + split; [discriminate | auto].
    + rewrite <- IH. tauto.
Qed.

Lemma keys_set_present obj key value :
  In key (Js.keys obj) -> Js.keys (Js.set obj key value) = Js.keys obj.
Proof.
  induction obj as [|[k v] rest IH]; simpl; [tauto|].
  intros Hin. destruct (String.eqb_spec k key) as [-> | Hk]; simpl.
  - reflexivity.
  - f_equal. apply IH. tauto.
Qed.

Lemma keys_set_absent obj key value :
  ~ In key (Js.keys obj) ->
  Js.keys (Js.set obj key value) = (Js.keys obj ++ [key])%list.
Proof.
  induction obj as [|[k v] rest IH]; simpl; [reflexivity|].
  intros Hin. destruct (String.eqb_spec k key) as [-> | Hk]; simpl.
  - tauto.
  - f_equal. apply IH. tauto.
Qed.

End ObjectFacts.

Section LoopFacts.
Context {A S : Type} (f : S -> A -> Result S).

(** An invariant of the loop body holds of the state a loop returns. *)
Lemma forEachM_invariant (P : S -> Prop) (xs : list A) :
  (forall s x s', In x xs -> P s -> f s x = Ok s' -> P s') ->
  forall s s', P s -> forEachM f xs s = Ok s' -> P s'.
Proof.
  induction xs as [|x xs IH]; intros Hstep s s' Hs Hrun; simpl in Hrun.
  - now injection Hrun as <-.
  - destruct (f s x) as [s1|e] eqn:E; simpl in Hrun; [|discriminate].
    apply (IH (fun s0 y s0' Hy => Hstep s0 y s0' (or_intror Hy)) s1 s'); auto.
    apply (Hstep s x s1); simpl; auto.
Qed.

(** A loop whose body returns under an invariant returns. *)
Lemma forEachM_returns (P : S -> Prop) (xs : list A) :
  (forall s x, In x xs -> P s -> exists s', f s x = Ok s' /\ P s') ->
  forall s, P s -> exists s', forEachM f xs s = Ok s' /\ P s'.
Proof.
  induction xs as [|x xs IH]; intros Hstep s Hs; simpl.
  - eauto.
  - destruct (Hstep s x) as (s1 & E & Hs1); simpl; auto.
    rewrite E. simpl.
    apply IH; auto. intros s0 y Hy. apply Hstep. now right.
Qed.

(** A loop throws when its body throws at some element and returned before
    it. *)
Lemma forEachM_throws (P : S -> Prop) (e : Exn) (xs : list A) :
  (forall s x, In x xs -> P s ->
     (exists s', f s x = Ok s' /\ P s') \/ f s x = Throw e) ->
  (exists x, In x xs /\ forall s, P s -> f s x = Throw e) ->
  forall s, P s -> forEachM f xs s = Throw e.
Proof.
  induction xs as [|x xs IH]; intros Hstep (bad & Hin & Hbad) s Hs; simpl.
  - destruct Hin.
  - destruct (Hstep s x) as [(s1 & E & Hs1) | E]; simpl; auto;
      rewrite E; simpl; [|reflexivity].
    destruct Hin as [<- | Hin].
    + rewrite (Hbad s Hs) in E. discriminate.
    + apply IH; eauto. intros s0 y Hy. apply Hstep. now right.
Qed.

(** Every element of a loop that returns had its turn, and the body
    returned on it. *)
Lemma forEachM_each_returned (xs : list A) (s s' : S) :
  forEachM f xs s = Ok s' ->
  forall x, In x xs -> exists s1 s2, f s1 x = Ok s2.
Proof.
  revert s. induction xs as [|y xs IH]; intros s Hrun x Hin; simpl in *.
  - destruct Hin.
  - destruct (f s y) as [s1|e] eqn:E; simpl in Hrun; [|discriminate].
    destruct Hin as [<- | Hin]; eauto.
Qed.

(** An exception that leaves a loop was thrown by its body. *)
Lemma forEachM_thrown_by_body (xs : list A) (s : S) (e : Exn) :
  forEachM f xs s = Throw e ->
  exists s1 x, In x xs /\ f s1 x = Throw e.
Proof.
  revert s. induction xs as [|y xs IH]; intros s Hrun; simpl in *.
  - discriminate.
  - destruct (f s y) as [s1|e1] eqn:E; simpl in Hrun.
    + destruct (IH s1 Hrun) as (s2 & x & Hin & Hx). eauto.
    + injection Hrun as ->. eauto.
Qed.

Lemma forEachM_app (xs ys : list A) (s : S) :
  forEachM f (xs ++ ys) s = (s' ← forEachM f xs s; forEachM f ys s').
Proof.
  revert s. induction xs as [|x xs IH]; intros s; simpl.
  - reflexivity.
  - destruct (f s x); simpl; [apply IH | reflexivity].
Qed.

(** Replacing an element by one the body cannot tell from it leaves the
    loop's result as it is. *)
Lemma forEachM_replace (before after : list A) (x y : A) (s : S) :
  (forall s0, f s0 x = f s0 y) ->
  forEachM f (before ++ x :: after) s = forEachM f (before ++ y :: after) s.
Proof.
  intros Hxy. revert s. induction before as [|b before IH]; intros s; simpl.
  - now rewrite Hxy.
  - destruct (f s b); simpl; [apply IH | reflexivity].
Qed.

End LoopFacts.

(* ===================================================================== *)
(** ** Facts about ranges *)
(* ===================================================================== *)

Section RangeFacts.
Import Calendar MomentJs MomentRange Props.

Lemma wholeDays_inv (r : DateRange) :
  wholeDays r = true ->
  wfMoment (rangeStart r) = true /\ wfMoment (rangeEnd r) = true /\
  msOf (rangeStart r) = 0 /\ msOf (rangeEnd r) = msPerDay - 1 /\
  dayOf (rangeStart r) <= dayOf (rangeEnd r).
Proof.
  unfold wholeDays. rewrite !andb_true_iff, !Z.eqb_eq, Z.leb_le. tauto.
Qed.

Lemma wholeDays_intro (s e : Moment) :
  wfMoment s = true -> wfMoment e = true ->
  msOf s = 0 -> msOf e = msPerDay - 1 -> dayOf s <= dayOf e ->
  wholeDays (mkRange s e) = true.
Proof.
  unfold wholeDays. simpl. rewrite !andb_true_iff, !Z.eqb_eq, Z.leb_le. tauto.
Qed.

Lemma wholeDays_values (r : DateRange) :
  wholeDays r = true ->
  valueOf (rangeStart r) = Some (dayOf (rangeStart r) * msPerDay) /\
  valueOf (rangeEnd r) = Some (dayOf (rangeEnd r) * msPerDay + (msPerDay - 1)).
Proof.
  intros H. apply wholeDays_inv in H as (Hs & He & Hms & Hme & _).
  rewrite !valueOf_wf, Hms, Hme by assumption. split; f_equal; lia.
Qed.

(** The days a range of whole days runs over. *)
Lemma byDays_wholeDays (r : DateRange) :
  wholeDays r = true ->
  byDays r =
  map (fun i => addDays i (rangeStart r))
      (seq 0 (S (Z.to_nat (dayOf (rangeEnd r) - dayOf (rangeStart r))))).
Proof.
  intros H. destruct (wholeDays_values r H) as [Hs He].
  apply wholeDays_inv in H as (_ & _ & _ & _ & Hle).
  unfold byDays, diffDays. rewrite Hs, He. do 3 f_equal.
  unfold msPerDay. Z.to_euclidean_division_equations. lia.
Qed.

Lemma intersect_invalid (q p : DateRange) :
  valueOf (rangeStart p) = None \/ valueOf (rangeEnd p) = None ->
  intersect q p = None.
Proof.
  unfold intersect. intros [-> | ->];
    destruct (valueOf (rangeStart q)), (valueOf (rangeEnd q));
    try destruct (valueOf (rangeEnd p)); try destruct (valueOf (rangeStart p));
    simpl; rewrite ?andb_false_r, ?orb_false_r; simpl;
    repeat match goal with |- context [if ?b then _ else _] => destruct b end;
    reflexivity.
Qed.

(** What [intersect] returns on two ranges of whole days: nothing when one
    ends before the other starts, else the days they share. *)
Lemma intersect_wholeDays (q p : DateRange) :
  wholeDays q = true -> wholeDays p = true ->
  ((dayOf (rangeEnd p) < dayOf (rangeStart q)
    \/ dayOf (rangeEnd q) < dayOf (rangeStart p))
   /\ intersect q p = None)
  \/ (dayOf (rangeStart q) <= dayOf (rangeEnd p)
      /\ dayOf (rangeStart p) <= dayOf (rangeEnd q)
      /\ exists a, intersect q p = Some a /\ wholeDays a = true
         /\ dayOf (rangeStart a)
            = Z.max (dayOf (rangeStart q)) (dayOf (rangeStart p))
         /\ dayOf (rangeEnd a)
            = Z.min (dayOf (rangeEnd q)) (dayOf (rangeEnd p))).
Proof.
  intros Hq Hp.
  destruct (wholeDays_values q Hq) as [Hqs Hqe].
  destruct (wholeDays_values p Hp) as [Hps Hpe].
  pose proof (wholeDays_inv q Hq) as (Wqs & Wqe & Mqs & Mqe & Lq).
  pose proof (wholeDays_inv p Hp) as (Wps & Wpe & Mps & Mpe & Lp).
  unfold intersect. rewrite Hqs, Hqe, Hps, Hpe. unfold num_eq, num_le, num_lt.
  set (qs := dayOf (rangeStart q)) in *. set (qe := dayOf (rangeEnd q)) in *.
  set (ps := dayOf (rangeStart p)) in *. set (pe := dayOf (rangeEnd p)) in *.
  unfold msPerDay in *.
  destruct (Z.eqb_spec (qs * 86400000) (qe * 86400000 + (86400000 - 1))); [lia|].
  destruct (Z.eqb_spec (ps * 86400000) (pe * 86400000 + (86400000 - 1))); [lia|].
  repeat match goal with
         | |- context [?a <=? ?b] => destruct (Z.leb_spec a b)
         | |- context [?a <? ?b] => destruct (Z.ltb_spec a b)
         end; simpl;
    first
      [ left; split; [lia | reflexivity]
      | right; split; [lia | split; [lia |]];
        eexists; split; [reflexivity |]; split;
        [ first [ assumption
                | apply wholeDays_intro; fold qs qe ps pe; auto; lia ]
        | simpl; fold qs qe ps pe; lia ] ].
Qed.

End RangeFacts.

(* ===================================================================== *)
(** ** Facts about parsing *)
(* ===================================================================== *)

Section ParseFacts.
Import Calendar MomentJs MomentRange Props.

Lemma takeDigits_digits (k : nat) (s ds r : string) :
  takeDigits k s = (ds, r) ->
  forallb isDigit (list_ascii_of_string ds) = true.
Proof.
  revert s ds r. induction k as [|k IH]; intros s ds r H; simpl in H.
  - injection H as <- _. reflexivity.
  - destruct s as [|c rest]; [injection H as <- _; reflexivity|].
    destruct (isDigit c) eqn:E; [|injection H as <- _; reflexivity].
    destruct (takeDigits k rest) as [ds' r'] eqn:T.
    injection H as <- _. simpl. rewrite E. simpl. eapply IH, T.
Qed.

Lemma matchDigits_digits (k : nat) (s ds r : string) :
  matchDigits k s = Some (ds, r) ->
  forallb isDigit (list_ascii_of_string ds) = true.
Proof.
  induction s as [|c rest IH]; simpl; [discriminate|].
  destruct (isDigit c).
  - intros H. injection H as H. eapply takeDigits_digits, H.
  - exact IH.
Qed.

Lemma toInt_nonneg (s : string) :
  forallb isDigit (list_ascii_of_string s) = true -> 0 <= toInt s.
Proof.
  unfold toInt.
  assert (forall l acc, forallb isDigit l = true -> 0 <= acc ->
            0 <= fold_left
                   (fun acc c => 10 * acc + (Z.of_nat (nat_of_ascii c) - 48))
                   l acc) as G.
  { induction l as [|c l IH]; intros acc Hd Hacc; simpl; [exact Hacc|].
    simpl in Hd. apply andb_true_iff in Hd as [Hc Hl].
    apply IH; [exact Hl|].
    unfold isDigit in Hc. apply andb_true_iff in Hc as [Hlo _].
    apply Nat.leb_le in Hlo. lia. }
  intros Hd. apply G; [exact Hd | lia].
Qed.

Lemma parseTwoDigitYear_nonneg (s : string) :
  0 <= toInt s -> 0 <= parseTwoDigitYear s.
Proof. unfold parseTwoDigitYear. destruct (68 <? toInt s); lia. Qed.

(** The year the token loop stores is never negative. *)
Lemma parseToken_year (cfg : Config) (token : Token) :
  (forall y, aYear cfg = Some y -> 0 <= y) ->
  forall y, aYear (parseToken cfg token) = Some y -> 0 <= y.
Proof.
  intros Hcfg y. destruct token; simpl.
  - destruct (matchDigits 4 (input cfg)) as [[ds r]|] eqn:M; [|apply Hcfg].
    simpl. intros H. injection H as <-.
    pose proof (toInt_nonneg ds (matchDigits_digits _ _ _ _ M)).
    destruct (String.length ds =? 2)%nat;
      auto using parseTwoDigitYear_nonneg.
  - destruct (matchDigits 2 (input cfg)) as [[ds r]|]; apply Hcfg.
  - destruct (matchDigits 2 (input cfg)) as [[ds r]|]; apply Hcfg.
  - destruct (matchLit c (input cfg)); apply Hcfg.
Qed.

Lemma parseTokens_year (tokens : list Token) (cfg : Config) :
  (forall y, aYear cfg = Some y -> 0 <= y) ->
  forall y, aYear (fold_left parseToken tokens cfg) = Some y -> 0 <= y.
Proof.
  revert cfg. induction tokens as [|t ts IH]; intros cfg Hcfg; simpl.
  - exact Hcfg.
  - apply IH, parseToken_year, Hcfg.
Qed.

(** A moment [parse] accepts is a real calendar date at midnight. *)
Lemma parse_wf (s : string) :
  isValid (parse s) = true ->
  wfMoment (parse s) = true /\ msOf (parse s) = 0.
Proof.
  unfold parse. cbv zeta.
  pose proof (parseTokens_year formatTokens (mkConfig s None None None)) as Hy.
  destruct (aYear (fold_left parseToken formatTokens _)) as [y|];
    [|simpl; discriminate].
  specialize (Hy ltac:(discriminate) y eq_refl).
  set (mo := default 0 _). set (d := default 1 _).
  destruct (Z.ltb_spec mo 0), (Z.ltb_spec 11 mo); simpl; try discriminate.
  destruct (Z.ltb_spec d 1), (Z.ltb_spec (daysInMonth y mo) d); simpl;
    try discriminate.
  intros _. split; [|reflexivity].
  apply wfMoment_Local. unfold msPerDay. lia.
Qed.

Lemma parse_invalid (s : string) :
  isValid (parse s) = false -> parse s = Invalid.
Proof. destruct (parse s); [reflexivity | discriminate]. Qed.

(** [parse] is [parseIn] in a zone where every day starts at midnight. *)
Lemma parseIn_midnight (s : string) : parseIn (fun _ _ _ => 0) s = parse s.
Proof. reflexivity. Qed.


End ParseFacts.

(* ===================================================================== *)
(** ** Facts about the plan interval extractor *)
(* ===================================================================== *)

Section ExtractorFacts.
Import Calendar MomentJs MomentRange Props Get.

Lemma extract_from (vs : list PlanDateValues) (acc : list DateRange) :
  fold_left
    (fun ranges planDateValues =>
       if noPlannedSeconds planDateValues then ranges
       else (ranges ++ [planDateRange planDateValues])%list)
    vs acc
  = (acc ++ map planDateRange
             (List.filter (fun v => negb (noPlannedSeconds v)) vs))%list.
Proof.
  revert acc. induction vs as [|v vs IH]; intros acc; simpl.
  - now rewrite app_nil_r.
  - destruct (noPlannedSeconds v); simpl; rewrite IH; [reflexivity|].
    now rewrite <- app_assoc.
Qed.

Lemma getPlanDateRanges_filter (plan : Plan) :
  getPlanDateRanges plan =
  map planDateRange
      (List.filter (fun v => negb (noPlannedSeconds v)) (datesValues plan)).
Proof. unfold getPlanDateRanges. now rewrite extract_from. Qed.

Lemma in_getPlanDateRanges (plan : Plan) (r : DateRange) :
  In r (getPlanDateRanges plan) <->
  exists v, In v (datesValues plan) /\ noPlannedSeconds v = false
            /\ r = planDateRange v.
Proof.
  rewrite getPlanDateRanges_filter, in_map_iff. split.
  - intros (v & <- & Hv). apply filter_In in Hv as [Hin Hn].
    exists v. rewrite negb_true_iff in Hn. auto.
  - intros (v & Hin & Hn & ->). exists v. split; [reflexivity|].
    apply filter_In. rewrite Hn. auto.
Qed.

(** The range of a sub-range whose two dates parse: whole days, from the
    earlier date to the later one. *)
Lemma planDateRange_valid (v : PlanDateValues) :
  isValid (parse (from v)) = true -> isValid (parse (to v)) = true ->
  wholeDays (planDateRange v) = true
  /\ dayOf (rangeStart (planDateRange v))
     = Z.min (dayOf (parse (from v))) (dayOf (parse (to v)))
  /\ dayOf (rangeEnd (planDateRange v))
     = Z.max (dayOf (parse (from v))) (dayOf (parse (to v))).
Proof.
  intros Hf Ht.
  destruct (parse_wf _ Hf) as [Wf Mf]. destruct (parse_wf _ Ht) as [Wt Mt].
  unfold planDateRange, isBefore.
  rewrite !valueOf_wf, Mf, Mt by assumption. unfold num_lt, range.
  destruct (Z.ltb_spec (dayOf (parse (to v)) * msPerDay + 0)
                       (dayOf (parse (from v)) * msPerDay + 0)) as [Hlt | Hge];
    unfold msPerDay in *; simpl rangeStart; simpl rangeEnd;
    rewrite !dayOf_startOfDay, !dayOf_endOfDay;
    (split; [apply wholeDays_intro;
             rewrite ?dayOf_startOfDay, ?dayOf_endOfDay, ?msOf_startOfDay,
               ?msOf_endOfDay;
             auto using wfMoment_startOfDay, wfMoment_endOfDay; lia
            | lia]).
Qed.

(** A sub-range with a date that does not parse yields a range with an
    invalid end. *)
Lemma planDateRange_invalid (v : PlanDateValues) :
  isValid (parse (from v)) = false \/ isValid (parse (to v)) = false ->
  valueOf (rangeStart (planDateRange v)) = None
  \/ valueOf (rangeEnd (planDateRange v)) = None.
Proof.
  unfold planDateRange, isBefore.
  intros [H | H]; apply parse_invalid in H; rewrite H.
  - left. destruct (parse (to v)); reflexivity.
  - right. reflexivity.
Qed.

(** Exchanging the dates of a reversed sub-range leaves its range as it is. *)
Lemma planDateRange_swap (f t : string) (s s' : option Z) :
  isAfter (parse f) (parse t) = true ->
  planDateRange (mkPlanDateValues f t s) = planDateRange (mkPlanDateValues t f s').
Proof.
  unfold planDateRange, isAfter, isBefore. simpl. intros H. rewrite H.
  unfold num_lt in *.
  destruct (valueOf (parse f)) as [x|], (valueOf (parse t)) as [y|];
    try discriminate.
  apply Z.ltb_lt in H. destruct (Z.ltb_spec x y); [lia | reflexivity].
Qed.

End ExtractorFacts.

(* ===================================================================== *)
(** ** Facts about the day mapper *)
(* ===================================================================== *)

Section DayFacts.
Import Calendar MomentJs MomentRange Props Get.

(** The moments [byDays] yields on a range of whole days: the midnights of
    its days. *)
Lemma in_byDays (r : DateRange) (m : Moment) :
  wholeDays r = true ->
  In m (byDays r) <->
  wfMoment m = true /\ msOf m = 0
  /\ dayOf (rangeStart r) <= dayOf m <= dayOf (rangeEnd r).
Proof.
  intros H. rewrite byDays_wholeDays by assumption.
  apply wholeDays_inv in H as (Ws & We & Ms & Me & Hle).
  rewrite in_map_iff. split.
  - intros (i & <- & Hi). apply in_seq in Hi.
    rewrite dayOf_addDays, msOf_addDays by assumption.
    split; [now apply wfMoment_addDays | split; [assumption | lia]].
  - intros (Wm & Mm & Hd).
    exists (Z.to_nat (dayOf m - dayOf (rangeStart r))). split.
    + symmetry. apply addDays_reaches; auto; lia.
    + apply in_seq. lia.
Qed.

Lemma byDays_length (r : DateRange) :
  wholeDays r = true ->
  Z.of_nat (List.length (byDays r))
  = dayOf (rangeEnd r) - dayOf (rangeStart r) + 1.
Proof.
  intros H. rewrite byDays_wholeDays by assumption.
  apply wholeDays_inv in H as (_ & _ & _ & _ & Hle).
  rewrite length_map, length_seq. lia.
Qed.

(** The [i]-th day [byDays] yields is [i] days after the first. *)
Lemma byDays_nth (r : DateRange) (i : nat) :
  wholeDays r = true ->
  (i < List.length (byDays r))%nat ->
  exists m, nth_error (byDays r) i = Some m
            /\ dayOf m = dayOf (rangeStart r) + Z.of_nat i.
Proof.
  intros H. rewrite byDays_wholeDays by assumption.
  apply wholeDays_inv in H as (Ws & _).
  rewrite length_map, length_seq. intros Hi.
  exists (addDays i (rangeStart r)). split.
  - rewrite nth_error_map, nth_error_seq.
    destruct (Nat.ltb_spec i (S (Z.to_nat (dayOf (rangeEnd r) - dayOf (rangeStart r)))));
      [reflexivity | lia].
  - now apply dayOf_addDays.
Qed.

(** Distinct days of a range have distinct keys. *)
Lemma byDays_keys_NoDup (r : DateRange) :
  wholeDays r = true -> List.NoDup (map format (byDays r)).
Proof.
  intros H. pose proof (in_byDays r) as Hin.
  rewrite byDays_wholeDays in * by assumption.
  pose proof (wholeDays_inv r H) as (Ws & _).
  apply Finite.Injective_map_NoDup_in.
  - intros a b Ha Hb Hfmt.
    apply (Hin _ H) in Ha as (Wa & Ma & _). apply (Hin _ H) in Hb as (Wb & Mb & _).
    apply wfMoment_eq; auto; [|congruence].
    now apply format_inj.
  - apply Finite.Injective_map_NoDup_in; [|apply seq_NoDup].
    intros i j _ _ Heq. apply (f_equal dayOf) in Heq.
    rewrite !dayOf_addDays in Heq by assumption. lia.
Qed.

End DayFacts.

(* ===================================================================== *)
(** ** Facts about [mapPlans] *)
(* ===================================================================== *)

Section MapperFacts.
Import Calendar MomentJs MomentRange Props Get.
Implicit Types (mappedPlans : Js.Object (list PlanData)) (day : Moment).

Lemma initial_fold_keys (days : list Moment) mappedPlans :
  List.NoDup (Js.keys mappedPlans ++ map format days) ->
  Js.keys (fold_left (fun acc day => Js.set acc (format day) []) days mappedPlans)
  = (Js.keys mappedPlans ++ map format days)%list.
Proof.
  revert mappedPlans. induction days as [|d days IH]; intros acc Hnd; simpl.
  - now rewrite app_nil_r.
  - pose proof (NoDup_remove_2 _ _ _ Hnd) as Hnotin.
    assert (Js.keys (Js.set acc (format d) [])
            = (Js.keys acc ++ [format d])%list) as Hk.
    { apply (keys_set_absent acc (format d) []). intros Hin. apply Hnotin, in_or_app. now left. }
    rewrite IH; rewrite Hk, <- app_assoc; [reflexivity | exact Hnd].
Qed.

Lemma initial_fold_get_other (days : list Moment) mappedPlans (key : string) :
  ~ In key (map format days) ->
  Js.get (fold_left (fun acc day => Js.set acc (format day) []) days mappedPlans) key
  = Js.get mappedPlans key.
Proof.
  revert mappedPlans. induction days as [|d days IH]; intros acc Hnotin; simpl.
  - reflexivity.
  - simpl in Hnotin. rewrite IH by tauto. apply get_set_ne. tauto.
Qed.

Lemma initial_fold_get (days : list Moment) mappedPlans (key : string) :
  In key (map format days) ->
  Js.get (fold_left (fun acc day => Js.set acc (format day) []) days mappedPlans) key
  = Some [].
Proof.
  revert mappedPlans. induction days as [|d days IH]; intros acc Hin; simpl.
  - destruct Hin.
  - destruct (in_dec string_dec key (map format days)) as [Hrest | Hrest].
    + now apply IH.
    + rewrite initial_fold_get_other by assumption.
      destruct Hin as [<- | Hin]; [apply get_set_eq | contradiction].
Qed.

(** The initial object has the days of the query range as its keys, in
    order, each with an empty array. *)
Lemma initialPlans_keys (q : DateRange) :
  wholeDays q = true -> Js.keys (initialPlans q) = map format (byDays q).
Proof.
  intros H. unfold initialPlans.
  rewrite initial_fold_keys; [reflexivity|].
  now apply byDays_keys_NoDup.
Qed.

Lemma initialPlans_get (q : DateRange) (key : string) :
  In key (map format (byDays q)) -> Js.get (initialPlans q) key = Some [].
Proof. apply initial_fold_get. Qed.

Lemma initialPlans_get_other (q : DateRange) (key : string) :
  ~ In key (map format (byDays q)) -> Js.get (initialPlans q) key = None.
Proof. intros H. unfold initialPlans. now rewrite initial_fold_get_other. Qed.

Lemma pushOnDay_keys (pd : PlanData) mappedPlans day mappedPlans' :
  pushOnDay pd mappedPlans day = Ok mappedPlans' ->
  Js.keys mappedPlans' = Js.keys mappedPlans.
Proof.
  unfold pushOnDay. destruct (Js.get _ _) as [items|] eqn:G; [|discriminate].
  intros H. injection H as <-. apply keys_set_present, get_in_keys.
  now rewrite G.
Qed.

Lemma pushOnDay_returns (pd : PlanData) mappedPlans day :
  In (format day) (Js.keys mappedPlans) ->
  exists mappedPlans', pushOnDay pd mappedPlans day = Ok mappedPlans'.
Proof.
  intros Hin. apply get_in_keys in Hin. unfold pushOnDay.
  destruct (Js.get _ _); [eauto | contradiction].
Qed.

Lemma pushOnDay_get (pd : PlanData) mappedPlans day mappedPlans' (key : string) :
  pushOnDay pd mappedPlans day = Ok mappedPlans' ->
  Js.get mappedPlans' key =
  if String.eqb (format day) key
  then option_map (fun items => (items ++ [pd])%list) (Js.get mappedPlans key)
  else Js.get mappedPlans key.
Proof.
  unfold pushOnDay. destruct (Js.get mappedPlans (format day)) as [items|] eqn:G;
    [|discriminate].
  intros H. injection H as <-.
  destruct (String.eqb_spec (format day) key) as [<- | Hne].
  - now rewrite get_set_eq, G.
  - now apply get_set_ne.
Qed.

Lemma forEach_pushOnDay_keys (pd : PlanData) (days : list Moment)
    mappedPlans mappedPlans' :
  forEachM (pushOnDay pd) days mappedPlans = Ok mappedPlans' ->
  Js.keys mappedPlans' = Js.keys mappedPlans.
Proof.
  apply (forEachM_invariant (pushOnDay pd)
           (fun m => Js.keys m = Js.keys mappedPlans)); [|reflexivity].
  intros s x s' _ Hs Hpush. now rewrite (pushOnDay_keys _ _ _ _ Hpush).
Qed.

Lemma mapPlanRange_keys (q : DateRange) (plan : Plan) mappedPlans
    (r : DateRange) mappedPlans' :
  mapPlanRange q plan mappedPlans r = Ok mappedPlans' ->
  Js.keys mappedPlans' = Js.keys mappedPlans.
Proof.
  unfold mapPlanRange. destruct (intersect q r); [|discriminate].
  apply forEach_pushOnDay_keys.
Qed.

Lemma mapPlanRange_overlaps (q : DateRange) (plan : Plan) mappedPlans
    (r : DateRange) mappedPlans' :
  mapPlanRange q plan mappedPlans r = Ok mappedPlans' -> intersect q r <> None.
Proof. unfold mapPlanRange. destruct (intersect q r); [discriminate | discriminate]. Qed.

Lemma mapPlanRange_disjoint (q : DateRange) (plan : Plan) mappedPlans
    (r : DateRange) :
  intersect q r = None -> mapPlanRange q plan mappedPlans r = Throw TypeError.
Proof. unfold mapPlanRange. now intros ->. Qed.

Lemma mapPlan_keys (q : DateRange) (plan : Plan) (ranges : list DateRange)
    mappedPlans mappedPlans' :
  forEachM (mapPlanRange q plan) ranges mappedPlans = Ok mappedPlans' ->
  Js.keys mappedPlans' = Js.keys mappedPlans.
Proof.
  apply (forEachM_invariant (mapPlanRange q plan)
           (fun m => Js.keys m = Js.keys mappedPlans)); [|reflexivity].
  intros s x s' _ Hs Hstep. now rewrite (mapPlanRange_keys _ _ _ _ _ Hstep).
Qed.

(** [mapPlans] never adds, removes or reorders a key. *)
Lemma mapPlans_keys (from to : Moment) (plans : list Plan) mappedPlans :
  mapPlans from to plans = Ok mappedPlans ->
  Js.keys mappedPlans
  = Js.keys (initialPlans (range (startOfDay from) (endOfDay to))).
Proof.
  unfold mapPlans.
  apply (forEachM_invariant _
           (fun m => Js.keys m
                     = Js.keys (initialPlans (range (startOfDay from) (endOfDay to)))));
    [|reflexivity].
  intros s plan s' _ Hs Hstep. now rewrite (mapPlan_keys _ _ _ _ _ Hstep).
Qed.

(** The only exception [mapPlans] throws is a [TypeError]. *)
Lemma mapPlans_throws_TypeError (from to : Moment) (plans : list Plan) (e : Exn) :
  mapPlans from to plans = Throw e -> e = TypeError.
Proof.
  unfold mapPlans. intros H.
  apply forEachM_thrown_by_body in H as (m1 & plan & _ & H).
  apply forEachM_thrown_by_body in H as (m2 & r & _ & H).
  unfold mapPlanRange in H. destruct (intersect _ r); [|congruence].
  apply forEachM_thrown_by_body in H as (m3 & day & _ & H).
  unfold pushOnDay in H. destruct (Js.get _ _); congruence.
Qed.

(** When [mapPlans] returns, every extracted range met the query range. *)
Lemma mapPlans_all_overlap (from to : Moment) (plans : list Plan) mappedPlans :
  mapPlans from to plans = Ok mappedPlans ->
  forall plan r, In plan plans -> In r (getPlanDateRanges plan) ->
    intersect (range (startOfDay from) (endOfDay to)) r <> None.
Proof.
  unfold mapPlans. intros H plan r Hplan Hr.
  destruct (forEachM_each_returned _ _ _ _ H plan Hplan) as (m1 & m2 & H1).
  destruct (forEachM_each_returned _ _ _ _ H1 r Hr) as (m3 & m4 & H2).
  eapply mapPlanRange_overlaps, H2.
Qed.

End MapperFacts.

(* ===================================================================== *)
(** ** When [mapPlans] returns, and what it stores *)
(* ===================================================================== *)

Section MapperResults.
Import Calendar MomentJs MomentRange Props Get.
Implicit Types (mappedPlans : Js.Object (list PlanData)) (day : Moment).

Lemma queryRange_wholeDays (from to : Moment) :
  wfMoment from = true -> wfMoment to = true -> dayOf from <= dayOf to ->
  wholeDays (range (startOfDay from) (endOfDay to)) = true.
Proof.
  intros Wf Wt Hle. apply wholeDays_intro;
    rewrite ?dayOf_startOfDay, ?dayOf_endOfDay, ?msOf_startOfDay,
      ?msOf_endOfDay;
    auto using wfMoment_startOfDay, wfMoment_endOfDay.
Qed.

(** The days shared with a sub-range are days of the query range. *)
Lemma intersect_within (q : DateRange) (v : PlanDateValues) (a : DateRange) :
  wholeDays q = true ->
  intersect q (planDateRange v) = Some a ->
  wholeDays a = true /\ forall day, In day (byDays a) -> In day (byDays q).
Proof.
  intros Hq Hint.
  destruct (isValid (parse (from v))) eqn:Vf; [destruct (isValid (parse (to v))) eqn:Vt|].
  - destruct (planDateRange_valid v Vf Vt) as (Hp & _ & _).
    destruct (intersect_wholeDays q _ Hq Hp) as [[_ Hnone] | (H1 & H2 & a' & Ha' & Wa & Hs & He)];
      [congruence|].
    assert (a' = a) as -> by congruence.
    split; [exact Wa|]. intros day Hday.
    apply (in_byDays a day Wa) in Hday as (Wd & Md & Hd).
    apply (in_byDays q day Hq). repeat split; auto; lia.
  - rewrite intersect_invalid in Hint; [discriminate|].
    apply planDateRange_invalid. now right.
  - rewrite intersect_invalid in Hint; [discriminate|].
    apply planDateRange_invalid. now left.
Qed.

Lemma mapPlanRange_returns (q : DateRange) (plan : Plan) (v : PlanDateValues)
    mappedPlans :
  wholeDays q = true ->
  Js.keys mappedPlans = map format (byDays q) ->
  intersect q (planDateRange v) <> None ->
  exists mappedPlans',
    mapPlanRange q plan mappedPlans (planDateRange v) = Ok mappedPlans'
    /\ Js.keys mappedPlans' = map format (byDays q).
Proof.
  intros Hq Hkeys Hint. unfold mapPlanRange.
  destruct (intersect q (planDateRange v)) as [a|] eqn:E; [|contradiction].
  destruct (intersect_within q v a Hq E) as [Wa Hsub].
  apply (forEachM_returns (pushOnDay (planDataOf plan))
           (fun m => Js.keys m = map format (byDays q))); [|exact Hkeys].
  intros m day Hday Hm.
  destruct (pushOnDay_returns (planDataOf plan) m day) as [m' Hm'].
  { rewrite Hm. apply in_map, Hsub, Hday. }
  exists m'. split; [exact Hm'|].
  now rewrite (pushOnDay_keys _ _ _ _ Hm').
Qed.

(** [mapPlans] returns when every sub-range with planned seconds meets the
    query range. *)
Lemma mapPlans_returns (from to : Moment) (plans : list Plan) :
  wfMoment from = true -> wfMoment to = true -> dayOf from <= dayOf to ->
  (forall plan r, In plan plans -> In r (getPlanDateRanges plan) ->
     intersect (range (startOfDay from) (endOfDay to)) r <> None) ->
  exists mappedPlans, mapPlans from to plans = Ok mappedPlans.
Proof.
  intros Wf Wt Hle Hall.
  pose proof (queryRange_wholeDays from to Wf Wt Hle) as Hq.
  unfold mapPlans.
  set (q := range (startOfDay from) (endOfDay to)) in *.
  assert (exists m, forEachM
            (fun m plan => forEachM (mapPlanRange q plan) (getPlanDateRanges plan) m)
            plans (initialPlans q) = Ok m
            /\ Js.keys m = map format (byDays q)) as (m & Hm & _);
    [|eauto].
  apply (forEachM_returns _ (fun m => Js.keys m = map format (byDays q)));
    [|now apply initialPlans_keys].
  intros m plan Hplan Hm.
  apply (forEachM_returns (mapPlanRange q plan)
           (fun m => Js.keys m = map format (byDays q))); [|exact Hm].
  intros m0 r Hr Hm0.
  pose proof (Hall plan r Hplan Hr) as Hint.
  apply in_getPlanDateRanges in Hr as (v & _ & _ & ->).
  now apply mapPlanRange_returns.
Qed.

(** A sub-range with planned seconds that misses the query range makes
    [mapPlans] throw. *)
Lemma mapPlans_disjoint_throws (from to : Moment) (plans : list Plan)
    (plan : Plan) (v : PlanDateValues) :
  In plan plans -> In v (datesValues plan) -> noPlannedSeconds v = false ->
  intersect (range (startOfDay from) (endOfDay to)) (planDateRange v) = None ->
  mapPlans from to plans = Throw TypeError.
Proof.
  intros Hplan Hv Hn Hint.
  destruct (mapPlans from to plans) as [m|e] eqn:E.
  - exfalso. apply (mapPlans_all_overlap _ _ _ _ E plan (planDateRange v)); auto.
    apply in_getPlanDateRanges. eauto.
  - now rewrite (mapPlans_throws_TypeError _ _ _ _ E).
Qed.

Lemma pushOnDay_hasItem_kept (pd pd' : PlanData) mappedPlans day mappedPlans'
    (key : string) :
  pushOnDay pd mappedPlans day = Ok mappedPlans' ->
  hasItem mappedPlans key pd' -> hasItem mappedPlans' key pd'.
Proof.
  intros Hpush (items & Hget & Hin). unfold hasItem.
  rewrite (pushOnDay_get _ _ _ _ key Hpush), Hget.
  destruct (String.eqb (format day) key); simpl; eauto using in_or_app.
Qed.

Lemma pushOnDay_hasItem (pd : PlanData) mappedPlans day mappedPlans' :
  pushOnDay pd mappedPlans day = Ok mappedPlans' ->
  hasItem mappedPlans' (format day) pd.
Proof.
  intros Hpush. unfold hasItem.
  rewrite (pushOnDay_get _ _ _ _ (format day) Hpush), String.eqb_refl.
  unfold pushOnDay in Hpush.
  destruct (Js.get mappedPlans (format day)) as [items|]; [|discriminate].
  exists (items ++ [pd])%list. split; [reflexivity|].
  apply in_or_app. right. now left.
Qed.

Lemma forEach_pushOnDay_kept (pd pd' : PlanData) (days : list Moment)
    mappedPlans mappedPlans' (key : string) :
  forEachM (pushOnDay pd) days mappedPlans = Ok mappedPlans' ->
  hasItem mappedPlans key pd' -> hasItem mappedPlans' key pd'.
Proof.
  intros Hrun Hhas.
  apply (forEachM_invariant (pushOnDay pd) (fun m => hasItem m key pd')
           days) with (s := mappedPlans); auto.
  intros s x s' _ Hs Hpush. eapply pushOnDay_hasItem_kept; eauto.
Qed.

Lemma forEach_pushOnDay_hasItem (pd : PlanData) (days : list Moment) :
  forall mappedPlans mappedPlans' day,
  forEachM (pushOnDay pd) days mappedPlans = Ok mappedPlans' ->
  In day days -> hasItem mappedPlans' (format day) pd.
Proof.
  induction days as [|d days IH]; intros m m' day Hrun Hin; simpl in *.
  - destruct Hin.
  - destruct (pushOnDay pd m d) as [m1|] eqn:E; simpl in Hrun; [|discriminate].
    destruct Hin as [<- | Hin].
    + eapply forEach_pushOnDay_kept; eauto using pushOnDay_hasItem.
    + eapply IH; eauto.
Qed.

Lemma mapPlanRange_kept (q : DateRange) (plan : Plan) mappedPlans
    (r : DateRange) mappedPlans' (key : string) (pd : PlanData) :
  mapPlanRange q plan mappedPlans r = Ok mappedPlans' ->
  hasItem mappedPlans key pd -> hasItem mappedPlans' key pd.
Proof.
  unfold mapPlanRange. destruct (intersect q r); [|discriminate].
  apply forEach_pushOnDay_kept.
Qed.

Lemma mapPlan_kept (q : DateRange) (plan : Plan) (ranges : list DateRange)
    mappedPlans mappedPlans' (key : string) (pd : PlanData) :
  forEachM (mapPlanRange q plan) ranges mappedPlans = Ok mappedPlans' ->
  hasItem mappedPlans key pd -> hasItem mappedPlans' key pd.
Proof.
  intros Hrun Hhas.
  apply (forEachM_invariant (mapPlanRange q plan) (fun m => hasItem m key pd)
           ranges) with (s := mappedPlans); auto.
  intros s x s' _ Hs Hstep. eapply mapPlanRange_kept; eauto.
Qed.

Lemma mapPlan_hasItem (q : DateRange) (plan : Plan) (ranges : list DateRange)
    mappedPlans mappedPlans' (r a : DateRange) day :
  forEachM (mapPlanRange q plan) ranges mappedPlans = Ok mappedPlans' ->
  In r ranges -> intersect q r = Some a -> In day (byDays a) ->
  hasItem mappedPlans' (format day) (planDataOf plan).
Proof.
  intros Hrun Hr Hint Hday.
  apply in_split in Hr as (rb & ra & ->).
  rewrite forEachM_app in Hrun.
  destruct (forEachM (mapPlanRange q plan) rb mappedPlans) as [m1|];
    simpl in Hrun; [|discriminate].
  destruct (mapPlanRange q plan m1 r) as [m2|] eqn:E; simpl in Hrun;
    [|discriminate].
  eapply mapPlan_kept; [exact Hrun|].
  unfold mapPlanRange in E. rewrite Hint in E.
  eapply forEach_pushOnDay_hasItem; eauto.
Qed.

(** Every day a sub-range with planned seconds shares with the query range
    holds the item of its plan. *)
Lemma mapPlans_hasItem (from to : Moment) (plans : list Plan) mappedPlans
    (plan : Plan) (v : PlanDateValues) (a : DateRange) day :
  mapPlans from to plans = Ok mappedPlans ->
  In plan plans -> In v (datesValues plan) -> noPlannedSeconds v = false ->
  intersect (range (startOfDay from) (endOfDay to)) (planDateRange v) = Some a ->
  In day (byDays a) ->
  hasItem mappedPlans (format day) (planDataOf plan).
Proof.
  unfold mapPlans. intros Hrun Hplan Hv Hn Hint Hday.
  set (q := range (startOfDay from) (endOfDay to)) in *.
  apply in_split in Hplan as (pb & pa & ->).
  rewrite forEachM_app in Hrun.
  destruct (forEachM _ pb (initialPlans q)) as [m1|]; simpl in Hrun;
    [|discriminate].
  destruct (forEachM (mapPlanRange q plan) (getPlanDateRanges plan) m1)
    as [m2|] eqn:E; simpl in Hrun; [|discriminate].
  apply (forEachM_invariant
           (fun m p => forEachM (mapPlanRange q p) (getPlanDateRanges p) m)
           (fun m => hasItem m (format day) (planDataOf plan)) pa)
    with (s := m2); auto.
  - intros s x s' _ Hs Hstep. eapply mapPlan_kept; eauto.
  - eapply mapPlan_hasItem; eauto.
    apply in_getPlanDateRanges. eauto.
Qed.

(** Every item [mapPlans] stores is the item of one of the plans. *)
Lemma mapPlans_items (from to : Moment) (plans : list Plan) mappedPlans :
  mapPlans from to plans = Ok mappedPlans ->
  forall key pd, hasItem mappedPlans key pd ->
    exists plan, In plan plans /\ pd = planDataOf plan.
Proof.
  unfold mapPlans. set (q := range (startOfDay from) (endOfDay to)).
  intros Hrun.
  apply (forEachM_invariant
           (fun m p => forEachM (mapPlanRange q p) (getPlanDateRanges p) m)
           (fun m => forall key pd, hasItem m key pd ->
                       exists plan, In plan plans /\ pd = planDataOf plan)
           plans) with (s := initialPlans q); auto.
  - intros m plan m' Hplan Hm Hstep.
    apply (forEachM_invariant (mapPlanRange q plan)
             (fun m => forall key pd, hasItem m key pd ->
                         exists plan, In plan plans /\ pd = planDataOf plan)
             (getPlanDateRanges plan)) with (s := m); auto.
    intros m0 r m0' _ Hm0 Hr. unfold mapPlanRange in Hr.
    destruct (intersect q r) as [a|]; [|discriminate].
    apply (forEachM_invariant (pushOnDay (planDataOf plan))
             (fun m => forall key pd, hasItem m key pd ->
                         exists plan, In plan plans /\ pd = planDataOf plan)
             (byDays a)) with (s := m0); auto.
    intros m1 day m1' _ Hm1 Hpush key pd (items & Hget & Hin).
    rewrite (pushOnDay_get _ _ _ _ key Hpush) in Hget.
    destruct (String.eqb (format day) key).
    + destruct (Js.get m1 key) as [old|] eqn:G; [|discriminate].
      injection Hget as <-. apply in_app_or in Hin as [Hin | [<- | []]].
      * apply (Hm1 key pd). exists old. auto.
      * eauto.
    + apply (Hm1 key pd). exists items. auto.
  - intros key pd (items & Hget & Hin).
    destruct (in_dec string_dec key (map format (byDays q))) as [Hk | Hk].
    + rewrite initialPlans_get in Hget by assumption.
      injection Hget as <-. destruct Hin.
    + rewrite initialPlans_get_other in Hget by assumption. discriminate.
Qed.

End MapperResults.

(* ===================================================================== *)
(** ** Facts about the date range resolver *)
(* ===================================================================== *)

Section ResolverFacts.
Import Calendar MomentJs MomentRange Props Get.

(** Between two moments at the same time of day [diff] counts the days. *)
Lemma diffDays_same_time (a b : Moment) :
  wfMoment a = true -> wfMoment b = true -> msOf a = msOf b ->
  diffDays b a = Some (dayOf b - dayOf a).
Proof.
  intros Wa Wb Hms. unfold diffDays. rewrite !valueOf_wf, Hms by assumption.
  f_equal.
  replace (dayOf b * msPerDay + msOf b - (dayOf a * msPerDay + msOf b))
    with ((dayOf b - dayOf a) * msPerDay) by lia.
  apply Z.quot_mul. unfold msPerDay. lia.
Qed.

Lemma isAfter_same_time (a b : Moment) :
  wfMoment a = true -> wfMoment b = true -> msOf a = msOf b ->
  isAfter a b = (dayOf b <? dayOf a).
Proof.
  intros Wa Wb Hms. unfold isAfter, num_lt.
  rewrite !valueOf_wf, Hms by assumption.
  unfold msPerDay.
  destruct (Z.ltb_spec (dayOf b * 86400000 + msOf b) (dayOf a * 86400000 + msOf b)),
    (Z.ltb_spec (dayOf b) (dayOf a)); try reflexivity; lia.
Qed.

Lemma valueOf_valid (m : Moment) :
  isValid m = true -> valueOf m = Some (dayOf m * msPerDay + msOf m).
Proof. destruct m; [discriminate | reflexivity]. Qed.

(** [isAfter] and [diff] in terms of the local time that passes between the
    two moments, whatever their times of day. *)
Lemma isAfter_elapsed (a b : Moment) :
  isValid a = true -> isValid b = true ->
  isAfter a b = (elapsed a b <? 0).
Proof.
  intros Va Vb. unfold isAfter, num_lt, elapsed.
  rewrite !valueOf_valid by assumption.
  destruct (Z.ltb_spec (dayOf b * msPerDay + msOf b)
                       (dayOf a * msPerDay + msOf a)),
    (Z.ltb_spec ((dayOf b - dayOf a) * msPerDay + (msOf b - msOf a)) 0);
    try reflexivity; lia.
Qed.

Lemma diffDays_elapsed (a b : Moment) :
  isValid a = true -> isValid b = true ->
  diffDays b a = Some (Z.quot (elapsed a b) msPerDay).
Proof.
  intros Va Vb. unfold diffDays, elapsed. rewrite !valueOf_valid by assumption.
  do 2 f_equal. lia.
Qed.

(** The difference in whole days exceeds 13 exactly when 14 full days have
    passed. *)
Lemma moreThan13_elapsed (a b : Moment) :
  isValid a = true -> isValid b = true ->
  moreThan13 (diffDays b a) = (14 * msPerDay <=? elapsed a b).
Proof.
  intros Va Vb. rewrite diffDays_elapsed by assumption. unfold moreThan13.
  generalize (elapsed a b). intros e. unfold msPerDay.
  destruct (Z.ltb_spec 13 (Z.quot e 86400000)),
    (Z.leb_spec (14 * 86400000) e);
    try reflexivity; exfalso; Z.to_euclidean_division_equations; lia.
Qed.

(** The time between two real local times is within a day of the
    difference of their calendar days. *)
Lemma elapsed_days (a b : Moment) :
  wfMoment a = true -> wfMoment b = true ->
  (dayOf b - dayOf a - 1) * msPerDay < elapsed a b
  /\ elapsed a b < (dayOf b - dayOf a + 1) * msPerDay.
Proof.
  intros Wa Wb. pose proof (msOf_bounds a Wa). pose proof (msOf_bounds b Wb).
  unfold elapsed. lia.
Qed.

Lemma elapsed_same_time (a b : Moment) :
  msOf a = msOf b -> elapsed a b = (dayOf b - dayOf a) * msPerDay.
Proof. unfold elapsed. lia. Qed.

(** The two moments the resolver returns are real local times at the same
    time of day, whenever they are valid. *)
Lemma resolved_dates_wf (argv : Argv) (now : Moment) :
  wfMoment now = true ->
  isValid (datesFrom (getQueryFromAndToDates argv now)) = true ->
  isValid (datesTo (getQueryFromAndToDates argv now)) = true ->
  wfMoment (datesFrom (getQueryFromAndToDates argv now)) = true
  /\ wfMoment (datesTo (getQueryFromAndToDates argv now)) = true
  /\ msOf (datesFrom (getQueryFromAndToDates argv now))
     = msOf (datesTo (getQueryFromAndToDates argv now)).
Proof.
  intros Wnow. unfold getQueryFromAndToDates.
  destruct (tomorrow argv); [|destruct (week argv)]; cbn [datesFrom datesTo].
  - intros _ _. pose proof (wfMoment_addDays 1 now Wnow). auto.
  - intros _ _. rewrite msOf_addDays.
    pose proof (wfMoment_addDays 6 now Wnow). auto.
  - intros Vf Vt. destruct (parse_wf _ Vf) as [Wf Mf].
    destruct (parse_wf _ Vt) as [Wt Mt]. rewrite Mf, Mt. auto.
Qed.

(** When the two shorthand flags are not both set, [InvalidDate] is thrown
    exactly when one of the two moments is invalid. *)
Lemma validateArgs_InvalidDate (argv : Argv) (dates : Dates) :
  tomorrow argv && week argv = false ->
  validateArgs argv dates = Throw InvalidDate <->
  isValid (datesFrom dates) = false \/ isValid (datesTo dates) = false.
Proof.
  intros Hflags. unfold validateArgs. rewrite Hflags.
  destruct (isValid (datesFrom dates)), (isValid (datesTo dates)); simpl;
    try (split; [auto | reflexivity]).
  split; [|intros [H | H]; discriminate].
  destruct (isAfter _ _); [discriminate|].
  destruct (moreThan13 _); discriminate.
Qed.


End ResolverFacts.

(* ===================================================================== *)
(** ** The day mapper: claims C1, C2, C3 *)
(* ===================================================================== *)

Section DayMapperClaims.
Import Calendar MomentJs MomentRange Props Get Examples.

(** C1, as stated, fails.  The plan below has [secondsPerDay] 3600 and one
    sub-range, 2020-01-11 to 2020-01-11, with [timePlannedSeconds] 7200.
    Queried over 2020-01-10 to 2020-01-12, the item on 2020-01-11 has the
    planned time "an hour", which is the humanized [secondsPerDay] of the
    plan, not the humanized 7200 seconds of the sub-range ("2 hours"). *)
Lemma plannedTime_ignores_subrange_seconds :
  mapPlans (parse "2020-01-10") (parse "2020-01-12")
    [fixBug 3600 [mkPlanDateValues "2020-01-11" "2020-01-11" (Some 7200)]]
  = Ok [("2020-01-10", []); ("2020-01-11", [anHour]); ("2020-01-12", [])]
  /\ plannedTime anHour = humanize 3600
  /\ plannedTime anHour <> humanize 7200.
Proof. split; [vm_compute; reflexivity | split; [reflexivity | discriminate]]. Qed.

(** C1, amended.  Whenever [mapPlans] returns, every day that a sub-range
    with planned seconds shares with the query range holds the item of the
    sub-range's plan, and every item the result holds is the item of one of
    the plans, its planned time being the humanized [secondsPerDay] of that
    plan.  In particular the plan with [secondsPerDay] 7200 and the one
    sub-range 2020-01-11 to 2020-01-11 with 7200 seconds, queried over
    2020-01-10 to 2020-01-12, yields on 2020-01-11 exactly one item, with key
    ABC-123 and planned time "2 hours", and nothing on the other two days. *)
Theorem plannedTime_from_plan_secondsPerDay :
  (forall (from to : Moment) (plans : list Plan)
          (mappedPlans : Js.Object (list PlanData)),
     mapPlans from to plans = Ok mappedPlans ->
     (forall plan v a day,
        In plan plans -> In v (datesValues plan) ->
        noPlannedSeconds v = false ->
        intersect (range (startOfDay from) (endOfDay to)) (planDateRange v)
        = Some a ->
        In day (byDays a) ->
        hasItem mappedPlans (format day) (planDataOf plan))
     /\ (forall key pd,
           hasItem mappedPlans key pd ->
           exists plan, In plan plans /\ pd = planDataOf plan
                        /\ plannedTime pd = humanize (secondsPerDay plan)))
  /\ mapPlans (parse "2020-01-10") (parse "2020-01-12")
       [fixBug 7200 [mkPlanDateValues "2020-01-11" "2020-01-11" (Some 7200)]]
     = Ok [("2020-01-10", []); ("2020-01-11", [twoHours]); ("2020-01-12", [])].
Proof.
  split; [|vm_compute; reflexivity].
  intros from to plans mappedPlans Hrun. split.
  - intros plan v a day Hplan Hv Hn Hint Hday.
    eapply mapPlans_hasItem; eauto.
  - intros key pd Hhas.
    destruct (mapPlans_items _ _ _ _ Hrun key pd Hhas) as (plan & Hplan & ->).
    exists plan. auto.
Qed.

Lemma plannedTime_from_plan_secondsPerDay_witness :
  hasItem [("2020-01-10", []); ("2020-01-11", [twoHours]); ("2020-01-12", [])]
          "2020-01-11" twoHours.
Proof.
  apply (proj1 (proj1 plannedTime_from_plan_secondsPerDay
                  (parse "2020-01-10") (parse "2020-01-12")
                  [fixBug 7200
                     [mkPlanDateValues "2020-01-11" "2020-01-11" (Some 7200)]]
                  _ eq_refl)
               (fixBug 7200
                  [mkPlanDateValues "2020-01-11" "2020-01-11" (Some 7200)])
               (mkPlanDateValues "2020-01-11" "2020-01-11" (Some 7200))
               (mkRange (Local 2020 0 11 0) (Local 2020 0 11 86399999))
               (Local 2020 0 11 0)).
  - simpl. auto.
  - simpl. auto.
  - reflexivity.
  - reflexivity.
  - simpl. auto.
Defined.

(** C2, on a failing input.  A sub-range with planned seconds whose dates
    parse and whose days all lie before the first or after the last day of
    the query range makes [mapPlans] throw a [TypeError]: [intersect]
    returns [null] and [by] is called on it.  The pair is not skipped and no
    mapping is returned. *)
Theorem mapPlans_throws_outside_window
    (queryFrom queryTo : Moment) (plans : list Plan) (plan : Plan)
    (v : PlanDateValues) :
  wfMoment queryFrom = true -> wfMoment queryTo = true ->
  dayOf queryFrom <= dayOf queryTo ->
  In plan plans -> In v (datesValues plan) -> noPlannedSeconds v = false ->
  isValid (parse (from v)) = true -> isValid (parse (to v)) = true ->
  Z.max (dayOf (parse (from v))) (dayOf (parse (to v))) < dayOf queryFrom
  \/ dayOf queryTo < Z.min (dayOf (parse (from v))) (dayOf (parse (to v))) ->
  mapPlans queryFrom queryTo plans = Throw TypeError.
Proof.
  intros Wf Wt Hle Hplan Hv Hn Vf Vt Hout.
  apply (mapPlans_disjoint_throws queryFrom queryTo plans plan v); auto.
  pose proof (queryRange_wholeDays queryFrom queryTo Wf Wt Hle) as Hq.
  destruct (planDateRange_valid v Vf Vt) as (Hp & Hs & He).
  destruct (intersect_wholeDays _ _ Hq Hp) as [[_ Hnone] | (H1 & H2 & _)];
    [exact Hnone|].
  simpl in H1, H2. rewrite dayOf_startOfDay in H1. rewrite dayOf_endOfDay in H2.
  lia.
Qed.

Lemma mapPlans_throws_outside_window_witness :
  mapPlans (parse "2020-01-10") (parse "2020-01-12")
    [fixBug 3600 [mkPlanDateValues "2020-02-01" "2020-02-02" (Some 3600)]]
  = Throw TypeError.
Proof.
  apply (mapPlans_throws_outside_window
           (parse "2020-01-10") (parse "2020-01-12") _
           (fixBug 3600 [mkPlanDateValues "2020-02-01" "2020-02-02" (Some 3600)])
           (mkPlanDateValues "2020-02-01" "2020-02-02" (Some 3600))).
  - reflexivity.
  - reflexivity.
  - vm_compute. discriminate.
  - simpl. auto.
  - simpl. auto.
  - reflexivity.
  - reflexivity.
  - reflexivity.
  - right. vm_compute. reflexivity.
Defined.

(** C3.  For a query interval of real dates with [from] not after [to]
    (of any length, so also of at most 14 days) and any list of plans: a
    mapping [mapPlans] returns has exactly [to - from + 1] keys, no two of
    them equal, and its [i]-th key in iteration order is the formatted day
    [from + i]; each day is present whatever the plans hold, and without
    plans each day holds the empty list.  [mapPlans] returns exactly when
    every sub-range with planned seconds meets the query range. *)
Theorem mapPlans_keys_are_query_days
    (queryFrom queryTo : Moment) (plans : list Plan) :
  wfMoment queryFrom = true -> wfMoment queryTo = true ->
  dayOf queryFrom <= dayOf queryTo ->
  (forall mappedPlans,
     mapPlans queryFrom queryTo plans = Ok mappedPlans ->
     Z.of_nat (List.length (Js.keys mappedPlans))
     = dayOf queryTo - dayOf queryFrom + 1
     /\ List.NoDup (Js.keys mappedPlans)
     /\ (forall i, (i < List.length (Js.keys mappedPlans))%nat ->
           exists day, nth_error (Js.keys mappedPlans) i = Some (format day)
                       /\ wfMoment day = true
                       /\ dayOf day = dayOf queryFrom + Z.of_nat i)
     /\ (forall key, In key (Js.keys mappedPlans) ->
           Js.get mappedPlans key <> None))
  /\ ((exists mappedPlans, mapPlans queryFrom queryTo plans = Ok mappedPlans)
      <-> (forall plan r, In plan plans -> In r (getPlanDateRanges plan) ->
             intersect (range (startOfDay queryFrom) (endOfDay queryTo)) r
             <> None))
  /\ (exists mappedPlans,
        mapPlans queryFrom queryTo [] = Ok mappedPlans
        /\ forall key, In key (Js.keys mappedPlans) ->
             Js.get mappedPlans key = Some []).
Proof.
  intros Wf Wt Hle.
  pose proof (queryRange_wholeDays queryFrom queryTo Wf Wt Hle) as Hq.
  split; [|split].
  2:{ split.
      - intros [mappedPlans Hrun]. now apply (mapPlans_all_overlap _ _ _ _ Hrun).
      - now apply mapPlans_returns. }
  2:{ exists (initialPlans (range (startOfDay queryFrom) (endOfDay queryTo))).
      split; [reflexivity|].
      intros key Hkey. apply initialPlans_get.
      now rewrite <- initialPlans_keys. }
  intros mappedPlans Hrun.
  rewrite (mapPlans_keys _ _ _ _ Hrun), initialPlans_keys by assumption.
  set (q := range (startOfDay queryFrom) (endOfDay queryTo)) in *.
  rewrite length_map. repeat split.
  - rewrite byDays_length by assumption. simpl.
    now rewrite dayOf_startOfDay, dayOf_endOfDay.
  - now apply byDays_keys_NoDup.
  - intros i Hi. destruct (byDays_nth q i Hq Hi) as (day & Hnth & Hday).
    exists day. rewrite nth_error_map, Hnth. repeat split.
    + apply nth_error_In in Hnth. now apply (in_byDays q day Hq) in Hnth.
    + rewrite Hday. simpl. now rewrite dayOf_startOfDay.
  - intros key Hkey. apply get_in_keys.
    now rewrite (mapPlans_keys _ _ _ _ Hrun), initialPlans_keys.
Qed.

Lemma mapPlans_keys_are_query_days_witness :
  Z.of_nat
    (List.length
       (Js.keys
          [("2020-01-10", @nil PlanData); ("2020-01-11", [twoHours]);
           ("2020-01-12", [])]))
  = dayOf (parse "2020-01-12") - dayOf (parse "2020-01-10") + 1.
Proof.
  apply (proj1 (mapPlans_keys_are_query_days
                  (parse "2020-01-10") (parse "2020-01-12")
                  [fixBug 7200
                     [mkPlanDateValues "2020-01-11" "2020-01-11" (Some 7200)]]
                  eq_refl eq_refl ltac:(vm_compute; discriminate))
               _ eq_refl).
Defined.

End DayMapperClaims.

(* ===================================================================== *)
(** ** The plan interval extractor: claims C5, C8 *)
(* ===================================================================== *)

Section ExtractorClaims.
Import Calendar MomentJs MomentRange Props Get Examples.

(** The day mapper sees a plan only through its item and its extracted
    ranges. *)
Lemma mapPlans_same_ranges (queryFrom queryTo : Moment)
    (before after : list Plan) (plan plan' : Plan) :
  planDataOf plan = planDataOf plan' ->
  getPlanDateRanges plan = getPlanDateRanges plan' ->
  mapPlans queryFrom queryTo (before ++ plan :: after)
  = mapPlans queryFrom queryTo (before ++ plan' :: after).
Proof.
  intros Hdata Hranges. unfold mapPlans. apply forEachM_replace.
  intros m. rewrite Hranges. unfold mapPlanRange. now rewrite Hdata.
Qed.

(** C5.  A sub-range whose [from] date is after its [to] date is accepted,
    and the extractor and the day mapper give for it what they give for the
    sub-range with the two dates exchanged: alone it yields the one range
    from the start of the earlier day to the end of the later day.  In
    particular (2020-01-12, 2020-01-10) with 3600 seconds yields the output
    of (2020-01-10, 2020-01-12) with 3600 seconds. *)
Theorem reversed_subrange_is_swapped :
  (forall (f t : string) (s : Z) (self descr : string) (perDay : Z)
          (pre post : list PlanDateValues),
     s <> 0 -> isAfter (parse f) (parse t) = true ->
     getPlanDateRanges (mkPlan self descr perDay [mkPlanDateValues f t (Some s)])
     = [mkRange (startOfDay (parse t)) (endOfDay (parse f))]
     /\ getPlanDateRanges
          (mkPlan self descr perDay (pre ++ mkPlanDateValues f t (Some s) :: post))
        = getPlanDateRanges
            (mkPlan self descr perDay (pre ++ mkPlanDateValues t f (Some s) :: post))
     /\ forall queryFrom queryTo before after,
          mapPlans queryFrom queryTo
            (before
             ++ mkPlan self descr perDay
                  (pre ++ mkPlanDateValues f t (Some s) :: post) :: after)
          = mapPlans queryFrom queryTo
              (before
               ++ mkPlan self descr perDay
                    (pre ++ mkPlanDateValues t f (Some s) :: post) :: after))
  /\ getPlanDateRanges
       (fixBug 3600 [mkPlanDateValues "2020-01-12" "2020-01-10" (Some 3600)])
     = getPlanDateRanges
         (fixBug 3600 [mkPlanDateValues "2020-01-10" "2020-01-12" (Some 3600)])
  /\ getPlanDateRanges
       (fixBug 3600 [mkPlanDateValues "2020-01-12" "2020-01-10" (Some 3600)])
     = [mkRange (Local 2020 0 10 0) (Local 2020 0 12 86399999)].
Proof.
  split; [|split; reflexivity].
  intros f t s self descr perDay pre post Hs Hafter.
  assert (noPlannedSeconds (mkPlanDateValues f t (Some s)) = false) as Hn.
  { unfold noPlannedSeconds. simpl. now apply Z.eqb_neq. }
  assert (getPlanDateRanges
            (mkPlan self descr perDay (pre ++ mkPlanDateValues f t (Some s) :: post))
          = getPlanDateRanges
              (mkPlan self descr perDay (pre ++ mkPlanDateValues t f (Some s) :: post)))
    as Hranges.
  { rewrite !getPlanDateRanges_filter. simpl.
    rewrite !List.filter_app, !map_app. simpl.
    change (noPlannedSeconds (mkPlanDateValues t f (Some s)))
      with (noPlannedSeconds (mkPlanDateValues f t (Some s))).
    rewrite Hn. simpl.
    now rewrite (planDateRange_swap f t (Some s) (Some s) Hafter). }
  split; [|split; [exact Hranges|]].
  - unfold getPlanDateRanges. simpl. rewrite Hn. simpl.
    unfold planDateRange, isBefore. simpl.
    unfold isAfter in Hafter. now rewrite Hafter.
  - intros queryFrom queryTo before after.
    now apply mapPlans_same_ranges.
Qed.

Lemma reversed_subrange_is_swapped_witness :
  getPlanDateRanges
    (mkPlan "ABC-1" "" 3600 [mkPlanDateValues "2020-01-12" "2020-01-10" (Some 3600)])
  = [mkRange (startOfDay (parse "2020-01-10")) (endOfDay (parse "2020-01-12"))].
Proof.
  apply (proj1 (proj1 reversed_subrange_is_swapped
                  "2020-01-12" "2020-01-10" 3600 "ABC-1" "" 3600 [] []
                  ltac:(discriminate) eq_refl)).
Defined.

(** C8.  A sub-range whose planned seconds are zero or absent is left out by
    the extractor without an exception, and no item comes from it: the
    extracted ranges, and the result of [mapPlans] over any query interval
    and among any other plans, are those of the plan without that
    sub-range. *)
Theorem no_planned_seconds_excluded
    (v : PlanDateValues) (self descr : string) (perDay : Z)
    (pre post : list PlanDateValues) :
  timePlannedSeconds v = Some 0 \/ timePlannedSeconds v = None ->
  getPlanDateRanges (mkPlan self descr perDay (pre ++ v :: post))
  = getPlanDateRanges (mkPlan self descr perDay (pre ++ post))
  /\ getPlanDateRanges (mkPlan self descr perDay [v]) = []
  /\ forall queryFrom queryTo before after,
       mapPlans queryFrom queryTo
         (before ++ mkPlan self descr perDay (pre ++ v :: post) :: after)
       = mapPlans queryFrom queryTo
           (before ++ mkPlan self descr perDay (pre ++ post) :: after).
Proof.
  intros Hv.
  assert (noPlannedSeconds v = true) as Hn.
  { unfold noPlannedSeconds. destruct Hv as [-> | ->]; reflexivity. }
  assert (getPlanDateRanges (mkPlan self descr perDay (pre ++ v :: post))
          = getPlanDateRanges (mkPlan self descr perDay (pre ++ post)))
    as Hranges.
  { rewrite !getPlanDateRanges_filter. simpl.
    rewrite !List.filter_app. simpl. now rewrite Hn. }
  split; [exact Hranges | split].
  - unfold getPlanDateRanges. simpl. now rewrite Hn.
  - intros queryFrom queryTo before after.
    now apply mapPlans_same_ranges.
Qed.

Lemma no_planned_seconds_excluded_witness :
  mapPlans (parse "2020-01-10") (parse "2020-01-12")
    [fixBug 7200 [mkPlanDateValues "2020-01-10" "2020-01-12" (Some 0);
                  mkPlanDateValues "2020-01-11" "2020-01-11" (Some 7200)]]
  = mapPlans (parse "2020-01-10") (parse "2020-01-12")
      [fixBug 7200 [mkPlanDateValues "2020-01-11" "2020-01-11" (Some 7200)]].
Proof.
  apply (proj2 (proj2 (no_planned_seconds_excluded
                         (mkPlanDateValues "2020-01-10" "2020-01-12" (Some 0))
                         "https://api.tempo.io/core/3/issue/ABC-123" "Fix bug"
                         7200 []
                         [mkPlanDateValues "2020-01-11" "2020-01-11" (Some 7200)]
                         (or_introl eq_refl)))
               (parse "2020-01-10") (parse "2020-01-12") [] []).
Defined.

End ExtractorClaims.

(* ===================================================================== *)
(** ** The date range resolver and the configuration: claims C4, C6, C7,
       C9, C10 *)
(* ===================================================================== *)

Section ResolverClaims.
Import Calendar MomentJs MomentRange Props Get Examples.

(** C4, on a failing input.  With neither shorthand flag set the resolver
    throws [InvalidDate] exactly when [moment] rejects one of the two
    strings; but [moment] parses in its forgiving mode, and accepts strings
    that are not of the form YYYY-MM-DD.  The from date 2020-1-5 lacks the
    zero padding and the to date 2020-01-10abc carries trailing characters:
    both are parsed, validation succeeds, and the request is issued for
    2020-01-05 to 2020-01-10. *)
Theorem lenient_dates_are_accepted :
  (forall argv dates,
     tomorrow argv && week argv = false ->
     validateArgs argv dates = Throw InvalidDate <->
     isValid (datesFrom dates) = false \/ isValid (datesTo dates) = false)
  /\ (forall now,
        getQueryFromAndToDates (mkArgv "2020-1-5" "2020-01-10abc" false false) now
        = mkDates (Local 2020 0 5 0) (Local 2020 0 10 0)
        /\ validateArgs (mkArgv "2020-1-5" "2020-01-10abc" false false)
             (getQueryFromAndToDates
                (mkArgv "2020-1-5" "2020-01-10abc" false false) now)
           = Ok true
        /\ execute configured (mkArgv "2020-1-5" "2020-01-10abc" false false) now
           = AxiosGet
               "https://api.tempo.io/core/3/plans/user/5b10ac8d82e05b22cc7d4ef5?from=2020-01-05&to=2020-01-10"
               "bearer secret" (Local 2020 0 5 0) (Local 2020 0 10 0)).
Proof.
  split.
  - apply validateArgs_InvalidDate.
  - intros now. repeat split; vm_compute; reflexivity.
Qed.

Lemma lenient_dates_are_accepted_witness :
  validateArgs (mkArgv "tomorrow" "2020-01-10" false false)
    (getQueryFromAndToDates (mkArgv "tomorrow" "2020-01-10" false false) now)
  = Throw InvalidDate.
Proof.
  apply (proj1 lenient_dates_are_accepted
           (mkArgv "tomorrow" "2020-01-10" false false) _ eq_refl).
  left. reflexivity.
Defined.




(** C7.  With both shorthand flags set, validation throws
    [ConflictingOptions] whatever the two date strings are and whatever
    moments it is given, so before any check of the dates; with a valid
    configuration that is the error [execute] prints. *)
Theorem both_flags_conflict (argv : Argv) :
  tomorrow argv = true -> week argv = true ->
  (forall dates, validateArgs argv dates = Throw ConflictingOptions)
  /\ (forall config now,
        validateConfig config = Ok true ->
        execute config argv now = OutputError (errorMessage ConflictingOptions)).
Proof.
  intros Ht Hw. split.
  - intros dates. unfold validateArgs. now rewrite Ht, Hw.
  - intros config now Hc. unfold execute. rewrite Hc. simpl.
    unfold validateArgs. now rewrite Ht, Hw.
Qed.

Lemma both_flags_conflict_witness :
  execute configured (mkArgv "not a date" "2020-01-10" true true) now
  = OutputError (errorMessage ConflictingOptions).
Proof.
  apply (proj2 (both_flags_conflict
                  (mkArgv "not a date" "2020-01-10" true true)
                  eq_refl eq_refl)).
  vm_compute. reflexivity.
Defined.

(** C9.  With exactly one shorthand flag set and a real current time, the
    resolved dates are the same whatever the two date strings are, and
    validation returns: no error branch is taken. *)
Theorem shorthand_ignores_date_strings (argv : Argv) (now : Moment) :
  wfMoment now = true ->
  xorb (tomorrow argv) (week argv) = true ->
  (forall f t,
     getQueryFromAndToDates (mkArgv f t (tomorrow argv) (week argv)) now
     = getQueryFromAndToDates argv now
     /\ validateArgs (mkArgv f t (tomorrow argv) (week argv))
          (getQueryFromAndToDates (mkArgv f t (tomorrow argv) (week argv)) now)
        = Ok true)
  /\ getQueryFromAndToDates argv now
     = (if tomorrow argv
        then mkDates (addDays 1 now) (addDays 1 now)
        else mkDates now (addDays 6 now))
  /\ validateArgs argv (getQueryFromAndToDates argv now) = Ok true.
Proof.
  intros Wnow Hx.
  pose proof (wfMoment_addDays 1 now Wnow) as W1.
  pose proof (wfMoment_addDays 6 now Wnow) as W6.
  assert (forall f t,
            validateArgs (mkArgv f t (tomorrow argv) (week argv))
              (getQueryFromAndToDates
                 (mkArgv f t (tomorrow argv) (week argv)) now) = Ok true) as Hok.
  { intros f t. unfold validateArgs, getQueryFromAndToDates.
    cbn [tomorrow week fromDate toDate].
    destruct (tomorrow argv), (week argv); try discriminate;
      cbn [andb datesFrom datesTo].
    - rewrite (wfMoment_isValid _ W1).
      rewrite isAfter_same_time, diffDays_same_time by auto.
      rewrite Z.ltb_irrefl, Z.sub_diag. reflexivity.
    - rewrite (wfMoment_isValid _ Wnow), (wfMoment_isValid _ W6).
      rewrite isAfter_same_time, diffDays_same_time
        by (auto; now rewrite msOf_addDays).
      rewrite dayOf_addDays by assumption.
      replace (dayOf now + Z.of_nat 6 - dayOf now) with 6 by lia.
      destruct (Z.ltb_spec (dayOf now + Z.of_nat 6) (dayOf now)); [lia|].
      reflexivity. }
  split; [|split].
  - intros f t. split; [|apply Hok].
    unfold getQueryFromAndToDates. cbn [tomorrow week].
    destruct (tomorrow argv), (week argv); try discriminate; reflexivity.
  - unfold getQueryFromAndToDates.
    destruct (tomorrow argv), (week argv); try discriminate; reflexivity.
  - destruct argv as [f t tm wk]. apply (Hok f t).
Qed.

Lemma shorthand_ignores_date_strings_witness :
  validateArgs (mkArgv "garbage" "1999-12-31" false true)
    (getQueryFromAndToDates (mkArgv "garbage" "1999-12-31" false true) now)
  = Ok true.
Proof.
  apply (proj2 (proj2 (shorthand_ignores_date_strings
                         (mkArgv "garbage" "1999-12-31" false true) now
                         eq_refl eq_refl))).
Defined.

(** C10.  [validateConfig] throws [MissingConfig] exactly when the stored
    account id or the stored token is falsy.  A store that holds the empty
    string under either key behaves as the store without that key: both are
    rejected with [MissingConfig], and [execute] prints that error and
    issues no request. *)
Theorem falsy_config_is_missing (config : gmap string Js.Value) :
  (validateConfig config = Throw MissingConfig
   <-> Js.truthy (configGet config "accountId") = false
       \/ Js.truthy (configGet config "token") = false)
  /\ (forall key,
        key = "accountId" \/ key = "token" ->
        validateConfig (<[key := Js.Str ""]> config) = Throw MissingConfig
        /\ validateConfig (delete key config) = Throw MissingConfig
        /\ forall argv now,
             execute (<[key := Js.Str ""]> config) argv now
             = OutputError (errorMessage MissingConfig)
             /\ execute (delete key config) argv now
                = OutputError (errorMessage MissingConfig))
  /\ (forall argv now,
        validateConfig config = Throw MissingConfig ->
        execute config argv now = OutputError (errorMessage MissingConfig)).
Proof.
  assert (forall c argv now,
            validateConfig c = Throw MissingConfig ->
            execute c argv now = OutputError (errorMessage MissingConfig))
    as Hexec.
  { intros c argv now Hc. unfold execute. now rewrite Hc. }
  assert (forall c, validateConfig c = Throw MissingConfig
                    <-> Js.truthy (configGet c "accountId") = false
                        \/ Js.truthy (configGet c "token") = false) as Hiff.
  { intros c. unfold validateConfig.
    destruct (Js.truthy (configGet c "accountId")),
      (Js.truthy (configGet c "token")); simpl;
      split; auto; try discriminate. intros [H | H]; discriminate. }
  split; [apply Hiff | split; [|apply Hexec]].
  intros key Hkey.
  assert (validateConfig (<[key := Js.Str ""]> config) = Throw MissingConfig)
    as Hempty.
  { apply Hiff. unfold configGet.
    destruct Hkey as [-> | ->]; [left | right];
      now rewrite lookup_insert_eq. }
  assert (validateConfig (delete key config) = Throw MissingConfig) as Habsent.
  { apply Hiff. unfold configGet.
    destruct Hkey as [-> | ->]; [left | right];
      now rewrite lookup_delete_eq. }
  auto.
Qed.

Lemma falsy_config_is_missing_witness :
  execute {[ "accountId" := Js.Str ""; "token" := Js.Str "secret" ]}
    (mkArgv "2020-01-10" "2020-01-10" false false) now
  = OutputError (errorMessage MissingConfig).
Proof.
  apply (proj2 (proj2 (falsy_config_is_missing
                         {[ "accountId" := Js.Str ""; "token" := Js.Str "secret" ]}))).
  vm_compute. reflexivity.
Defined.

End ResolverClaims.

(* ===================================================================== *)
(** ** The task key *)
(* ===================================================================== *)

Section TaskKeyFacts.
  Import Calendar MomentJs MomentRange Props Get Views.

Lemma lastIndexOfFrom_spec (c : ascii) (s : string) (i found : Z) :
  (~ In c (chars s) /\ Js.lastIndexOfFrom c s i found = found)
  \/ exists pre suf,
       s = pre +:+ String c suf /\ ~ In c (chars suf)
       /\ Js.lastIndexOfFrom c s i found = i + Z.of_nat (String.length pre).
Proof.
  revert i found. induction s as [|c' s IH]; intros i found; simpl.
  - left. split; [tauto | reflexivity].
  - destruct (IH (i + 1) (if Ascii.eqb c c' then i else found))
      as [[Hno Hr] | (pre & suf & -> & Hsuf & Hr)].
    + destruct (Ascii.eqb_spec c c') as [<- | Hne].
      * right. exists "", s. simpl. repeat split; auto. rewrite Hr. lia.
      * left. split; [|exact Hr]. unfold chars in *. simpl.
        intros [Heq | Hin]; [congruence | contradiction].
    + right. exists (String c' pre), suf. repeat split; auto.
      rewrite Hr. simpl String.length. lia.
Qed.

Lemma string_app_assoc (a b c : string) :
  (a +:+ b) +:+ c = a +:+ (b +:+ c).
Proof.
  induction a as [|x a IH]; [reflexivity|].
  change (String x ((a +:+ b) +:+ c) = String x (a +:+ (b +:+ c))).
  now rewrite IH.
Qed.

Lemma dropChars_app (pre suf : string) :
  Js.dropChars (String.length pre) (pre +:+ suf) = suf.
Proof. induction pre as [|c pre IH]; simpl; [now destruct suf | exact IH]. Qed.

Lemma dropChars_0 (s : string) : Js.dropChars 0 s = s.
Proof. now destruct s. Qed.

(** X1.  The task key of an item is the part of the plan's item reference
    after its last slash: it holds no slash, the reference is the key alone
    or something ending in a slash followed by the key, and a reference
    without a slash is its own key. *)
Theorem taskKey_is_last_segment (plan : Plan) :
  ~ In "/"%char (chars (taskKey (planDataOf plan)))
  /\ (taskKey (planDataOf plan) = planItemSelf plan
      \/ exists pre,
           planItemSelf plan = pre +:+ "/" +:+ taskKey (planDataOf plan))
  /\ (~ In "/"%char (chars (planItemSelf plan)) ->
      taskKey (planDataOf plan) = planItemSelf plan).
Proof.
  unfold planDataOf. cbn [taskKey]. unfold Js.substring, Js.lastIndexOf.
  destruct (lastIndexOfFrom_spec "/" (planItemSelf plan) 0 (-1))
    as [[Hno Hr] | (pre & suf & Hs & Hsuf & Hr)]; rewrite Hr.
  - change (Z.to_nat (-1 + 1)) with 0%nat. rewrite dropChars_0. auto.
  - replace (Z.to_nat (0 + Z.of_nat (String.length pre) + 1))
      with (String.length (pre +:+ "/")) by (rewrite string_length_app; simpl; lia).
    assert (planItemSelf plan = (pre +:+ "/") +:+ suf) as Hsplit.
    { rewrite Hs. symmetry. apply string_app_assoc. }
    assert (Js.dropChars (String.length (pre +:+ "/")) (planItemSelf plan)
            = suf) as -> by (rewrite Hsplit; apply dropChars_app).
    split; [exact Hsuf | split].
    + right. exists pre. rewrite Hs. reflexivity.
    + intros Hno. exfalso. apply Hno. rewrite Hs. unfold chars.
      apply in_string_app_r. simpl. auto.
Qed.


Lemma taskKey_is_last_segment_witness :
  taskKey (planDataOf (Examples.fixBug 7200 [])) = "ABC-123"
  /\ taskKey (planDataOf (mkPlan "ABC-123" "" 0 [])) = "ABC-123".
Proof.
  split; [reflexivity|].
  apply (proj2 (proj2 (taskKey_is_last_segment (mkPlan "ABC-123" "" 0 [])))).
  vm_compute. intros H. repeat (destruct H as [H | H]; [discriminate H|]).
  exact H.
Defined.

End TaskKeyFacts.

(* ===================================================================== *)
(** ** Validation outcomes and the request *)
(* ===================================================================== *)

Section ValidationFacts.
  Import Calendar MomentJs MomentRange Props Get Views.

Lemma validateArgs_returns (argv : Argv) (dates : Dates) :
  validateArgs argv dates = Ok true <->
  tomorrow argv && week argv = false
  /\ isValid (datesFrom dates) = true /\ isValid (datesTo dates) = true
  /\ isAfter (datesFrom dates) (datesTo dates) = false
  /\ moreThan13 (diffDays (datesTo dates) (datesFrom dates)) = false.
Proof.
  unfold validateArgs.
  destruct (tomorrow argv && week argv);
    [split; [discriminate | intros (H & _); discriminate]|].
  destruct (isValid (datesFrom dates));
    [|split; [discriminate | intros (_ & H & _); discriminate]].
  destruct (isValid (datesTo dates));
    [|split; [discriminate | intros (_ & _ & H & _); discriminate]].
  simpl.
  destruct (isAfter _ _);
    [split; [discriminate | intros (_ & _ & _ & H & _); discriminate]|].
  destruct (moreThan13 _);
    [split; [discriminate | intros (_ & _ & _ & _ & H); discriminate]|].
  tauto.
Qed.

(** X2.  For the dates the resolver returns at a real current time, with the
    two shorthand flags not both set: validation throws [RangeOrderError]
    exactly when both dates are valid and the day of [to] is before the day
    of [from]. *)
Theorem range_order_error_iff (argv : Argv) (now : Moment) :
  wfMoment now = true ->
  tomorrow argv && week argv = false ->
  validateArgs argv (getQueryFromAndToDates argv now) = Throw RangeOrderError
  <-> isValid (datesFrom (getQueryFromAndToDates argv now)) = true
      /\ isValid (datesTo (getQueryFromAndToDates argv now)) = true
      /\ dayOf (datesTo (getQueryFromAndToDates argv now))
         < dayOf (datesFrom (getQueryFromAndToDates argv now)).
Proof.
  intros Wnow Hflags.
  pose proof (resolved_dates_wf argv now Wnow) as Hwf.
  set (dates := getQueryFromAndToDates argv now) in *.
  unfold validateArgs. rewrite Hflags.
  destruct (isValid (datesFrom dates)) eqn:Vf;
    [|simpl; split; [discriminate | intros (H & _); discriminate]].
  destruct (isValid (datesTo dates)) eqn:Vt;
    [|simpl; split; [discriminate | intros (_ & H & _); discriminate]].
  destruct (Hwf eq_refl eq_refl) as (Wf & Wt & Hms). simpl.
  rewrite (isAfter_same_time _ _ Wf Wt Hms).
  destruct (Z.ltb_spec (dayOf (datesTo dates)) (dayOf (datesFrom dates))).
  - split; auto.
  - split; [|lia]. destruct (moreThan13 _); discriminate.
Qed.

Lemma range_order_error_iff_witness :
  validateArgs (mkArgv "2020-01-12" "2020-01-10" false false)
    (getQueryFromAndToDates (mkArgv "2020-01-12" "2020-01-10" false false)
                            Examples.now)
  = Throw RangeOrderError.
Proof.
  apply (proj2 (range_order_error_iff
                  (mkArgv "2020-01-12" "2020-01-10" false false) Examples.now
                  eq_refl eq_refl)).
  split; [reflexivity | split; [reflexivity | vm_compute; reflexivity]].
Defined.

(** Validation returns exactly when the flags are not both set, both dates
    are valid, [from] is not after [to] and less than 14 full days pass
    between them. *)
Lemma validateArgs_accepts (argv : Argv) (dates : Dates) :
  validateArgs argv dates = Ok true <->
  tomorrow argv && week argv = false
  /\ isValid (datesFrom dates) = true /\ isValid (datesTo dates) = true
  /\ 0 <= elapsed (datesFrom dates) (datesTo dates) < 14 * msPerDay.
Proof.
  rewrite validateArgs_returns. split.
  - intros (Hflags & Vf & Vt & Hord & Hbig).
    rewrite isAfter_elapsed in Hord by assumption.
    rewrite moreThan13_elapsed in Hbig by assumption.
    apply Z.ltb_ge in Hord. apply Z.leb_gt in Hbig. auto.
  - intros (Hflags & Vf & Vt & Hlo & Hhi).
    rewrite isAfter_elapsed, moreThan13_elapsed by assumption.
    repeat split; auto; [apply Z.ltb_ge | apply Z.leb_gt]; assumption.
Qed.

(** The calendar days between two real local times that validation
    accepts. *)
Lemma accepted_span (argv : Argv) (dates : Dates) :
  wfMoment (datesFrom dates) = true -> wfMoment (datesTo dates) = true ->
  validateArgs argv dates = Ok true ->
  0 <= dayOf (datesTo dates) - dayOf (datesFrom dates) <= 14
  /\ (msOf (datesFrom dates) = msOf (datesTo dates) ->
      dayOf (datesTo dates) - dayOf (datesFrom dates) <= 13).
Proof.
  intros Wf Wt Hok.
  apply validateArgs_accepts in Hok as (_ & _ & _ & Hlo & Hhi).
  pose proof (elapsed_days _ _ Wf Wt) as [Hlo' Hhi'].
  unfold msPerDay in *. split; [lia|].
  intros Hms. rewrite (elapsed_same_time _ _ Hms) in Hhi.
  unfold msPerDay in Hhi. lia.
Qed.

(** X3.  Validation returns exactly when the two shorthand flags are not
    both set, both dates are valid, [from] is not after [to] and less than
    14 full days pass from [from] to [to].  For two real local times that
    puts [to] from 0 to 14 calendar days after [from]; when the two are at
    the same time of day, validation returns exactly when the flags are not
    both set and [to] is from 0 to 13 days after [from]. *)
Theorem validation_accepts_iff_under_14_full_days
    (argv : Argv) (dates : Dates) :
  (validateArgs argv dates = Ok true
   <-> tomorrow argv && week argv = false
       /\ isValid (datesFrom dates) = true /\ isValid (datesTo dates) = true
       /\ 0 <= elapsed (datesFrom dates) (datesTo dates) < 14 * msPerDay)
  /\ (wfMoment (datesFrom dates) = true -> wfMoment (datesTo dates) = true ->
      (validateArgs argv dates = Ok true ->
       0 <= dayOf (datesTo dates) - dayOf (datesFrom dates) <= 14)
      /\ (msOf (datesFrom dates) = msOf (datesTo dates) ->
          validateArgs argv dates = Ok true
          <-> tomorrow argv && week argv = false
              /\ 0 <= dayOf (datesTo dates) - dayOf (datesFrom dates) <= 13)).
Proof.
  split; [apply validateArgs_accepts|].
  intros Wf Wt. split.
  - intros Hok. now apply (accepted_span argv dates Wf Wt Hok).
  - intros Hms. split.
    + intros Hok.
      destruct (accepted_span argv dates Wf Wt Hok) as [[Hlo _] Hhi].
      apply validateArgs_accepts in Hok as (Hflags & _).
      specialize (Hhi Hms). auto.
    + intros (Hflags & Hlo & Hhi). apply validateArgs_accepts.
      rewrite (elapsed_same_time _ _ Hms). unfold msPerDay.
      repeat split; auto using wfMoment_isValid; lia.
Qed.

Lemma validation_accepts_iff_under_14_full_days_witness :
  validateArgs (mkArgv "2020-09-06" "2020-09-19" false false)
    (mkDates (Local 2020 8 6 3600000) (Local 2020 8 19 3600000))
  = Ok true.
Proof.
  apply (proj2 (proj2 (proj2 (validation_accepts_iff_under_14_full_days
                  (mkArgv "2020-09-06" "2020-09-19" false false)
                  (mkDates (Local 2020 8 6 3600000) (Local 2020 8 19 3600000)))
                  eq_refl eq_refl) eq_refl)).
  repeat split; vm_compute; congruence.
Defined.

Lemma validateArgs_returns_true_only (argv : Argv) (dates : Dates) :
  validateArgs argv dates = Ok false -> False.
Proof.
  unfold validateArgs.
  repeat match goal with |- context [if ?b then _ else _] => destruct b end;
    discriminate.
Qed.

Lemma execute_request (config : gmap string Js.Value) (argv : Argv)
    (now : Moment) (url authorization : string) (queryFrom queryTo : Moment) :
  execute config argv now = AxiosGet url authorization queryFrom queryTo ->
  validateConfig config = Ok true
  /\ validateArgs argv (getQueryFromAndToDates argv now) = Ok true
  /\ queryFrom = datesFrom (getQueryFromAndToDates argv now)
  /\ queryTo = datesTo (getQueryFromAndToDates argv now)
  /\ url = "https://api.tempo.io/core/3/plans/user/"
           +:+ toString (configGet config "accountId")
           +:+ "?from=" +:+ format queryFrom +:+ "&to=" +:+ format queryTo
  /\ authorization = "bearer " +:+ toString (configGet config "token").
Proof.
  unfold execute.
  destruct (validateConfig config) as [[|]|e] eqn:Hc; simpl;
    try discriminate.
  2:{ unfold validateConfig in Hc.
      destruct (negb _ || negb _); discriminate. }
  destruct (validateArgs argv _) as [[|]|e] eqn:Ha; simpl; try discriminate.
  2:{ apply validateArgs_returns_true_only in Ha. destruct Ha. }
  intros H. injection H as <- <- <- <-. auto 10.
Qed.

End ValidationFacts.

(* ===================================================================== *)
(** ** From the request to the keys of the mapping *)
(* ===================================================================== *)

Section RequestFacts.
  Import Calendar MomentJs MomentRange Props Get Views.

Lemma format_startOfDay (m : Moment) :
  isValid m = true -> format (startOfDay m) = format m.
Proof. now destruct m. Qed.

Lemma nextDay_startOfDay (m : Moment) :
  nextDay (startOfDay m) = startOfDay (nextDay m).
Proof.
  destruct m as [|y mo d ms]; [reflexivity|]. simpl.
  destruct (d <? daysInMonth y mo); [|destruct (mo <? 11)]; reflexivity.
Qed.

Lemma addDays_startOfDay (n : nat) (m : Moment) :
  addDays n (startOfDay m) = startOfDay (addDays n m).
Proof.
  induction n as [|n IH]; [reflexivity|].
  now rewrite !addDays_S, IH, nextDay_startOfDay.
Qed.

Lemma format_addDays_startOfDay (n : nat) (m : Moment) :
  wfMoment m = true -> format (addDays n (startOfDay m)) = format (addDays n m).
Proof.
  intros W. rewrite addDays_startOfDay. apply format_startOfDay.
  apply wfMoment_isValid. now apply wfMoment_addDays.
Qed.

(** The keys of a mapping [mapPlans] returns, day by day. *)
Lemma mapPlans_keys_list (queryFrom queryTo : Moment) (plans : list Plan)
    (mappedPlans : Js.Object (list PlanData)) :
  wfMoment queryFrom = true -> wfMoment queryTo = true ->
  dayOf queryFrom <= dayOf queryTo ->
  mapPlans queryFrom queryTo plans = Ok mappedPlans ->
  Js.keys mappedPlans
  = map (fun i => format (addDays i queryFrom))
        (seq 0 (S (Z.to_nat (dayOf queryTo - dayOf queryFrom)))).
Proof.
  intros Wf Wt Hle Hrun.
  pose proof (queryRange_wholeDays queryFrom queryTo Wf Wt Hle) as Hq.
  rewrite (mapPlans_keys _ _ _ _ Hrun), initialPlans_keys by assumption.
  rewrite byDays_wholeDays by assumption. simpl rangeStart. simpl rangeEnd.
  rewrite dayOf_startOfDay, dayOf_endOfDay, map_map.
  apply map_ext. intros i. now apply format_addDays_startOfDay.
Qed.

(** The day [b] is printed for the moment reached from [a] by adding the
    days between them, whatever the two times of day. *)
Lemma format_addDays_reaches (a b : Moment) :
  wfMoment a = true -> wfMoment b = true -> dayOf a <= dayOf b ->
  format (addDays (Z.to_nat (dayOf b - dayOf a)) a) = format b.
Proof.
  intros Wa Wb Hle.
  rewrite <- (format_addDays_startOfDay _ _ Wa).
  rewrite <- (format_startOfDay b (wfMoment_isValid _ Wb)).
  f_equal. symmetry.
  rewrite <- (dayOf_startOfDay a), <- (dayOf_startOfDay b).
  apply addDays_reaches; auto using wfMoment_startOfDay.
  - now rewrite !dayOf_startOfDay.
  - now rewrite !msOf_startOfDay.
Qed.

(** X4.  A request [execute] issues at a real current time is for a stored
    account id and token that are truthy and for two real dates that passed
    validation; its URL and header are built from them.  Two real local
    times that pass validation have [to] from 0 to 14 calendar days after
    [from], at most 13 when they are at the same time of day; a mapping
    [mapPlans] then returns for any response has one key per calendar day
    from [from] to [to], so from 1 to 15 keys, the first being the [from]
    and the last the [to] of the URL. *)
Theorem accepted_dates_cover_1_to_15_days :
  (forall (config : gmap string Js.Value) (argv : Argv) (now : Moment)
          (url authorization : string) (queryFrom queryTo : Moment),
     wfMoment now = true ->
     execute config argv now = AxiosGet url authorization queryFrom queryTo ->
     Js.truthy (configGet config "accountId") = true
     /\ Js.truthy (configGet config "token") = true
     /\ url = "https://api.tempo.io/core/3/plans/user/"
              +:+ toString (configGet config "accountId")
              +:+ "?from=" +:+ format queryFrom +:+ "&to=" +:+ format queryTo
     /\ authorization = "bearer " +:+ toString (configGet config "token")
     /\ wfMoment queryFrom = true /\ wfMoment queryTo = true
     /\ validateArgs argv (mkDates queryFrom queryTo) = Ok true)
  /\ (forall (argv : Argv) (queryFrom queryTo : Moment),
        wfMoment queryFrom = true -> wfMoment queryTo = true ->
        validateArgs argv (mkDates queryFrom queryTo) = Ok true ->
        0 <= dayOf queryTo - dayOf queryFrom <= 14
        /\ (msOf queryFrom = msOf queryTo ->
            dayOf queryTo - dayOf queryFrom <= 13)
        /\ forall results mappedPlans,
             mapPlans queryFrom queryTo results = Ok mappedPlans ->
             Z.of_nat (List.length (Js.keys mappedPlans))
             = dayOf queryTo - dayOf queryFrom + 1
             /\ (1 <= List.length (Js.keys mappedPlans) <= 15)%nat
             /\ hd_error (Js.keys mappedPlans) = Some (format queryFrom)
             /\ List.last (Js.keys mappedPlans) "" = format queryTo).
Proof.
  split.
  - intros config argv now url authorization queryFrom queryTo Wnow Hexec.
    apply execute_request in Hexec as (Hc & Ha & -> & -> & Hurl & Hauth).
    set (dates := getQueryFromAndToDates argv now) in *.
    assert (Js.truthy (configGet config "accountId") = true
            /\ Js.truthy (configGet config "token") = true) as [Hacc Htok].
    { unfold validateConfig in Hc.
      destruct (Js.truthy (configGet config "accountId")),
        (Js.truthy (configGet config "token")); simpl in Hc;
        try discriminate; auto. }
    assert (mkDates (datesFrom dates) (datesTo dates) = dates) as Heta
      by now destruct dates.
    rewrite Heta.
    pose proof Ha as Ha'.
    apply validateArgs_returns in Ha' as (_ & Vf & Vt & _).
    destruct (resolved_dates_wf argv now Wnow Vf Vt) as (Wf & Wt & _).
    auto 10.
  - intros argv queryFrom queryTo Wf Wt Hok.
    destruct (accepted_span argv (mkDates queryFrom queryTo) Wf Wt Hok)
      as [Hspan Hsame].
    cbn [datesFrom datesTo] in Hspan, Hsame.
    split; [exact Hspan|]. split; [exact Hsame|].
    intros results mappedPlans Hrun.
    rewrite (mapPlans_keys_list _ _ _ _ Wf Wt ltac:(lia) Hrun).
    split; [|split; [|split]].
    + rewrite length_map, length_seq. lia.
    + rewrite length_map, length_seq. lia.
    + reflexivity.
    + rewrite seq_S, map_app. simpl. rewrite last_last.
      apply format_addDays_reaches; auto; lia.
Qed.

Lemma accepted_dates_cover_1_to_15_days_witness :
  Js.truthy (configGet Examples.configured "accountId") = true
  /\ 0 <= dayOf (Local 2020 8 20 0) - dayOf (Local 2020 8 6 3600000) <= 14.
Proof.
  split.
  - apply (proj1 accepted_dates_cover_1_to_15_days Examples.configured
             (mkArgv "2020-01-10" "2020-01-23" false false) Examples.now
             _ _ (Local 2020 0 10 0) (Local 2020 0 23 0) eq_refl eq_refl).
  - apply (proj2 accepted_dates_cover_1_to_15_days
             (mkArgv "2020-09-06" "2020-09-20" false false)
             (Local 2020 8 6 3600000) (Local 2020 8 20 0)
             eq_refl eq_refl eq_refl).
Defined.

Lemma shorthand_dates_accepted (argv : Argv) (now : Moment) :
  wfMoment now = true -> xorb (tomorrow argv) (week argv) = true ->
  validateArgs argv (getQueryFromAndToDates argv now) = Ok true.
Proof.
  intros Wnow Hx.
  pose proof (wfMoment_addDays 1 now Wnow) as W1.
  pose proof (wfMoment_addDays 6 now Wnow) as W6.
  apply validateArgs_returns. unfold getQueryFromAndToDates.
  destruct (tomorrow argv), (week argv); try discriminate;
    cbn [andb datesFrom datesTo].
  - rewrite (wfMoment_isValid _ W1).
    rewrite isAfter_same_time, diffDays_same_time by auto.
    rewrite Z.ltb_irrefl, Z.sub_diag. auto.
  - rewrite (wfMoment_isValid _ Wnow), (wfMoment_isValid _ W6).
    rewrite isAfter_same_time, diffDays_same_time
      by (auto; now rewrite msOf_addDays).
    rewrite dayOf_addDays by assumption.
    replace (dayOf now + Z.of_nat 6 - dayOf now) with 6 by lia.
    destruct (Z.ltb_spec (dayOf now + Z.of_nat 6) (dayOf now)); [lia|].
    auto.
Qed.

(** X5.  With a valid configuration and a real current time, the [week]
    flag alone requests today and the six days after it, and a mapping then
    returned has exactly those seven days as keys; the [tomorrow] flag alone
    requests the day after today, which is then the only key. *)
Theorem shorthand_requests (config : gmap string Js.Value) (argv : Argv)
    (now : Moment) :
  wfMoment now = true ->
  validateConfig config = Ok true ->
  xorb (tomorrow argv) (week argv) = true ->
  exists url authorization queryFrom queryTo,
    execute config argv now = AxiosGet url authorization queryFrom queryTo
    /\ (week argv = true ->
        queryFrom = now /\ queryTo = addDays 6 now
        /\ dayOf queryTo = dayOf now + 6
        /\ forall results mappedPlans,
             mapPlans queryFrom queryTo results = Ok mappedPlans ->
             Js.keys mappedPlans
             = map (fun i => format (addDays i now)) (seq 0 7))
    /\ (tomorrow argv = true ->
        queryFrom = addDays 1 now /\ queryTo = addDays 1 now
        /\ dayOf queryFrom = dayOf now + 1
        /\ forall results mappedPlans,
             mapPlans queryFrom queryTo results = Ok mappedPlans ->
             Js.keys mappedPlans = [format (addDays 1 now)]).
Proof.
  intros Wnow Hc Hx.
  pose proof (shorthand_dates_accepted argv now Wnow Hx) as Ha.
  pose proof (wfMoment_addDays 1 now Wnow) as W1.
  pose proof (wfMoment_addDays 6 now Wnow) as W6.
  unfold execute. rewrite Hc. cbn [mbind Result_bind]. rewrite Ha.
  cbn [mbind Result_bind].
  do 4 eexists. split; [reflexivity|].
  unfold getQueryFromAndToDates.
  destruct (tomorrow argv), (week argv); try discriminate;
    cbn [datesFrom datesTo]; (split; [intros Hw | intros Ht]);
    try discriminate.
  - repeat split.
    + rewrite dayOf_addDays by assumption. lia.
    + intros results mappedPlans Hrun.
      rewrite (mapPlans_keys_list _ _ _ _ W1 W1 ltac:(lia) Hrun).
      now rewrite Z.sub_diag.
  - repeat split.
    + rewrite dayOf_addDays by assumption. lia.
    + intros results mappedPlans Hrun.
      rewrite (mapPlans_keys_list _ _ _ _ Wnow W6) by
        (try exact Hrun; rewrite dayOf_addDays by assumption; lia).
      rewrite dayOf_addDays by assumption.
      replace (Z.to_nat (dayOf now + Z.of_nat 6 - dayOf now)) with 6%nat by lia.
      reflexivity.
Qed.

Lemma shorthand_requests_witness :
  exists url authorization queryFrom queryTo,
    execute Examples.configured (mkArgv "" "" false true) Examples.now
    = AxiosGet url authorization queryFrom queryTo
    /\ queryFrom = Examples.now.
Proof.
  destruct (shorthand_requests Examples.configured (mkArgv "" "" false true)
              Examples.now eq_refl eq_refl eq_refl)
    as (url & auth & qf & qt & Hexec & Hweek & _).
  exists url, auth, qf, qt. split; [exact Hexec|].
  exact (proj1 (Hweek eq_refl)).
Defined.

End RequestFacts.

(* ===================================================================== *)
(** ** Formatting a date and parsing it back *)
(* ===================================================================== *)

Section RoundTripFacts.
  Import Calendar MomentJs MomentRange Props Get Views.



























End RoundTripFacts.

(* ===================================================================== *)
(** ** The items of a day *)
(* ===================================================================== *)

Section DayItemsFacts.
  Import Calendar MomentJs MomentRange Props Get Views.
  Implicit Types (mappedPlans : Js.Object (list PlanData)) (day : Moment).

(** A loop whose body appends to an observed list appends, element after
    element, what each element adds. *)
Lemma forEachM_accumulate {A S B : Type} (f : S -> A -> Result S)
    (obs : S -> option (list B)) (g : A -> list B) (xs : list A) :
  (forall s x s' l, In x xs -> f s x = Ok s' -> obs s = Some l ->
     obs s' = Some (l ++ g x)%list) ->
  forall s s' l, forEachM f xs s = Ok s' -> obs s = Some l ->
    obs s' = Some (l ++ flat_map g xs)%list.
Proof.
  induction xs as [|x xs IH]; intros Hstep s s' l Hrun Hobs; simpl in *.
  - injection Hrun as <-. now rewrite app_nil_r.
  - destruct (f s x) as [s1|e] eqn:E; simpl in Hrun; [|discriminate].
    rewrite app_assoc.
    apply (IH (fun s0 y s0' l0 Hy => Hstep s0 y s0' l0 (or_intror Hy)) s1);
      auto.
    apply (Hstep s x s1 l); auto.
Qed.

Lemma existsb_format (days : list Moment) (key : string) :
  existsb (fun day => String.eqb (format day) key) days = true
  <-> In key (map format days).
Proof.
  rewrite existsb_exists, in_map_iff. split.
  - intros (d & Hin & He). apply String.eqb_eq in He. eauto.
  - intros (d & He & Hin). exists d. split; [exact Hin|].
    now apply String.eqb_eq.
Qed.

(** Pushing an item on days with distinct keys adds it once to each of those
    days and to no other. *)
Lemma forEach_pushOnDay_get (pd : PlanData) (days : list Moment) :
  List.NoDup (map format days) ->
  forall mappedPlans mappedPlans' (key : string) (items : list PlanData),
    forEachM (pushOnDay pd) days mappedPlans = Ok mappedPlans' ->
    Js.get mappedPlans key = Some items ->
    Js.get mappedPlans' key
    = Some (items ++ if existsb (fun day => String.eqb (format day) key) days
                     then [pd] else [])%list.
Proof.
  induction days as [|d days IH]; intros Hnd m m' key items Hrun Hget;
    simpl in *.
  - injection Hrun as <-. now rewrite app_nil_r.
  - destruct (pushOnDay pd m d) as [m1|] eqn:E; simpl in Hrun; [|discriminate].
    inversion Hnd as [|? ? Hnotin Hnd']; subst.
    pose proof (pushOnDay_get _ _ _ _ key E) as H1. rewrite Hget in H1.
    destruct (String.eqb_spec (format d) key) as [<- | Hne]; simpl in *.
    + rewrite (IH Hnd' m1 m' (format d) _ Hrun H1).
      destruct (existsb _ days) eqn:Hex.
      * apply existsb_format in Hex. contradiction.
      * now rewrite app_nil_r.
    + apply (IH Hnd' m1 m' key items Hrun H1).
Qed.

Lemma mapPlanRange_get (q : DateRange) (plan : Plan) (v : PlanDateValues)
    mappedPlans mappedPlans' (key : string) (items : list PlanData) :
  wholeDays q = true ->
  mapPlanRange q plan mappedPlans (planDateRange v) = Ok mappedPlans' ->
  Js.get mappedPlans key = Some items ->
  Js.get mappedPlans' key
  = Some (items ++ rangeItems q key plan (planDateRange v))%list.
Proof.
  intros Hq Hrun Hget. unfold mapPlanRange, rangeItems in *.
  destruct (intersect q (planDateRange v)) as [a|] eqn:E; [|discriminate].
  destruct (intersect_within q v a Hq E) as [Wa _].
  apply (forEach_pushOnDay_get _ _ (byDays_keys_NoDup a Wa) _ _ _ _ Hrun Hget).
Qed.

Lemma mapPlans_get
    (queryFrom queryTo : Moment) (plans : list Plan)
    (mappedPlans : Js.Object (list PlanData)) (key : string) :
  wfMoment queryFrom = true -> wfMoment queryTo = true ->
  dayOf queryFrom <= dayOf queryTo ->
  mapPlans queryFrom queryTo plans = Ok mappedPlans ->
  In key (Js.keys mappedPlans) ->
  Js.get mappedPlans key
  = Some (dayItems (range (startOfDay queryFrom) (endOfDay queryTo)) key plans).
Proof.
  intros Wf Wt Hle Hrun Hkey.
  pose proof (queryRange_wholeDays queryFrom queryTo Wf Wt Hle) as Hq.
  rewrite (mapPlans_keys _ _ _ _ Hrun), initialPlans_keys in Hkey
    by assumption.
  unfold mapPlans in Hrun.
  set (q := range (startOfDay queryFrom) (endOfDay queryTo)) in *.
  change (dayItems q key plans) with ([] ++ dayItems q key plans)%list.
  unfold dayItems.
  apply (forEachM_accumulate
           (fun m plan => forEachM (mapPlanRange q plan) (getPlanDateRanges plan) m)
           (fun m => Js.get m key)
           (fun plan => flat_map (rangeItems q key plan) (getPlanDateRanges plan))
           plans) with (s := initialPlans q);
    [| exact Hrun | now apply initialPlans_get].
  intros m plan m' l _ Hplan Hl.
  apply (forEachM_accumulate (mapPlanRange q plan) (fun m => Js.get m key)
           (rangeItems q key plan) (getPlanDateRanges plan))
    with (s := m); auto.
  intros m0 r m0' l0 Hr Hstep Hl0.
  apply in_getPlanDateRanges in Hr as (v & _ & _ & ->).
  now apply (mapPlanRange_get q plan v m0 m0').
Qed.

(** X7.  For a query interval of real dates with [from] not after [to], a
    mapping [mapPlans] returns holds under each of its keys exactly the
    items of the sub-ranges that cover that day, one item for each covering
    sub-range with planned seconds, in the order of the plans and, within a
    plan, in the order of its sub-ranges. *)
Theorem mapPlans_day_items
    (queryFrom queryTo : Moment) (plans : list Plan)
    (mappedPlans : Js.Object (list PlanData)) (key : string) :
  wfMoment queryFrom = true -> wfMoment queryTo = true ->
  dayOf queryFrom <= dayOf queryTo ->
  mapPlans queryFrom queryTo plans = Ok mappedPlans ->
  In key (Js.keys mappedPlans) ->
  Js.get mappedPlans key
  = Some (dayItems (range (startOfDay queryFrom) (endOfDay queryTo)) key plans).
Proof. apply mapPlans_get. Qed.

Lemma mapPlans_day_items_witness :
  Js.get [("2020-01-10", []); ("2020-01-11", [Examples.twoHours]);
          ("2020-01-12", [])] "2020-01-11"
  = Some (dayItems (range (startOfDay (parse "2020-01-10"))
                          (endOfDay (parse "2020-01-12")))
                   "2020-01-11"
                   [Examples.fixBug 7200
                      [mkPlanDateValues "2020-01-11" "2020-01-11" (Some 7200)]]).
Proof.
  apply (mapPlans_day_items (parse "2020-01-10") (parse "2020-01-12")
           [Examples.fixBug 7200
              [mkPlanDateValues "2020-01-11" "2020-01-11" (Some 7200)]]
           _ "2020-01-11" eq_refl eq_refl).
  - vm_compute. discriminate.
  - reflexivity.
  - simpl. auto.
Defined.

Lemma covered_key (a : DateRange) (day : Moment) :
  wholeDays a = true -> wfMoment day = true ->
  existsb (fun d => String.eqb (format d) (format day)) (byDays a)
  = (dayOf (rangeStart a) <=? dayOf day) && (dayOf day <=? dayOf (rangeEnd a)).
Proof.
  intros Wa Wd. apply eq_true_iff_eq.
  rewrite existsb_format, in_map_iff, andb_true_iff, !Z.leb_le. split.
  - intros (d & Hfmt & Hin). apply (in_byDays a d Wa) in Hin as (Wd' & _ & Hb).
    rewrite <- (format_inj d day Wd' Wd Hfmt). exact Hb.
  - intros Hb. exists (startOfDay day). split.
    + apply format_startOfDay. now apply wfMoment_isValid.
    + apply (in_byDays a _ Wa).
      rewrite dayOf_startOfDay, msOf_startOfDay.
      auto using wfMoment_startOfDay.
Qed.

(** On a day of the query range, a sub-range with planned seconds that meets
    the query range contributes its item exactly when the day lies between
    its two dates. *)
Lemma rangeItems_plansOn (q : DateRange) (plan : Plan) (v : PlanDateValues)
    (day : Moment) :
  wholeDays q = true -> wfMoment day = true ->
  dayOf (rangeStart q) <= dayOf day <= dayOf (rangeEnd q) ->
  noPlannedSeconds v = false ->
  intersect q (planDateRange v) <> None ->
  rangeItems q (format day) plan (planDateRange v)
  = if plansOn (dayOf day) v then [planDataOf plan] else [].
Proof.
  intros Hq Wd Hin Hn Hint. unfold rangeItems, plansOn. rewrite Hn.
  destruct (isValid (parse (from v))) eqn:Vf;
    [|exfalso; apply Hint, intersect_invalid, planDateRange_invalid; auto].
  destruct (isValid (parse (to v))) eqn:Vt;
    [|exfalso; apply Hint, intersect_invalid, planDateRange_invalid; auto].
  destruct (planDateRange_valid v Vf Vt) as (Hp & Hs & He).
  destruct (intersect_wholeDays q _ Hq Hp)
    as [[_ Hnone] | (H1 & H2 & a & Ha & Wa & Has & Hae)]; [contradiction|].
  rewrite Ha, (covered_key a day Wa Wd), Has, Hae, Hs, He. cbn [negb andb].
  repeat match goal with
         | |- context [?x <=? ?y] => destruct (Z.leb_spec x y)
         end; simpl; try reflexivity; lia.
Qed.

Lemma planItems_count (q : DateRange) (plan : Plan) (day : Moment) :
  wholeDays q = true -> wfMoment day = true ->
  dayOf (rangeStart q) <= dayOf day <= dayOf (rangeEnd q) ->
  (forall r, In r (getPlanDateRanges plan) -> intersect q r <> None) ->
  flat_map (rangeItems q (format day) plan) (getPlanDateRanges plan)
  = repeat (planDataOf plan)
           (List.length (List.filter (plansOn (dayOf day)) (datesValues plan))).
Proof.
  intros Hq Wd Hin Hall.
  assert (forall v, In v (datesValues plan) -> noPlannedSeconds v = false ->
                    intersect q (planDateRange v) <> None) as Hall'.
  { intros v Hv Hn. apply Hall, in_getPlanDateRanges. eauto. }
  clear Hall. rewrite getPlanDateRanges_filter.
  induction (datesValues plan) as [|v vs IH]; [reflexivity|].
  simpl. destruct (noPlannedSeconds v) eqn:Hn; simpl.
  - assert (plansOn (dayOf day) v = false) as ->
      by (unfold plansOn; now rewrite Hn).
    apply IH. intros w Hw. apply Hall'. now right.
  - rewrite rangeItems_plansOn; auto; [|apply Hall'; simpl; auto].
    rewrite IH by (intros w Hw; apply Hall'; now right).
    destruct (plansOn (dayOf day) v); reflexivity.
Qed.

(** X8.  For a query interval of real dates with [from] not after [to] and
    a day of it: a mapping [mapPlans] returns holds under the key of that
    day, plan after plan, the item of each plan as many times as the plan
    has sub-ranges with planned seconds between whose dates the day lies.
    Nothing is merged: the day holds as many items as there are such
    sub-ranges. *)
Theorem day_holds_one_item_per_covering_subrange
    (queryFrom queryTo : Moment) (plans : list Plan)
    (mappedPlans : Js.Object (list PlanData)) (day : Moment) :
  wfMoment queryFrom = true -> wfMoment queryTo = true ->
  mapPlans queryFrom queryTo plans = Ok mappedPlans ->
  wfMoment day = true ->
  dayOf queryFrom <= dayOf day <= dayOf queryTo ->
  exists items,
    Js.get mappedPlans (format day) = Some items
    /\ items
       = flat_map
           (fun plan =>
              repeat (planDataOf plan)
                     (List.length
                        (List.filter (plansOn (dayOf day)) (datesValues plan))))
           plans
    /\ List.length items = countPlansOn (dayOf day) plans.
Proof.
  intros Wf Wt Hrun Wd Hin.
  pose proof (queryRange_wholeDays queryFrom queryTo Wf Wt ltac:(lia)) as Hq.
  pose proof (mapPlans_all_overlap _ _ _ _ Hrun) as Hall.
  set (q := range (startOfDay queryFrom) (endOfDay queryTo)) in *.
  assert (In (format day) (Js.keys mappedPlans)) as Hkey.
  { rewrite (mapPlans_keys _ _ _ _ Hrun), initialPlans_keys by assumption.
    rewrite <- (format_startOfDay day (wfMoment_isValid _ Wd)).
    apply in_map, (in_byDays q _ Hq).
    rewrite dayOf_startOfDay, msOf_startOfDay. subst q. simpl.
    rewrite dayOf_startOfDay, dayOf_endOfDay.
    auto using wfMoment_startOfDay. }
  assert (dayItems q (format day) plans
          = flat_map
              (fun plan =>
                 repeat (planDataOf plan)
                        (List.length
                           (List.filter (plansOn (dayOf day))
                                        (datesValues plan))))
              plans) as Hitems.
  { unfold dayItems. clear Hrun Hkey.
    induction plans as [|plan plans IH]; [reflexivity|].
    simpl. rewrite planItems_count; auto.
    - f_equal. apply IH. intros p r Hp. apply Hall. now right.
    - subst q. simpl. now rewrite dayOf_startOfDay, dayOf_endOfDay.
    - intros r Hr. apply (Hall plan r); simpl; auto. }
  exists (dayItems q (format day) plans). split; [|split].
  - apply mapPlans_get; auto. lia.
  - exact Hitems.
  - rewrite Hitems. unfold countPlansOn. clear.
    induction plans as [|plan plans IH]; [reflexivity|].
    simpl. now rewrite length_app, repeat_length, IH.
Qed.

Lemma day_holds_one_item_per_covering_subrange_witness :
  exists items,
    Js.get [("2020-01-10", [Examples.twoHours]);
            ("2020-01-11", [Examples.twoHours; Examples.twoHours]);
            ("2020-01-12", [])] (format (parse "2020-01-11"))
    = Some items
    /\ List.length items = 2%nat.
Proof.
  destruct (day_holds_one_item_per_covering_subrange
              (parse "2020-01-10") (parse "2020-01-12")
              [Examples.fixBug 7200
                 [mkPlanDateValues "2020-01-11" "2020-01-10" (Some 7200);
                  mkPlanDateValues "2020-01-11" "2020-01-11" (Some 60)]]
              _ (parse "2020-01-11") eq_refl eq_refl eq_refl eq_refl
              ltac:(vm_compute; split; discriminate))
    as (items & Hget & _ & Hlen).
  exists items. split; [exact Hget | exact Hlen].
Defined.

End DayItemsFacts.

(* ===================================================================== *)
(** ** Sub-ranges with dates that do not parse, and extracted ranges *)
(* ===================================================================== *)

Section ExtractorEdgeFacts.
  Import Calendar MomentJs MomentRange Props Get Views.

(** X9.  A sub-range with planned seconds one of whose dates [moment]
    rejects makes [mapPlans] throw a [TypeError], whatever the query
    interval and the other plans are: its range has an invalid end,
    [intersect] returns [null] for it, and [by] is called on that. *)
Theorem mapPlans_throws_on_unparsed_date
    (queryFrom queryTo : Moment) (plans : list Plan) (plan : Plan)
    (v : PlanDateValues) :
  In plan plans -> In v (datesValues plan) -> noPlannedSeconds v = false ->
  isValid (parse (from v)) = false \/ isValid (parse (to v)) = false ->
  mapPlans queryFrom queryTo plans = Throw TypeError.
Proof.
  intros Hplan Hv Hn Hbad.
  apply (mapPlans_disjoint_throws queryFrom queryTo plans plan v); auto.
  now apply intersect_invalid, planDateRange_invalid.
Qed.

Lemma mapPlans_throws_on_unparsed_date_witness :
  mapPlans (parse "2020-01-10") (parse "2020-01-12")
    [Examples.fixBug 7200
       [mkPlanDateValues "2020-01-11" "2020-02-30" (Some 7200)]]
  = Throw TypeError.
Proof.
  apply (mapPlans_throws_on_unparsed_date _ _ _
           (Examples.fixBug 7200
              [mkPlanDateValues "2020-01-11" "2020-02-30" (Some 7200)])
           (mkPlanDateValues "2020-01-11" "2020-02-30" (Some 7200))).
  - simpl. auto.
  - simpl. auto.
  - reflexivity.
  - right. reflexivity.
Defined.

(** X10.  The extractor yields one range for each sub-range with planned
    seconds, in their order, and none of them is reversed: the end of an
    extracted range is never before its start.  When both dates of the
    sub-range parse, the range runs from the first millisecond of the
    earlier day to the last millisecond of the later day. *)
Theorem extracted_ranges_are_ordered (plan : Plan) :
  getPlanDateRanges plan
  = map planDateRange
        (List.filter (fun v => negb (noPlannedSeconds v)) (datesValues plan))
  /\ (forall r, In r (getPlanDateRanges plan) ->
        isBefore (rangeEnd r) (rangeStart r) = false)
  /\ (forall v, In v (datesValues plan) -> noPlannedSeconds v = false ->
        isValid (parse (from v)) = true -> isValid (parse (to v)) = true ->
        In (planDateRange v) (getPlanDateRanges plan)
        /\ wholeDays (planDateRange v) = true
        /\ dayOf (rangeStart (planDateRange v))
           = Z.min (dayOf (parse (from v))) (dayOf (parse (to v)))
        /\ dayOf (rangeEnd (planDateRange v))
           = Z.max (dayOf (parse (from v))) (dayOf (parse (to v)))).
Proof.
  split; [apply getPlanDateRanges_filter | split].
  - intros r Hr. apply in_getPlanDateRanges in Hr as (v & _ & _ & ->).
    destruct (isValid (parse (from v))) eqn:Vf;
      [destruct (isValid (parse (to v))) eqn:Vt|].
    + destruct (planDateRange_valid v Vf Vt) as (Hp & _ & _).
      destruct (wholeDays_values _ Hp) as [Hs He].
      apply wholeDays_inv in Hp as (_ & _ & _ & _ & Hle).
      unfold isBefore. rewrite Hs, He. unfold num_lt, msPerDay.
      apply Z.ltb_ge. lia.
    + unfold isBefore.
      destruct (planDateRange_invalid v (or_intror Vt)) as [-> | ->];
        [destruct (valueOf _) | ]; reflexivity.
    + unfold isBefore.
      destruct (planDateRange_invalid v (or_introl Vf)) as [-> | ->];
        [destruct (valueOf _) | ]; reflexivity.
  - intros v Hv Hn Vf Vt. split.
    + apply in_getPlanDateRanges. eauto.
    + apply planDateRange_valid; assumption.
Qed.

Lemma extracted_ranges_are_ordered_witness :
  isBefore (rangeEnd (mkRange (Local 2020 0 10 0) (Local 2020 0 12 86399999)))
           (rangeStart (mkRange (Local 2020 0 10 0) (Local 2020 0 12 86399999)))
  = false.
Proof.
  apply (proj1 (proj2 (extracted_ranges_are_ordered
                         (Examples.fixBug 3600
                            [mkPlanDateValues "2020-01-12" "2020-01-10"
                                              (Some 3600)])))).
  simpl. auto.
Defined.

End ExtractorEdgeFacts.

(* ===================================================================== *)
(** ** The results table *)
(* ===================================================================== *)

Section TableFacts.
  Import Calendar MomentJs MomentRange Props Get Views GetTable.

Lemma item_rows_no_header (jiraBaseUrl : string) (items : list PlanData) :
  List.filter isHeader
    (map (fun plannedItem =>
            [Text (taskKey plannedItem); Text (plannedTime plannedItem);
             Text (pdDescription plannedItem);
             Text (jiraBaseUrl +:+ "browse/" +:+ taskKey plannedItem)])
         items) = [].
Proof. induction items as [|i items IH]; simpl; auto. Qed.

Lemma item_rows_all_items (jiraBaseUrl : string) (items : list PlanData) :
  List.filter isItemRow
    (map (fun plannedItem =>
            [Text (taskKey plannedItem); Text (plannedTime plannedItem);
             Text (pdDescription plannedItem);
             Text (jiraBaseUrl +:+ "browse/" +:+ taskKey plannedItem)])
         items)
  = map (fun plannedItem =>
           [Text (taskKey plannedItem); Text (plannedTime plannedItem);
            Text (pdDescription plannedItem);
            Text (jiraBaseUrl +:+ "browse/" +:+ taskKey plannedItem)])
        items.
Proof. induction items as [|i items IH]; simpl; [|rewrite IH]; auto. Qed.

Lemma table_headers (formatDate : string -> string) (queryContainsPlans : bool)
    (mappedPlans : Js.Object (list PlanData)) (jiraBaseUrl : string) :
  List.filter isHeader
    (buildResultsTable formatDate queryContainsPlans mappedPlans jiraBaseUrl)
  = map (fun key =>
           [Spanning (if queryContainsPlans then 4 else 1) "center"
                     (Bold ("Planned time for " +:+ formatDate key))])
        (Js.keys mappedPlans).
Proof.
  unfold buildResultsTable.
  induction mappedPlans as [|[key items] rest IH]; [reflexivity|].
  cbn [flat_map Js.keys map fst snd]. rewrite List.filter_app, IH.
  unfold dayRows. cbn [List.filter isHeader app].
  destruct (List.length items =? 0)%nat.
  - reflexivity.
  - cbn [List.filter isHeader]. now rewrite item_rows_no_header.
Qed.

(** X11.  For a query interval of real dates with [from] not after [to],
    the table printed for a response has exactly one header row for each day
    of the interval, in chronological order, whatever the plans are; its one
    cell spans 4 columns when the response holds a plan and 1 column when it
    holds none. *)
Theorem table_has_one_header_per_day
    (formatDate : string -> string) (config : gmap string Js.Value)
    (queryFrom queryTo : Moment) (results : list Plan)
    (table : list (list Cell)) :
  wfMoment queryFrom = true -> wfMoment queryTo = true ->
  dayOf queryFrom <= dayOf queryTo ->
  thenCatch formatDate config queryFrom queryTo results = OutputDefault table ->
  List.filter isHeader table
  = map (fun i =>
           [Spanning (if (0 <? List.length results)%nat then 4 else 1) "center"
                     (Bold ("Planned time for "
                              +:+ formatDate (format (addDays i queryFrom))))])
        (seq 0 (S (Z.to_nat (dayOf queryTo - dayOf queryFrom)))).
Proof.
  intros Wf Wt Hle. unfold thenCatch.
  destruct (mapPlans queryFrom queryTo results) as [m|e] eqn:Hrun;
    [|discriminate].
  intros H. injection H as <-.
  rewrite table_headers, (mapPlans_keys_list _ _ _ _ Wf Wt Hle Hrun), map_map.
  reflexivity.
Qed.

Lemma table_has_one_header_per_day_witness :
  List.filter isHeader
    [[Spanning 1 "center" (Bold "Planned time for 2020-01-10")];
     [Spanning 1 "center" (Italic "No planned time for this day!")]]
  = [[Spanning 1 "center" (Bold "Planned time for 2020-01-10")]].
Proof.
  apply (table_has_one_header_per_day (fun key => key) ∅
           (parse "2020-01-10") (parse "2020-01-10") [] _
           eq_refl eq_refl ltac:(vm_compute; discriminate) eq_refl).
Defined.

Lemma set_absent {V : Type} (obj : Js.Object V) (key : string) (value : V) :
  ~ In key (Js.keys obj) -> Js.set obj key value = (obj ++ [(key, value)])%list.
Proof.
  induction obj as [|[k v] rest IH]; simpl; [reflexivity|].
  intros Hin. destruct (String.eqb_spec k key) as [-> | Hk]; [tauto|].
  f_equal. apply IH. tauto.
Qed.

Lemma initial_fold_entries (days : list Moment)
    (acc : Js.Object (list PlanData)) :
  List.NoDup (Js.keys acc ++ map format days) ->
  fold_left (fun acc day => Js.set acc (format day) []) days acc
  = (acc ++ map (fun day => (format day, [])) days)%list.
Proof.
  revert acc. induction days as [|d days IH]; intros acc Hnd; simpl.
  - now rewrite app_nil_r.
  - pose proof (NoDup_remove_2 _ _ _ Hnd) as Hnotin.
    rewrite set_absent
      by (intros Hin; apply Hnotin, in_or_app; now left).
    rewrite IH.
    + now rewrite <- app_assoc.
    + unfold Js.keys in *. rewrite map_app. simpl.
      now rewrite <- app_assoc.
Qed.

(** X12.  A response without plans, for a query interval of real dates with
    [from] not after [to], prints for each day of the interval, in order, a
    header row and the row "No planned time for this day!", each of one
    cell spanning one column, and nothing else. *)
Theorem empty_response_table
    (formatDate : string -> string) (config : gmap string Js.Value)
    (queryFrom queryTo : Moment) :
  wfMoment queryFrom = true -> wfMoment queryTo = true ->
  dayOf queryFrom <= dayOf queryTo ->
  thenCatch formatDate config queryFrom queryTo []
  = OutputDefault
      (flat_map
         (fun i =>
            [[Spanning 1 "center"
                (Bold ("Planned time for "
                         +:+ formatDate (format (addDays i queryFrom))))];
             [Spanning 1 "center" (Italic "No planned time for this day!")]])
         (seq 0 (S (Z.to_nat (dayOf queryTo - dayOf queryFrom))))).
Proof.
  intros Wf Wt Hle.
  pose proof (queryRange_wholeDays queryFrom queryTo Wf Wt Hle) as Hq.
  unfold thenCatch, mapPlans. cbn [forEachM List.length Nat.ltb Nat.leb].
  f_equal. unfold initialPlans.
  rewrite initial_fold_entries by (now apply byDays_keys_NoDup).
  rewrite byDays_wholeDays by assumption. cbn [app rangeStart rangeEnd range].
  rewrite dayOf_startOfDay, dayOf_endOfDay, map_map.
  unfold buildResultsTable.
  induction (seq 0 (S (Z.to_nat (dayOf queryTo - dayOf queryFrom))))
    as [|i l IH]; [reflexivity|].
  cbn [map flat_map fst snd]. rewrite IH.
  unfold dayRows. cbn [List.length Nat.eqb app].
  now rewrite format_addDays_startOfDay.
Qed.

Lemma empty_response_table_witness :
  thenCatch (fun key => key) ∅ (parse "2020-01-10") (parse "2020-01-11") []
  = OutputDefault
      [[Spanning 1 "center" (Bold "Planned time for 2020-01-10")];
       [Spanning 1 "center" (Italic "No planned time for this day!")];
       [Spanning 1 "center" (Bold "Planned time for 2020-01-11")];
       [Spanning 1 "center" (Italic "No planned time for this day!")]].
Proof.
  apply (empty_response_table (fun key => key) ∅
           (parse "2020-01-10") (parse "2020-01-11") eq_refl eq_refl).
  vm_compute. discriminate.
Defined.

(** X13.  When [mapPlans] returns, the table has one row of four plain
    cells for each item of the mapping, day after day and within a day in
    the order of its items: the task key, the planned time, the description
    and the link, which is the configured [jiraBaseUrl] (or, when none is
    stored, https://sitecrafting.atlassian.net/) followed by browse/ and the
    task key, with nothing put between them. *)
Theorem table_item_rows
    (formatDate : string -> string) (config : gmap string Js.Value)
    (queryFrom queryTo : Moment) (results : list Plan)
    (mappedPlans : Js.Object (list PlanData)) :
  mapPlans queryFrom queryTo results = Ok mappedPlans ->
  exists table jiraBaseUrl,
    thenCatch formatDate config queryFrom queryTo results = OutputDefault table
    /\ jiraBaseUrl
       = toString (configGetOr config "jiraBaseUrl"
                     (Js.Str "https://sitecrafting.atlassian.net/"))
    /\ (config !! "jiraBaseUrl" = None ->
        jiraBaseUrl = "https://sitecrafting.atlassian.net/")
    /\ List.filter isItemRow table
       = flat_map
           (fun entry =>
              map (fun plannedItem =>
                     [Text (taskKey plannedItem);
                      Text (plannedTime plannedItem);
                      Text (pdDescription plannedItem);
                      Text (jiraBaseUrl +:+ "browse/" +:+ taskKey plannedItem)])
                  (snd entry))
           mappedPlans.
Proof.
  intros Hrun. unfold thenCatch. rewrite Hrun.
  do 2 eexists. split; [reflexivity | split; [reflexivity | split]].
  - intros Hnone. unfold configGetOr, configGet. now rewrite Hnone.
  - unfold buildResultsTable. generalize (0 <? List.length results)%nat.
    intros qcp. clear Hrun.
    induction mappedPlans as [|[key items] rest IH]; [reflexivity|].
    cbn [flat_map fst snd]. rewrite List.filter_app, IH. f_equal.
    unfold dayRows. cbn [List.filter isItemRow].
    destruct items as [|i items]; [reflexivity|].
    cbn [List.length Nat.eqb List.filter isItemRow].
    now rewrite item_rows_all_items.
Qed.

Lemma table_item_rows_witness :
  exists table jiraBaseUrl,
    thenCatch (fun key => key) ∅ (parse "2020-01-10") (parse "2020-01-10")
      [Examples.fixBug 7200
         [mkPlanDateValues "2020-01-10" "2020-01-10" (Some 7200)]]
    = OutputDefault table
    /\ jiraBaseUrl = "https://sitecrafting.atlassian.net/"
    /\ List.filter isItemRow table
       = [[Text "ABC-123"; Text "2 hours"; Text "Fix bug";
           Text "https://sitecrafting.atlassian.net/browse/ABC-123"]].
Proof.
  destruct (table_item_rows (fun key => key) ∅
              (parse "2020-01-10") (parse "2020-01-10")
              [Examples.fixBug 7200
                 [mkPlanDateValues "2020-01-10" "2020-01-10" (Some 7200)]]
              _ eq_refl)
    as (table & base & Hprint & Hbase & Hdefault & Hrows).
  exists table, base. split; [exact Hprint|].
  pose proof (Hdefault eq_refl) as Hb. split; [exact Hb|].
  rewrite Hrows, Hb. reflexivity.
Defined.

End TableFacts.

(* ===================================================================== *)
(** ** The first version of the command *)
(* ===================================================================== *)

Section LegacyFacts.
  Import Calendar MomentJs MomentRange Props Get Views.

(** X14.  With neither shorthand flag set, [execute] of the class does what
    the handler of the first version does: it prints the same error, or
    issues the same request, for every configuration and pair of date
    strings. *)
Theorem execute_agrees_with_first_version
    (config : gmap string Js.Value) (argv : Argv) (now : Moment) :
  tomorrow argv = false -> week argv = false ->
  execute config argv now = Legacy.handler config argv.
Proof.
  intros Ht Hw. unfold execute, Legacy.handler, validateConfig.
  destruct (negb (Js.truthy (configGet config "accountId"))
            || negb (Js.truthy (configGet config "token")));
    [reflexivity|].
  cbn [mbind Result_bind].
  unfold validateArgs, getQueryFromAndToDates. rewrite Ht, Hw.
  cbn [andb datesFrom datesTo].
  destruct (negb (isValid (parse (fromDate argv)))
            || negb (isValid (parse (toDate argv)))); [reflexivity|].
  destruct (isAfter (parse (fromDate argv)) (parse (toDate argv)));
    [reflexivity|].
  destruct (moreThan13 _); reflexivity.
Qed.

Lemma execute_agrees_with_first_version_witness :
  execute Examples.configured (mkArgv "2020-01-10" "2020-01-25" false false)
          Examples.now
  = Legacy.handler Examples.configured
      (mkArgv "2020-01-10" "2020-01-25" false false).
Proof.
  apply (execute_agrees_with_first_version Examples.configured
           (mkArgv "2020-01-10" "2020-01-25" false false) Examples.now
           eq_refl eq_refl).
Defined.

(** A range that ends on a day before the day it starts on meets no range of
    whole days. *)
Lemma intersect_reversed (q : DateRange) (s e : Moment) :
  wholeDays q = true -> wfMoment s = true -> wfMoment e = true ->
  dayOf e < dayOf s ->
  intersect q (range (startOfDay s) (endOfDay e)) = None.
Proof.
  intros Hq Ws We Hlt.
  destruct (wholeDays_values q Hq) as [Hqs Hqe].
  pose proof (wholeDays_inv q Hq) as (_ & _ & _ & _ & Lq).
  unfold intersect, range. cbn [rangeStart rangeEnd].
  rewrite Hqs, Hqe.
  rewrite (valueOf_wf _ (wfMoment_startOfDay s Ws)),
    (valueOf_wf _ (wfMoment_endOfDay e We)).
  rewrite dayOf_startOfDay, dayOf_endOfDay, msOf_startOfDay,
    (msOf_endOfDay e We).
  unfold num_eq, num_le, num_lt, msPerDay.
  set (qs := dayOf (rangeStart q)) in *. set (qe := dayOf (rangeEnd q)) in *.
  destruct (Z.eqb_spec (qs * 86400000) (qe * 86400000 + (86400000 - 1)));
    [lia|].
  destruct (Z.eqb_spec (dayOf s * 86400000 + 0)
                       (dayOf e * 86400000 + (86400000 - 1))); [lia|].
  repeat match goal with
         | |- context [?a <=? ?b] => destruct (Z.leb_spec a b)
         | |- context [?a <? ?b] => destruct (Z.ltb_spec a b)
         end; simpl; try reflexivity; lia.
Qed.

Lemma legacy_throws_TypeError (q : DateRange)
    (m : Js.Object (list Legacy.OldPlanData)) (plan : Legacy.OldPlan)
    (e : Exn) :
  Legacy.mapPlan q m plan = Throw e -> e = TypeError.
Proof.
  unfold Legacy.mapPlan. destruct (intersect _ _); [|congruence].
  intros H. apply forEachM_thrown_by_body in H as (m1 & day & _ & H).
  unfold Legacy.pushOnDay in H. destruct (Js.get _ _); congruence.
Qed.

(** X15.  The first version of [mapPlans] throws a [TypeError] on a plan
    whose end date is before its start date, wherever the query interval
    lies: it takes the two dates in the order given, and [intersect]
    returns [null] for the reversed range. *)
Theorem first_version_throws_on_reversed_plan
    (queryFrom queryTo : Moment) (plans : list Legacy.OldPlan)
    (plan : Legacy.OldPlan) :
  wfMoment queryFrom = true -> wfMoment queryTo = true ->
  dayOf queryFrom <= dayOf queryTo ->
  In plan plans ->
  isValid (parse (Legacy.startDate plan)) = true ->
  isValid (parse (Legacy.endDate plan)) = true ->
  dayOf (parse (Legacy.endDate plan)) < dayOf (parse (Legacy.startDate plan)) ->
  Legacy.mapPlans queryFrom queryTo plans = Throw TypeError.
Proof.
  intros Wf Wt Hle Hplan Vs Ve Hrev.
  pose proof (queryRange_wholeDays queryFrom queryTo Wf Wt Hle) as Hq.
  destruct (parse_wf _ Vs) as [Ws _]. destruct (parse_wf _ Ve) as [We _].
  unfold Legacy.mapPlans.
  apply (forEachM_throws (Legacy.mapPlan _) (fun _ => True)); auto.
  - intros m p _ _. destruct (Legacy.mapPlan _ m p) as [m'|e] eqn:E.
    + left. eauto.
    + right. now rewrite (legacy_throws_TypeError _ _ _ _ E).
  - exists plan. split; [exact Hplan|]. intros m _.
    unfold Legacy.mapPlan. now rewrite intersect_reversed.
Qed.

Lemma first_version_throws_on_reversed_plan_witness :
  Legacy.mapPlans (parse "2020-01-10") (parse "2020-01-12")
    [Legacy.mkOldPlan "ABC-1" "" "2020-01-12" "2020-01-10" 3600]
  = Throw TypeError.
Proof.
  apply (first_version_throws_on_reversed_plan
           (parse "2020-01-10") (parse "2020-01-12") _
           (Legacy.mkOldPlan "ABC-1" "" "2020-01-12" "2020-01-10" 3600)
           eq_refl eq_refl).
  - vm_compute. discriminate.
  - simpl. auto.
  - reflexivity.
  - reflexivity.
  - vm_compute. reflexivity.
Defined.

Lemma get_forgetAll (m : Js.Object (list Legacy.OldPlanData)) (key : string) :
  Js.get (forgetAll m) key = option_map (map forget) (Js.get m key).
Proof.
  induction m as [|[k items] rest IH]; [reflexivity|].
  simpl. destruct (String.eqb k key); [reflexivity | exact IH].
Qed.

Lemma set_forgetAll (m : Js.Object (list Legacy.OldPlanData)) (key : string)
    (items : list Legacy.OldPlanData) :
  Js.set (forgetAll m) key (map forget items) = forgetAll (Js.set m key items).
Proof.
  induction m as [|[k old] rest IH]; [reflexivity|].
  simpl. destruct (String.eqb k key); simpl; [reflexivity | now rewrite IH].
Qed.

(** Two loops over the same elements whose bodies correspond through [h]
    correspond through [h]. *)
Lemma forEachM_corresponds {A S T : Type} (f : S -> A -> Result S)
    (g : T -> A -> Result T) (h : S -> T) (xs : list A) :
  (forall s x, In x xs ->
     match f s x with
     | Ok s' => g (h s) x = Ok (h s')
     | Throw e => g (h s) x = Throw e
     end) ->
  forall s,
    match forEachM f xs s with
    | Ok s' => forEachM g xs (h s) = Ok (h s')
    | Throw e => forEachM g xs (h s) = Throw e
    end.
Proof.
  induction xs as [|x xs IH]; intros Hstep s; simpl; [reflexivity|].
  pose proof (Hstep s x (or_introl eq_refl)) as Hx.
  destruct (f s x) as [s1|e]; rewrite Hx; simpl; [|reflexivity].
  apply IH. intros s0 y Hy. apply Hstep. now right.
Qed.

Lemma forEachM_map {A B S : Type} (f : S -> B -> Result S) (u : A -> B)
    (xs : list A) (s : S) :
  forEachM f (map u xs) s = forEachM (fun s x => f s (u x)) xs s.
Proof.
  revert s. induction xs as [|x xs IH]; intros s; simpl; [reflexivity|].
  destruct (f s (u x)); simpl; [apply IH | reflexivity].
Qed.

Lemma initialPlans_forgetAll (q : DateRange) :
  forgetAll (Legacy.initialPlans q) = initialPlans q.
Proof.
  unfold Legacy.initialPlans, initialPlans.
  change (@nil (string * list PlanData)) with (forgetAll []).
  generalize (@nil (string * list Legacy.OldPlanData)) as acc.
  induction (byDays q) as [|d days IH]; intros acc; simpl; [reflexivity|].
  rewrite IH. f_equal. symmetry. apply (set_forgetAll acc (format d) []).
Qed.

(** X16.  On plans none of which has its end date before its start date,
    the [mapPlans] of the class, given each plan as a plan with the one
    sub-range from its start date to its end date, does what the [mapPlans]
    of the first version does: it throws when that one throws, and
    otherwise returns the same mapping, each item without the two dates the
    first version kept in it. *)
Theorem mapPlans_agrees_with_first_version
    (queryFrom queryTo : Moment) (plans : list Legacy.OldPlan) :
  (forall plan, In plan plans ->
     isBefore (parse (Legacy.endDate plan)) (parse (Legacy.startDate plan))
     = false) ->
  match Legacy.mapPlans queryFrom queryTo plans with
  | Ok mappedPlans =>
      mapPlans queryFrom queryTo (map upgrade plans)
      = Ok (forgetAll mappedPlans)
  | Throw e => mapPlans queryFrom queryTo (map upgrade plans) = Throw e
  end.
Proof.
  intros Hord. unfold Legacy.mapPlans, mapPlans.
  set (q := range (startOfDay queryFrom) (endOfDay queryTo)).
  rewrite forEachM_map, <- initialPlans_forgetAll.
  apply (forEachM_corresponds (Legacy.mapPlan q) _ forgetAll).
  intros m plan Hplan.
  unfold getPlanDateRanges, upgrade. cbn [datesValues fold_left].
  cbn [noPlannedSeconds timePlannedSeconds Z.eqb app forEachM].
  unfold planDateRange. cbn [from to]. rewrite (Hord plan Hplan).
  unfold Legacy.mapPlan, mapPlanRange.
  destruct (intersect q _) as [a|]; [|reflexivity].
  pose proof (forEachM_corresponds
                (Legacy.pushOnDay (Legacy.planDataOf plan))
                (pushOnDay (forget (Legacy.planDataOf plan)))
                forgetAll (byDays a)) as Hdays.
  specialize (Hdays
    ltac:(intros s day _; unfold Legacy.pushOnDay, pushOnDay;
          rewrite get_forgetAll; destruct (Js.get s (format day));
          [simpl; rewrite <- set_forgetAll, map_app|]; reflexivity) m).
  change (planDataOf
            {| planItemSelf := Legacy.oldSelf plan;
               description := Legacy.oldDescription plan;
               secondsPerDay := Legacy.oldSecondsPerDay plan;
               datesValues :=
                 [mkPlanDateValues (Legacy.startDate plan)
                                   (Legacy.endDate plan) (Some 1)] |})
    with (forget (Legacy.planDataOf plan)).
  destruct (forEachM (Legacy.pushOnDay _) (byDays a) m); rewrite Hdays;
    reflexivity.
Qed.

Lemma mapPlans_agrees_with_first_version_witness :
  mapPlans (parse "2020-01-10") (parse "2020-01-11")
    (map upgrade [Legacy.mkOldPlan "ABC-1" "" "2020-01-11" "2020-01-20" 3600])
  = Ok (forgetAll
          [("2020-01-10", []);
           ("2020-01-11",
            [Legacy.planDataOf
               (Legacy.mkOldPlan "ABC-1" "" "2020-01-11" "2020-01-20" 3600)])]).
Proof.
  apply (mapPlans_agrees_with_first_version
           (parse "2020-01-10") (parse "2020-01-11")
           [Legacy.mkOldPlan "ABC-1" "" "2020-01-11" "2020-01-20" 3600]).
  intros plan [<- | []]. reflexivity.
Defined.

End LegacyFacts.
